(** * FPS-Engine: the player movement and jump state machine

    A shallow embedding of [src/player/Player.js] and
    [src/player/Movement.js], together with the parts of three.js
    ([Vector3], [Quaternion], [Euler]) and of the engine loop they use.

    JavaScript numbers are modelled as real numbers: arithmetic is exact,
    comparisons are the order of [R], [Math.sqrt], [Math.sin] and [Math.cos]
    are [sqrt], [sin] and [cos].  Timestamps returned by [performance.now()]
    are reals handed to the functions that read the clock.  The jump
    counter, which the code only ever sets to 0, 1 or increments, is an
    integer. *)

From Stdlib Require Import Reals Lra Psatz ZArith Lia Bool List.
From Stdlib Require String.
Import ListNotations.
Import String.StringSyntax.
Delimit Scope string_scope with string.

Local Open Scope R_scope.

(** ** Comparisons of JavaScript numbers as booleans *)

Module Num.

Definition ltb (a b : R) : bool := if Rlt_dec a b then true else false.
Definition gtb (a b : R) : bool := ltb b a.
Definition eqb (a b : R) : bool := if Req_dec_T a b then true else false.

End Num.

(** ** three.js: Euler angles, quaternions and vectors *)

Inductive EulerOrder := XYZ | YXZ.

Module Euler.
Record t := new { x : R; y : R; z : R; order : EulerOrder }.
(** [new Euler(x, y, z)] without an order uses the default, XYZ. *)
Definition new3 (x y z : R) : t := new x y z XYZ.
Definition set_x (e : t) (v : R) : t := new v (y e) (z e) (order e).
Definition set_y (e : t) (v : R) : t := new (x e) v (z e) (order e).
End Euler.

Module Quaternion.
Record t := new { x : R; y : R; z : R; w : R }.

(** [Quaternion.setFromEuler], for the two orders the engine constructs. *)
Definition setFromEuler (e : Euler.t) : t :=
  let c1 := cos (Euler.x e / 2) in
  let c2 := cos (Euler.y e / 2) in
  let c3 := cos (Euler.z e / 2) in
  let s1 := sin (Euler.x e / 2) in
  let s2 := sin (Euler.y e / 2) in
  let s3 := sin (Euler.z e / 2) in
  match Euler.order e with
  | XYZ => new (s1 * c2 * c3 + c1 * s2 * s3)
               (c1 * s2 * c3 - s1 * c2 * s3)
               (c1 * c2 * s3 + s1 * s2 * c3)
               (c1 * c2 * c3 - s1 * s2 * s3)
  | YXZ => new (s1 * c2 * c3 + c1 * s2 * s3)
               (c1 * s2 * c3 - s1 * c2 * s3)
               (c1 * c2 * s3 - s1 * s2 * c3)
               (c1 * c2 * c3 + s1 * s2 * s3)
  end.
End Quaternion.

Module Vector3.
Record t := new { x : R; y : R; z : R }.

Definition zero : t := new 0 0 0.

Definition set_x (v : t) (a : R) : t := new a (y v) (z v).
Definition set_y (v : t) (a : R) : t := new (x v) a (z v).
Definition set_z (v : t) (a : R) : t := new (x v) (y v) a.

Definition lengthSq (v : t) : R := x v * x v + y v * y v + z v * z v.
Definition length (v : t) : R := sqrt (lengthSq v).
Definition multiplyScalar (v : t) (s : R) : t := new (x v * s) (y v * s) (z v * s).
Definition divideScalar (v : t) (s : R) : t := multiplyScalar v (1 / s).
(** [normalize] divides by [this.length() || 1]. *)
Definition normalize (v : t) : t :=
  divideScalar v (if Num.eqb (length v) 0 then 1 else length v).
Definition addScaledVector (v w : t) (s : R) : t :=
  new (x v + x w * s) (y v + y w * s) (z v + z w * s).
Definition addVectors (a b : t) : t := new (x a + x b) (y a + y b) (z a + z b).
Definition subVectors (a b : t) : t := new (x a - x b) (y a - y b) (z a - z b).
Definition dot (v w : t) : R := x v * x w + y v * y w + z v * z w.

Definition applyQuaternion (v : t) (q : Quaternion.t) : t :=
  let qx := Quaternion.x q in
  let qy := Quaternion.y q in
  let qz := Quaternion.z q in
  let qw := Quaternion.w q in
  let ix := qw * x v + qy * z v - qz * y v in
  let iy := qw * y v + qz * x v - qx * z v in
  let iz := qw * z v + qx * y v - qy * x v in
  let iw := - qx * x v - qy * y v - qz * z v in
  new (ix * qw + iw * - qx + iy * - qz - iz * - qy)
      (iy * qw + iw * - qy + iz * - qx - ix * - qz)
      (iz * qw + iw * - qz + ix * - qy - iy * - qx).

(** The horizontal part [new Vector3(v.x, 0, v.z)] and its length. *)
Definition horizontal (v : t) : t := new (x v) 0 (z v).
Definition hspeed (v : t) : R := length (horizontal v).
End Vector3.

(** ** State *)

(** The fields of the physics body the player reads and writes. *)
Record PhysicsBody := mkPhysicsBody {
  pb_position : Vector3.t;
  pb_velocity : Vector3.t;
  pb_onGround : bool
}.

Definition pb_set_velocity (b : PhysicsBody) (v : Vector3.t) : PhysicsBody :=
  mkPhysicsBody (pb_position b) v (pb_onGround b).
Definition pb_set_position (b : PhysicsBody) (v : Vector3.t) : PhysicsBody :=
  mkPhysicsBody v (pb_velocity b) (pb_onGround b).

(** The mutable fields of [Movement]. *)
Record Movement := mkMovement {
  moveDirection : Vector3.t;
  targetVelocity : Vector3.t;
  lastMoveInput : Vector3.t;
  lastDirection : Vector3.t;
  lastSpeed : R;
  directionChangeTime : R;
  hasChangedDirection : bool
}.

(** The tuning fields of [Movement]: assigned once in the constructor and
    never written again. *)
Definition walkSpeed : R := 6.
Definition runSpeed : R := 10.
Definition maxSpeed : R := 12.
Definition groundAcceleration : R := 150.
Definition airAcceleration : R := 20.
Definition groundFriction : R := 5 / 10.
Definition airFriction : R := 5 / 100.
Definition momentumRetention : R := 9 / 10.
Definition dirChangeBoostMultiplier : R := 4.
Definition jumpForce : R := 75 / 10.
Definition jumpBoostForward : R := 2 / 10.
Definition airControl : R := 9 / 10.
Definition directionChangeThreshold : R := 85 / 100.

Record Player := mkPlayer {
  position : Vector3.t;
  velocity : Vector3.t;
  viewRotation : Euler.t;
  moveInput : Vector3.t;
  isJumping : bool;
  isSprinting : bool;
  jumpCount : Z;
  maxJumps : Z;
  onGround : bool;
  lastJumpTime : R;
  jumpRequested : bool;
  jumpBufferTime : R;
  lastGroundedTime : R;
  physicsBody : PhysicsBody;
  movement : Movement;
  mouseSensitivity : R
}.

(** [jumpBufferWindow] and [coyoteTime], in milliseconds; like the tuning of
    [Movement] they are assigned only in the constructor. *)
Definition jumpBufferWindow : R := 200.
Definition coyoteTime : R := 150.
(** The cooldown literal of [processJump]. *)
Definition jumpCooldown : R := 100.

(** *** Field updates *)

Definition set_moveDirection (m : Movement) (v : Vector3.t) : Movement :=
  mkMovement v (targetVelocity m) (lastMoveInput m) (lastDirection m)
             (lastSpeed m) (directionChangeTime m) (hasChangedDirection m).
Definition set_targetVelocity (m : Movement) (v : Vector3.t) : Movement :=
  mkMovement (moveDirection m) v (lastMoveInput m) (lastDirection m)
             (lastSpeed m) (directionChangeTime m) (hasChangedDirection m).
Definition set_lastMoveInput (m : Movement) (v : Vector3.t) : Movement :=
  mkMovement (moveDirection m) (targetVelocity m) v (lastDirection m)
             (lastSpeed m) (directionChangeTime m) (hasChangedDirection m).
Definition set_lastDirection (m : Movement) (v : Vector3.t) : Movement :=
  mkMovement (moveDirection m) (targetVelocity m) (lastMoveInput m) v
             (lastSpeed m) (directionChangeTime m) (hasChangedDirection m).
Definition set_lastSpeed (m : Movement) (a : R) : Movement :=
  mkMovement (moveDirection m) (targetVelocity m) (lastMoveInput m) (lastDirection m)
             a (directionChangeTime m) (hasChangedDirection m).
Definition set_directionChangeTime (m : Movement) (a : R) : Movement :=
  mkMovement (moveDirection m) (targetVelocity m) (lastMoveInput m) (lastDirection m)
             (lastSpeed m) a (hasChangedDirection m).
Definition set_hasChangedDirection (m : Movement) (b : bool) : Movement :=
  mkMovement (moveDirection m) (targetVelocity m) (lastMoveInput m) (lastDirection m)
             (lastSpeed m) (directionChangeTime m) b.

Definition set_position (p : Player) (v : Vector3.t) : Player :=
  mkPlayer v (velocity p) (viewRotation p) (moveInput p) (isJumping p)
           (isSprinting p) (jumpCount p) (maxJumps p) (onGround p) (lastJumpTime p)
           (jumpRequested p) (jumpBufferTime p) (lastGroundedTime p) (physicsBody p)
           (movement p) (mouseSensitivity p).
Definition set_velocity (p : Player) (v : Vector3.t) : Player :=
  mkPlayer (position p) v (viewRotation p) (moveInput p) (isJumping p)
           (isSprinting p) (jumpCount p) (maxJumps p) (onGround p) (lastJumpTime p)
           (jumpRequested p) (jumpBufferTime p) (lastGroundedTime p) (physicsBody p)
           (movement p) (mouseSensitivity p).
Definition set_viewRotation (p : Player) (e : Euler.t) : Player :=
  mkPlayer (position p) (velocity p) e (moveInput p) (isJumping p)
           (isSprinting p) (jumpCount p) (maxJumps p) (onGround p) (lastJumpTime p)
           (jumpRequested p) (jumpBufferTime p) (lastGroundedTime p) (physicsBody p)
           (movement p) (mouseSensitivity p).
Definition set_moveInput (p : Player) (v : Vector3.t) : Player :=
  mkPlayer (position p) (velocity p) (viewRotation p) v (isJumping p)
           (isSprinting p) (jumpCount p) (maxJumps p) (onGround p) (lastJumpTime p)
           (jumpRequested p) (jumpBufferTime p) (lastGroundedTime p) (physicsBody p)
           (movement p) (mouseSensitivity p).
Definition set_isJumping (p : Player) (b : bool) : Player :=
  mkPlayer (position p) (velocity p) (viewRotation p) (moveInput p) b
           (isSprinting p) (jumpCount p) (maxJumps p) (onGround p) (lastJumpTime p)
           (jumpRequested p) (jumpBufferTime p) (lastGroundedTime p) (physicsBody p)
           (movement p) (mouseSensitivity p).
Definition set_isSprinting (p : Player) (b : bool) : Player :=
  mkPlayer (position p) (velocity p) (viewRotation p) (moveInput p) (isJumping p)
           b (jumpCount p) (maxJumps p) (onGround p) (lastJumpTime p)
           (jumpRequested p) (jumpBufferTime p) (lastGroundedTime p) (physicsBody p)
           (movement p) (mouseSensitivity p).
Definition set_jumpCount (p : Player) (n : Z) : Player :=
  mkPlayer (position p) (velocity p) (viewRotation p) (moveInput p) (isJumping p)
           (isSprinting p) n (maxJumps p) (onGround p) (lastJumpTime p)
           (jumpRequested p) (jumpBufferTime p) (lastGroundedTime p) (physicsBody p)
           (movement p) (mouseSensitivity p).
Definition set_onGround (p : Player) (b : bool) : Player :=
  mkPlayer (position p) (velocity p) (viewRotation p) (moveInput p) (isJumping p)
           (isSprinting p) (jumpCount p) (maxJumps p) b (lastJumpTime p)
           (jumpRequested p) (jumpBufferTime p) (lastGroundedTime p) (physicsBody p)
           (movement p) (mouseSensitivity p).
Definition set_lastJumpTime (p : Player) (a : R) : Player :=
  mkPlayer (position p) (velocity p) (viewRotation p) (moveInput p) (isJumping p)
           (isSprinting p) (jumpCount p) (maxJumps p) (onGround p) a
           (jumpRequested p) (jumpBufferTime p) (lastGroundedTime p) (physicsBody p)
           (movement p) (mouseSensitivity p).
Definition set_jumpRequested (p : Player) (b : bool) : Player :=
  mkPlayer (position p) (velocity p) (viewRotation p) (moveInput p) (isJumping p)
           (isSprinting p) (jumpCount p) (maxJumps p) (onGround p) (lastJumpTime p)
           b (jumpBufferTime p) (lastGroundedTime p) (physicsBody p)
           (movement p) (mouseSensitivity p).
Definition set_jumpBufferTime (p : Player) (a : R) : Player :=
  mkPlayer (position p) (velocity p) (viewRotation p) (moveInput p) (isJumping p)
           (isSprinting p) (jumpCount p) (maxJumps p) (onGround p) (lastJumpTime p)
           (jumpRequested p) a (lastGroundedTime p) (physicsBody p)
           (movement p) (mouseSensitivity p).
Definition set_lastGroundedTime (p : Player) (a : R) : Player :=
  mkPlayer (position p) (velocity p) (viewRotation p) (moveInput p) (isJumping p)
           (isSprinting p) (jumpCount p) (maxJumps p) (onGround p) (lastJumpTime p)
           (jumpRequested p) (jumpBufferTime p) a (physicsBody p)
           (movement p) (mouseSensitivity p).
Definition set_physicsBody (p : Player) (b : PhysicsBody) : Player :=
  mkPlayer (position p) (velocity p) (viewRotation p) (moveInput p) (isJumping p)
           (isSprinting p) (jumpCount p) (maxJumps p) (onGround p) (lastJumpTime p)
           (jumpRequested p) (jumpBufferTime p) (lastGroundedTime p) b
           (movement p) (mouseSensitivity p).
Definition set_movement (p : Player) (m : Movement) : Player :=
  mkPlayer (position p) (velocity p) (viewRotation p) (moveInput p) (isJumping p)
           (isSprinting p) (jumpCount p) (maxJumps p) (onGround p) (lastJumpTime p)
           (jumpRequested p) (jumpBufferTime p) (lastGroundedTime p) (physicsBody p)
           m (mouseSensitivity p).

(** Writes to [player.physicsBody.velocity]. *)
Definition set_body_velocity (p : Player) (v : Vector3.t) : Player :=
  set_physicsBody p (pb_set_velocity (physicsBody p) v).
Definition body_velocity (p : Player) : Vector3.t := pb_velocity (physicsBody p).

(** The three places where a tick reads [performance.now()]: at the top of
    [Player.update], at the top of [Player.processJump], and in
    [Movement.detectDirectionChange]. *)
Record Clock := mkClock {
  now_update : R;
  now_jump : R;
  now_dir : R
}.

(** ** Movement.js *)

Definition calculateMoveDirection (mi : Vector3.t) (p : Player) : Player :=
  let rotation :=
    Quaternion.setFromEuler (Euler.new3 0 (Euler.y (viewRotation p)) 0) in
  let forward := Vector3.applyQuaternion (Vector3.new 0 0 (-1)) rotation in
  let right := Vector3.applyQuaternion (Vector3.new 1 0 0) rotation in
  let forward := Vector3.set_y forward 0 in
  let right := Vector3.set_y right 0 in
  let forward :=
    if Num.gtb (Vector3.lengthSq forward) 0 then Vector3.normalize forward else forward in
  let right :=
    if Num.gtb (Vector3.lengthSq right) 0 then Vector3.normalize right else right in
  let d := Vector3.new 0 0 0 in
  let d := Vector3.addScaledVector d forward (- Vector3.z mi) in
  let d := Vector3.addScaledVector d right (Vector3.x mi) in
  let d := if Num.gtb (Vector3.lengthSq d) 0 then Vector3.normalize d else d in
  set_movement p (set_moveDirection (movement p) d).

Definition detectDirectionChange (now : R) (p : Player) : Player :=
  let m := movement p in
  if Num.eqb (Vector3.lengthSq (lastDirection m)) 0 then
    set_movement p (set_hasChangedDirection m false)
  else
    let dotProduct := Vector3.dot (lastDirection m) (moveDirection m) in
    if Num.ltb dotProduct directionChangeThreshold then
      set_movement p
        (set_directionChangeTime (set_hasChangedDirection m true) now)
    else
      set_movement p
        (set_hasChangedDirection m
           (hasChangedDirection m && Num.ltb (now - directionChangeTime m) 100)).

(** Lines 131-173 of [applyAccelerationWithMomentum]: the velocity chosen by
    one of the two blending regimes, before the speed limit. *)
Definition blendVelocity (deltaTime : R) (p : Player) : Vector3.t :=
  let m := movement p in
  let currentVelocity := Vector3.horizontal (body_velocity p) in
  let currentSpeed := Vector3.length currentVelocity in
  if hasChangedDirection m && Num.gtb currentSpeed 2 then
    let newVelocity := Vector3.multiplyScalar currentVelocity momentumRetention in
    let targetContributionFactor := 1 - momentumRetention in
    Vector3.addScaledVector newVelocity (targetVelocity m) targetContributionFactor
  else
    let accel := if onGround p then groundAcceleration else airAcceleration in
    let accel :=
      if Num.ltb currentSpeed 2 || hasChangedDirection m
      then accel * dirChangeBoostMultiplier else accel in
    let accel := if negb (onGround p) then accel * airControl else accel in
    let velocityDelta := Vector3.subVectors (targetVelocity m) currentVelocity in
    let velocityDelta :=
      Vector3.multiplyScalar velocityDelta (Rmin (accel * deltaTime) 1) in
    Vector3.addVectors currentVelocity velocityDelta.

(** Lines 175-179: limit the maximum horizontal speed. *)
Definition limitSpeed (newVelocity : Vector3.t) : Vector3.t :=
  let newSpeed := Vector3.length newVelocity in
  if Num.gtb newSpeed maxSpeed
  then Vector3.multiplyScalar newVelocity (maxSpeed / newSpeed)
  else newVelocity.

(** Lines 181-183: only X and Z of the body's velocity are assigned. *)
Definition writeHorizontal (newVelocity : Vector3.t) (p : Player) : Player :=
  let v := body_velocity p in
  set_body_velocity p
    (Vector3.set_z (Vector3.set_x v (Vector3.x newVelocity)) (Vector3.z newVelocity)).

(** Lines 185-192: the forward boost of a jump. *)
Definition forwardBoost (p : Player) : Player :=
  if isJumping p && (jumpCount p =? 1)%Z then
    let boost :=
      Vector3.multiplyScalar (moveDirection (movement p)) (jumpBoostForward * walkSpeed) in
    let v := body_velocity p in
    let p := set_body_velocity p
               (Vector3.set_z (Vector3.set_x v (Vector3.x v + Vector3.x boost))
                              (Vector3.z v + Vector3.z boost)) in
    set_isJumping p false
  else p.

Definition applyAccelerationWithMomentum (deltaTime : R) (p : Player) : Player :=
  forwardBoost (writeHorizontal (limitSpeed (blendVelocity deltaTime p)) p).

Definition applyFriction (deltaTime : R) (p : Player) : Player :=
  let velocity := body_velocity p in
  let speed := Vector3.hspeed velocity in
  if Num.ltb speed (1 / 100) then
    set_body_velocity p (Vector3.set_z (Vector3.set_x velocity 0) 0)
  else
    let friction := if onGround p then groundFriction else airFriction in
    let friction := if Num.gtb speed 5 then friction * (5 / 10) else friction in
    let damping := Rmax 0 (1 - friction * deltaTime) in
    set_body_velocity p
      (Vector3.set_z (Vector3.set_x velocity (Vector3.x velocity * damping))
                     (Vector3.z velocity * damping)).

Definition applyJumpBoost (p : Player) : Player :=
  if Num.gtb (Vector3.lengthSq (moveDirection (movement p))) 0 && onGround p
  then set_isJumping p true
  else p.

Definition Movement_update (clk : Clock) (deltaTime : R) (p : Player) : Player :=
  let input := moveInput p in
  if Num.eqb (Vector3.lengthSq input) 0 then
    let p := applyFriction deltaTime p in
    set_movement p (set_lastMoveInput (movement p) input)
  else
    let input :=
      if Num.gtb (Vector3.lengthSq input) 1 then Vector3.normalize input else input in
    let p := calculateMoveDirection input p in
    let p := detectDirectionChange (now_dir clk) p in
    let speed := if isSprinting p then runSpeed else walkSpeed in
    let p :=
      set_movement p
        (set_targetVelocity (movement p)
           (Vector3.multiplyScalar (moveDirection (movement p)) speed)) in
    let p := applyAccelerationWithMomentum deltaTime p in
    let m := set_lastMoveInput (movement p) input in
    let m := set_lastDirection m (moveDirection m) in
    let m := set_lastSpeed m (Vector3.length (body_velocity p)) in
    set_movement p m.

(** ** Player.js *)

Definition canFirstJump (currentTime : R) (p : Player) : bool :=
  let inCoyoteTime := Num.ltb (currentTime - lastGroundedTime p) coyoteTime in
  onGround p || inCoyoteTime.

(** [processJump] returns whether a jump was performed, with the new state. *)
Definition processJump (currentTime : R) (p : Player) : bool * Player :=
  if Num.ltb (currentTime - lastJumpTime p) jumpCooldown then (false, p)
  else if canFirstJump currentTime p && (jumpCount p =? 0)%Z then
    let p := set_body_velocity p (Vector3.set_y (body_velocity p) jumpForce) in
    let p := set_jumpCount p 1 in
    let p := set_lastJumpTime p currentTime in
    (true, applyJumpBoost p)
  else if negb (canFirstJump currentTime p) && (jumpCount p <? maxJumps p)%Z then
    let p := set_body_velocity p
               (Vector3.set_y (body_velocity p) (jumpForce * (9 / 10))) in
    let p := set_jumpCount p (jumpCount p + 1) in
    let p := set_lastJumpTime p currentTime in
    (true, p)
  else (false, p).

(** Lines 134-150 of [Player.update]: mirror the body, track the ground
    state, reset the jump count on landing, record when the ground is left. *)
Definition trackGround (clk : Clock) (p : Player) : Player :=
  let p := set_position p (pb_position (physicsBody p)) in
  let p := set_velocity p (pb_velocity (physicsBody p)) in
  let wasOnGround := onGround p in
  let p := set_onGround p (pb_onGround (physicsBody p)) in
  let p := if onGround p && negb wasOnGround then set_jumpCount p 0 else p in
  if negb (onGround p) && wasOnGround
  then set_lastGroundedTime p (now_update clk)
  else p.

(** Lines 152-165 of [Player.update]: the buffered jump request. *)
Definition jumpPhase (clk : Clock) (p : Player) : Player :=
  if jumpRequested p then
    let jumpBuffer := Num.ltb (now_update clk - jumpBufferTime p) jumpBufferWindow in
    if jumpBuffer then
      let '(jumpSucceeded, p) := processJump (now_jump clk) p in
      if jumpSucceeded then set_jumpRequested p false else p
    else set_jumpRequested p false
  else p.

Definition Player_update (clk : Clock) (deltaTime : R) (p : Player) : Player :=
  Movement_update clk deltaTime (jumpPhase clk (trackGround clk p)).

(** *** Construction and input bindings *)

(** The entries of [engine.config] that [Player] reads; [None] is a missing
    entry. *)
Record Config := mkConfig {
  cfg_maxJumps : option Z;
  cfg_mouseSpeed : option R
}.

(** The configuration of [main.js]: neither entry is given. *)
Definition main_config : Config := mkConfig None None.

(** [engine.config.maxJumps || 2]: a missing entry or 0 gives 2. *)
Definition config_maxJumps (c : Config) : Z :=
  match cfg_maxJumps c with
  | Some n => if (n =? 0)%Z then 2%Z else n
  | None => 2%Z
  end.

Definition config_mouseSpeed (c : Config) : R :=
  match cfg_mouseSpeed c with
  | Some a => if Num.eqb a 0 then 2 / 1000 else a
  | None => 2 / 1000
  end.

Definition Movement_new : Movement :=
  mkMovement Vector3.zero Vector3.zero Vector3.zero Vector3.zero 0 0 false.

(** [new Player(engine)].  The class [PhysicsBody] is outside the sources at
    hand, so the velocity and ground flag its constructor leaves in the body
    are arguments. *)
Definition Player_new (c : Config) (v0 : Vector3.t) (g0 : bool) : Player :=
  let position := Vector3.new 0 2 0 in
  mkPlayer position Vector3.zero (Euler.new 0 0 0 YXZ) Vector3.zero
           false false 0%Z (config_maxJumps c) false 0 false 0 0
           (mkPhysicsBody position v0 g0) Movement_new (config_mouseSpeed c).

Inductive Key := KeyW | KeyS | KeyA | KeyD | Space | ShiftLeft | F3.

(** The key-down callbacks of [setupInputBindings]; [now] is the clock
    reading taken by the Space callback. *)
Definition keyDown (k : Key) (now : R) (p : Player) : Player :=
  match k with
  | KeyW => set_moveInput p (Vector3.set_z (moveInput p) (-1))
  | KeyS => set_moveInput p (Vector3.set_z (moveInput p) 1)
  | KeyA => set_moveInput p (Vector3.set_x (moveInput p) (-1))
  | KeyD => set_moveInput p (Vector3.set_x (moveInput p) 1)
  | Space => set_jumpBufferTime (set_jumpRequested p true) now
  | ShiftLeft => set_isSprinting p true
  | F3 => p
  end.

Definition keyUp (k : Key) (p : Player) : Player :=
  match k with
  | KeyW | KeyS => set_moveInput p (Vector3.set_z (moveInput p) 0)
  | KeyA | KeyD => set_moveInput p (Vector3.set_x (moveInput p) 0)
  | ShiftLeft => set_isSprinting p false
  | Space | F3 => p
  end.

Definition rotate (dx dy : R) (p : Player) : Player :=
  let r := viewRotation p in
  let r := Euler.set_y r (Euler.y r - dx * mouseSensitivity p) in
  let r := Euler.set_x r (Euler.x r - dy * mouseSensitivity p) in
  let r := Euler.set_x r (Rmax (- PI / 2 + 1 / 100) (Rmin (PI / 2 - 1 / 100) (Euler.x r))) in
  set_viewRotation p r.

(** [EntitySpawner.setPlayerSpawn] with spawn data present: the spawn
    position, and the yaw when the data has a rotation. *)
Definition setPlayerSpawn (spawnPos : Vector3.t) (rotY : option R) (p : Player) : Player :=
  let p := set_position p spawnPos in
  let p := set_physicsBody p (pb_set_position (physicsBody p) spawnPos) in
  match rotY with
  | Some a => set_viewRotation p (Euler.set_y (viewRotation p) a)
  | None => p
  end.

(** *** Runs *)

(** What happens to the player between and during frames.  The physics world
    is outside the sources at hand: its step is any function on the body. *)
Inductive Event :=
| EKeyDown (k : Key) (now : R)
| EKeyUp (k : Key)
| EMouseMove (dx dy : R)
| ESpawn (spawnPos : Vector3.t) (rotY : option R)
| EPhysics (f : PhysicsBody -> PhysicsBody)
| ETick (clk : Clock) (deltaTime : R).

Definition step (e : Event) (p : Player) : Player :=
  match e with
  | EKeyDown k now => keyDown k now p
  | EKeyUp k => keyUp k p
  | EMouseMove dx dy => rotate dx dy p
  | ESpawn pos r => setPlayerSpawn pos r p
  | EPhysics f => set_physicsBody p (f (physicsBody p))
  | ETick clk dt => Player_update clk dt p
  end.

Fixpoint run (es : list Event) (p : Player) : Player :=
  match es with
  | [] => p
  | e :: es' => run es' (step e p)
  end.

(** [everyTick Q es p]: [Q clk dt q] holds of each tick of the run of [es]
    from [p], where [q] is the state the tick starts from. *)
Fixpoint everyTick (Q : Clock -> R -> Player -> Prop) (es : list Event) (p : Player) : Prop :=
  match es with
  | [] => True
  | e :: es' =>
      match e with ETick clk dt => Q clk dt p | _ => True end
      /\ everyTick Q es' (step e p)
  end.

Definition isSpacePress (e : Event) : bool :=
  match e with EKeyDown Space _ => true | _ => false end.

(** ** Specification vocabulary *)

(** The fields a function leaves alone, as one record of equations, so that
    each frame fact is proved once per function. *)
Record sameJumpState (p q : Player) : Prop := mkSameJumpState {
  sj_jumpCount : jumpCount q = jumpCount p;
  sj_maxJumps : maxJumps q = maxJumps p;
  sj_onGround : onGround q = onGround p;
  sj_lastJumpTime : lastJumpTime q = lastJumpTime p;
  sj_jumpRequested : jumpRequested q = jumpRequested p;
  sj_jumpBufferTime : jumpBufferTime q = jumpBufferTime p;
  sj_lastGroundedTime : lastGroundedTime q = lastGroundedTime p;
  sj_body_y : Vector3.y (body_velocity q) = Vector3.y (body_velocity p);
  sj_body_onGround : pb_onGround (physicsBody q) = pb_onGround (physicsBody p);
  sj_body_position : pb_position (physicsBody q) = pb_position (physicsBody p)
}.

(** *** Concrete states *)

(** A clock whose three readings of a tick coincide. *)
Definition clockAt (t : R) : Clock := mkClock t t t.

(** The player as constructed by [main.js], the body at rest in the air. *)
Definition spawned : Player := Player_new main_config Vector3.zero false.

(** The same player standing on the ground. *)
Definition standing : Player :=
  set_onGround (set_physicsBody spawned (mkPhysicsBody (Vector3.new 0 2 0) Vector3.zero true)) true.

(** Airborne, 100 ms after walking off a ledge at time 1000, with a jump
    pressed at 1050 and the last move direction pointing forward. *)
Definition coyoteJumper : Player :=
  set_movement
    (set_lastGroundedTime (keyDown Space 1050 spawned) 1000)
    (set_moveDirection Movement_new (Vector3.new 0 0 (-1))).

(** Airborne with a jump pressed at 1050, 50 ms after the previous jump. *)
Definition coolingDown : Player :=
  set_lastJumpTime (set_jumpCount (keyDown Space 1050 spawned) 1) 1000.

(** The jump counter is within its range, for a player allowed at least one
    jump. *)
Definition jumpCountInRange (p : Player) : Prop :=
  (0 <= jumpCount p <= maxJumps p)%Z.

(** The tick lands: the body is on the ground and the player was not. *)
Definition landing (p : Player) : bool :=
  pb_onGround (physicsBody p) && negb (onGround p).

(** The character is neither on the ground nor within coyote time when the
    tick processes jumps. *)
Definition airborneOutsideCoyote (clk : Clock) (dt : R) (q : Player) : Prop :=
  canFirstJump (now_jump clk) (trackGround clk q) = false.

(** The tick finds a request pending inside its buffer window: the one case
    in which [Player.update] calls [processJump]. *)
Definition triesJump (clk : Clock) (q : Player) : Prop :=
  jumpRequested q = true /\ now_update clk - jumpBufferTime q < jumpBufferWindow.

(** An air jump is out of reach: the cooldown is running or the jump count
    is used up. *)
Definition noAirJump (clk : Clock) (q : Player) : Prop :=
  now_jump clk - lastJumpTime q < jumpCooldown \/ (maxJumps q <= jumpCount q)%Z.

(** On this tick the latched press cannot become a jump: the character is
    neither on the ground nor within coyote time and, if the tick tries the
    jump at all, an air jump is out of reach.  Nothing is asked of the air
    jump on a tick at or after the end of the buffer window, which clears
    the request without calling [processJump]. *)
Definition pressBlocked (clk : Clock) (dt : R) (q : Player) : Prop :=
  airborneOutsideCoyote clk dt q /\ (triesJump clk q -> noAirJump clk q).

(** The tick changes neither the jump count nor the body's vertical
    velocity. *)
Definition jumpOutputsKept (clk : Clock) (dt : R) (q : Player) : Prop :=
  jumpCount (Player_update clk dt q) = jumpCount q
  /\ Vector3.y (body_velocity (Player_update clk dt q)) = Vector3.y (body_velocity q).

(** A tick at or after the end of the buffer window of a press at [t0]. *)
Definition expiresPress (t0 : R) (e : Event) : Prop :=
  match e with
  | ETick clk _ => jumpBufferWindow <= now_update clk - t0
  | _ => False
  end.

Definition noSpacePress (es : list Event) : bool :=
  forallb (fun e => negb (isSpacePress e)) es.

(** A jump pressed at time 1000 by the newly spawned, airborne player. *)
Definition pressedInAir : Player := keyDown Space 1000 spawned.

(** The same press with both jumps already used. *)
Definition pressedSpent : Player := set_jumpCount pressedInAir 2.

(** Two frames, 10 ms and 250 ms after the press, the three clock readings
    of each coinciding. *)
Definition twoFrames : list Event :=
  [ETick (clockAt 1010) (1 / 120); ETick (clockAt 1250) (1 / 120)].

(** The first frame after the press comes 250 ms after it, past the buffer
    window, and another follows. *)
Definition lateFrames : list Event :=
  [ETick (clockAt 1250) (1 / 120); ETick (clockAt 1260) (1 / 120)].

(** The friction coefficient and damping factor of the idle path, following
    the words of the specification: ground or air friction chosen by the
    ground flag, halved above speed 5, then [max(0, 1 - friction * dt)]. *)
Definition idleFriction (grounded : bool) (speed : R) : R :=
  let base := if grounded then groundFriction else airFriction in
  if Num.gtb speed 5 then base * (5 / 10) else base.

Definition idleDamping (grounded : bool) (speed dt : R) : R :=
  Rmax 0 (1 - idleFriction grounded speed * dt).

(** The move input as [Movement.update] uses it: normalized when longer
    than 1 (lines 57-60). *)
Definition usedInput (p : Player) : Vector3.t :=
  if Num.gtb (Vector3.lengthSq (moveInput p)) 1
  then Vector3.normalize (moveInput p) else moveInput p.

(** Lines 62-70 of [Movement.update]: the state in which
    [applyAccelerationWithMomentum] is called on a tick with move input. *)
Definition aimed (clk : Clock) (p : Player) : Player :=
  let p := calculateMoveDirection (usedInput p) p in
  let p := detectDirectionChange (now_dir clk) p in
  let speed := if isSprinting p then runSpeed else walkSpeed in
  set_movement p
    (set_targetVelocity (movement p)
       (Vector3.multiplyScalar (moveDirection (movement p)) speed)).

(** The input rotated into the world by the view yaw: forward is
    [(- sin yaw, 0, - cos yaw)] and right is [(cos yaw, 0, - sin yaw)]. *)
Definition worldDirection (yaw : R) (mi : Vector3.t) : Vector3.t :=
  Vector3.new (sin yaw * Vector3.z mi + cos yaw * Vector3.x mi)
              0
              (cos yaw * Vector3.z mi - sin yaw * Vector3.x mi).

(** A jump boost is due: the condition of line 186. *)
Definition boostDue (p : Player) : bool := isJumping p && (jumpCount p =? 1)%Z.

(** No jump is pending or being boosted. *)
Definition noJumpPending (p : Player) : Prop :=
  jumpRequested p = false /\ isJumping p = false.

(** The tick starts with move input. *)
Definition hasMoveInput (clk : Clock) (dt : R) (q : Player) : Prop :=
  Vector3.lengthSq (moveInput q) <> 0.

(** The tick leaves the body with a horizontal speed of at most [maxSpeed]. *)
Definition speedWithinMax (clk : Clock) (dt : R) (q : Player) : Prop :=
  Vector3.hspeed (body_velocity (Player_update clk dt q)) <= maxSpeed.

(** The blend of the momentum-preserving regime, following the words of the
    specification: [current * momentumRetention + target * (1 -
    momentumRetention)] on the horizontal velocity. *)
Definition momentumBlend (current target : Vector3.t) : Vector3.t :=
  Vector3.new
    (Vector3.x current * momentumRetention + Vector3.x target * (1 - momentumRetention))
    (0 * momentumRetention + Vector3.y target * (1 - momentumRetention))
    (Vector3.z current * momentumRetention + Vector3.z target * (1 - momentumRetention)).

(** The value the accelerated regime would give. *)
Definition acceleratedBlend (k : R) (current target : Vector3.t) : Vector3.t :=
  Vector3.new
    (Vector3.x current + (Vector3.x target - Vector3.x current) * k)
    (0 + (Vector3.y target - 0) * k)
    (Vector3.z current + (Vector3.z target - Vector3.z current) * k).

(** Running forward at speed 8 with W released and S pressed: the previous
    direction is forward, the input now points backward. *)
Definition reversing : Player :=
  set_movement
    (set_moveInput
       (set_body_velocity standing (Vector3.new 0 0 (-8)))
       (Vector3.new 0 0 1))
    (mkMovement (Vector3.new 0 0 (-1)) (Vector3.new 0 0 (-6)) (Vector3.new 0 0 (-1))
                (Vector3.new 0 0 (-1)) 8 0 false).

(** Standing at rest with W held. *)
Definition startingForward : Player := keyDown KeyW 0 standing.




(** On the ground, pushed to speed 20 along the view's forward direction,
    W held after strafing right, and a jump pressed at time 1000. *)
Definition boostedRunner : Player :=
  set_movement
    (keyDown Space 1000
       (keyDown KeyW 900 (set_body_velocity standing (Vector3.new 0 0 (-20)))))
    (mkMovement (Vector3.new 1 0 0) (Vector3.new 6 0 0) (Vector3.new 1 0 0)
                (Vector3.new 1 0 0) 20 0 false).

(** Standing with no move input while the body slides at speed 100. *)
Definition sliding : Player := set_body_velocity standing (Vector3.new 100 0 0).

(** *** Vocabulary of the further properties *)

(** What the player's input handlers own, and the tick leaves alone. *)
Record sameInputState (p q : Player) : Prop := mkSameInputState {
  si_viewRotation : viewRotation q = viewRotation p;
  si_moveInput : moveInput q = moveInput p;
  si_isSprinting : isSprinting q = isSprinting p;
  si_mouseSensitivity : mouseSensitivity q = mouseSensitivity p
}.

(** The pitch is within the range [rotate] clamps it to. *)
Definition pitchInRange (p : Player) : Prop :=
  - PI / 2 + 1 / 100 <= Euler.x (viewRotation p) <= PI / 2 - 1 / 100.

(** A value a key binding can leave in an axis of the move input. *)
Definition axisValue (a : R) : Prop := a = -1 \/ a = 0 \/ a = 1.

(** The move input is one the key bindings produce. *)
Definition keyboardInput (p : Player) : Prop :=
  axisValue (Vector3.x (moveInput p))
  /\ Vector3.y (moveInput p) = 0
  /\ axisValue (Vector3.z (moveInput p)).

(** The horizontal distance between two velocities. *)
Definition hdist (a b : Vector3.t) : R :=
  sqrt ((Vector3.x a - Vector3.x b) * (Vector3.x a - Vector3.x b)
        + (Vector3.z a - Vector3.z b) * (Vector3.z a - Vector3.z b)).

(** [n] consecutive locomotion updates with the same clock readings and
    time step. *)
Definition locomotionTicks (clk : Clock) (dt : R) (n : nat) (p : Player) : Player :=
  Nat.iter n (Movement_update clk dt) p.

(** The player has horizontal move input. *)
Definition steering (p : Player) : Prop :=
  Vector3.x (moveInput p) <> 0 \/ Vector3.z (moveInput p) <> 0.

(** The largest damping factor the idle path can apply with time step [dt]:
    the one of the halved air friction. *)
Definition slowestDamping (dt : R) : R := Rmax 0 (1 - airFriction * (5 / 10) * dt).

(** ** Input.js *)

(** A JavaScript [Map] with string keys, as the association list of its
    entries in insertion order: [set] on a present key replaces the value in
    place, on a missing key appends the entry. *)
Module JsMap.

Definition t (V : Type) : Type := list (String.string * V).

Definition empty {V : Type} : t V := [].

Fixpoint get {V : Type} (k : String.string) (m : t V) : option V :=
  match m with
  | [] => None
  | (k', v) :: m' => if String.eqb k k' then Some v else get k m'
  end.

Definition has {V : Type} (k : String.string) (m : t V) : bool :=
  match get k m with Some _ => true | None => false end.

Fixpoint set {V : Type} (k : String.string) (v : V) (m : t V) : t V :=
  match m with
  | [] => [(k, v)]
  | (k', v') :: m' => if String.eqb k k' then (k, v) :: m' else (k', v') :: set k v m'
  end.

End JsMap.

(** The class [Input].  Its callbacks are closures over the rest of the
    program: a callback is a function on that state [W], given the clock
    reading available while the event is handled. *)
Module Input.

Section WithWorld.

Variable W : Type.

Definition KeyCallback : Type := R -> W -> W.
Definition MouseCallback : Type := R -> R -> W -> W.

Record t : Type := mk {
  keys : JsMap.t bool;
  previousKeys : JsMap.t bool;
  mousePosition : R * R;
  mouseDelta : R * R;
  isPointerLocked : bool;
  keyDownCallbacks : JsMap.t (list KeyCallback);
  keyUpCallbacks : JsMap.t (list KeyCallback);
  mouseCallbacks : list MouseCallback
}.

Definition new : t := mk JsMap.empty JsMap.empty (0, 0) (0, 0) false JsMap.empty JsMap.empty [].

Definition set_keys (i : t) (m : JsMap.t bool) : t :=
  mk m (previousKeys i) (mousePosition i) (mouseDelta i) (isPointerLocked i)
     (keyDownCallbacks i) (keyUpCallbacks i) (mouseCallbacks i).
Definition set_mousePosition (i : t) (a : R * R) : t :=
  mk (keys i) (previousKeys i) a (mouseDelta i) (isPointerLocked i)
     (keyDownCallbacks i) (keyUpCallbacks i) (mouseCallbacks i).
Definition set_mouseDelta (i : t) (a : R * R) : t :=
  mk (keys i) (previousKeys i) (mousePosition i) a (isPointerLocked i)
     (keyDownCallbacks i) (keyUpCallbacks i) (mouseCallbacks i).
Definition set_keyDownCallbacks (i : t) (m : JsMap.t (list KeyCallback)) : t :=
  mk (keys i) (previousKeys i) (mousePosition i) (mouseDelta i) (isPointerLocked i)
     m (keyUpCallbacks i) (mouseCallbacks i).
Definition set_keyUpCallbacks (i : t) (m : JsMap.t (list KeyCallback)) : t :=
  mk (keys i) (previousKeys i) (mousePosition i) (mouseDelta i) (isPointerLocked i)
     (keyDownCallbacks i) m (mouseCallbacks i).
Definition set_mouseCallbacks (i : t) (l : list MouseCallback) : t :=
  mk (keys i) (previousKeys i) (mousePosition i) (mouseDelta i) (isPointerLocked i)
     (keyDownCallbacks i) (keyUpCallbacks i) l.

(** [callbacks.forEach(callback => callback())]. *)
Definition fire (cbs : list KeyCallback) (now : R) (w : W) : W :=
  fold_left (fun w cb => cb now w) cbs w.

Definition fireMouse (cbs : list MouseCallback) (dx dy : R) (w : W) : W :=
  fold_left (fun w cb => cb dx dy w) cbs w.

(** [update]: remember the key states and reset the mouse delta. *)
Definition update (i : t) : t :=
  mk (keys i) (keys i) (mousePosition i) (0, 0) (isPointerLocked i)
     (keyDownCallbacks i) (keyUpCallbacks i) (mouseCallbacks i).

Definition handleKeyDown (code : String.string) (now : R) (i : t) (w : W) : t * W :=
  let i := set_keys i (JsMap.set code true (keys i)) in
  match JsMap.get code (keyDownCallbacks i) with
  | Some callbacks => (i, fire callbacks now w)
  | None => (i, w)
  end.

Definition handleKeyUp (code : String.string) (now : R) (i : t) (w : W) : t * W :=
  let i := set_keys i (JsMap.set code false (keys i)) in
  match JsMap.get code (keyUpCallbacks i) with
  | Some callbacks => (i, fire callbacks now w)
  | None => (i, w)
  end.

Definition handleMouseMove (clientX clientY movementX movementY : R) (i : t) (w : W)
  : t * W :=
  let i := set_mousePosition i (clientX, clientY) in
  if isPointerLocked i then
    let i := set_mouseDelta i (fst (mouseDelta i) + movementX, snd (mouseDelta i) + movementY) in
    (i, fireMouse (mouseCallbacks i) movementX movementY w)
  else (i, w).

(** [map.get(keyCode) === true]. *)
Definition isTrue (k : String.string) (m : JsMap.t bool) : bool :=
  match JsMap.get k m with Some true => true | _ => false end.

Definition isKeyDown (keyCode : String.string) (i : t) : bool := isTrue keyCode (keys i).
Definition isKeyUp (keyCode : String.string) (i : t) : bool := negb (isTrue keyCode (keys i)).
Definition wasKeyPressed (keyCode : String.string) (i : t) : bool :=
  isTrue keyCode (keys i) && negb (isTrue keyCode (previousKeys i)).
Definition wasKeyReleased (keyCode : String.string) (i : t) : bool :=
  negb (isTrue keyCode (keys i)) && isTrue keyCode (previousKeys i).

Definition setPointerLocked (locked : bool) (i : t) : t :=
  mk (keys i) (previousKeys i) (mousePosition i) (mouseDelta i) locked
     (keyDownCallbacks i) (keyUpCallbacks i) (mouseCallbacks i).

(** [if (!map.has(code)) map.set(code, []); map.get(code).push(callback)]. *)
Definition register (code : String.string) (cb : KeyCallback)
    (m : JsMap.t (list KeyCallback)) : JsMap.t (list KeyCallback) :=
  let m := if JsMap.has code m then m else JsMap.set code [] m in
  match JsMap.get code m with
  | Some l => JsMap.set code (l ++ [cb]) m
  | None => m
  end.

Definition onKeyDown (keyCode : String.string) (callback : KeyCallback) (i : t) : t :=
  set_keyDownCallbacks i (register keyCode callback (keyDownCallbacks i)).
Definition onKeyUp (keyCode : String.string) (callback : KeyCallback) (i : t) : t :=
  set_keyUpCallbacks i (register keyCode callback (keyUpCallbacks i)).
Definition onMouseMove (callback : MouseCallback) (i : t) : t :=
  set_mouseCallbacks i (mouseCallbacks i ++ [callback]).

End WithWorld.

End Input.

(** [Player.setupInputBindings], in the order of the source.  The F3
    callback toggles the debug overlay, which is no part of the player. *)
Definition setupInputBindings (input : Input.t Player) : Input.t Player :=
  let input := Input.onMouseMove _ (fun dx dy p => rotate dx dy p) input in
  let input := Input.onKeyDown _ "KeyW"%string
                 (fun _ p => set_moveInput p (Vector3.set_z (moveInput p) (-1))) input in
  let input := Input.onKeyUp _ "KeyW"%string
                 (fun _ p => set_moveInput p (Vector3.set_z (moveInput p) 0)) input in
  let input := Input.onKeyDown _ "KeyS"%string
                 (fun _ p => set_moveInput p (Vector3.set_z (moveInput p) 1)) input in
  let input := Input.onKeyUp _ "KeyS"%string
                 (fun _ p => set_moveInput p (Vector3.set_z (moveInput p) 0)) input in
  let input := Input.onKeyDown _ "KeyA"%string
                 (fun _ p => set_moveInput p (Vector3.set_x (moveInput p) (-1))) input in
  let input := Input.onKeyUp _ "KeyA"%string
                 (fun _ p => set_moveInput p (Vector3.set_x (moveInput p) 0)) input in
  let input := Input.onKeyDown _ "KeyD"%string
                 (fun _ p => set_moveInput p (Vector3.set_x (moveInput p) 1)) input in
  let input := Input.onKeyUp _ "KeyD"%string
                 (fun _ p => set_moveInput p (Vector3.set_x (moveInput p) 0)) input in
  let input := Input.onKeyDown _ "Space"%string
                 (fun now p => set_jumpBufferTime (set_jumpRequested p true) now) input in
  let input := Input.onKeyDown _ "ShiftLeft"%string
                 (fun _ p => set_isSprinting p true) input in
  let input := Input.onKeyUp _ "ShiftLeft"%string
                 (fun _ p => set_isSprinting p false) input in
  Input.onKeyDown _ "F3"%string (fun _ p => p) input.

(** The [event.code] of each bound key. *)
Definition keyCode (k : Key) : String.string :=
  match k with
  | KeyW => "KeyW" | KeyS => "KeyS" | KeyA => "KeyA" | KeyD => "KeyD"
  | Space => "Space" | ShiftLeft => "ShiftLeft" | F3 => "F3"
  end%string.

(** The mouse-move events of a frame, handled one after the other; each is
    [(clientX, clientY, movementX, movementY)]. *)
Fixpoint mouseMoves {W : Type} (ms : list (R * R * R * R)) (i : Input.t W) (w : W)
  : Input.t W * W :=
  match ms with
  | [] => (i, w)
  | (cx, cy, mx, my) :: ms' =>
      let '(i', w') := Input.handleMouseMove W cx cy mx my i w in
      mouseMoves ms' i' w'
  end.

(** The sums of the movements of a list of mouse-move events. *)
Fixpoint movementSum (ms : list (R * R * R * R)) : R * R :=
  match ms with
  | [] => (0, 0)
  | (_, _, mx, my) :: ms' => (mx + fst (movementSum ms'), my + snd (movementSum ms'))
  end.

(** The input state [j] has the registrations of [i]. *)
Definition sameBindings (i j : Input.t Player) : Prop :=
  Input.keyDownCallbacks Player j = Input.keyDownCallbacks Player i
  /\ Input.keyUpCallbacks Player j = Input.keyUpCallbacks Player i
  /\ Input.mouseCallbacks Player j = Input.mouseCallbacks Player i.

(** ** EntitySpawner.js *)

(** The entity data of a map and the entities built from them.  [P] is the
    type of an entity's properties object and [emptyProps] the empty object;
    a missing field of the data is [None], and a type is a string, as the
    keys of the registry are.  The entity manager is outside the sources at
    hand: its state [M] and its [addEntity], which may throw, are
    arguments. *)
Module EntitySpawner.

(** How a call ends: it returns a value or it throws. *)
Inductive Completion (A : Type) : Type :=
| Returned (a : A)
| Thrown.

Arguments Returned {A} a.
Arguments Thrown {A}.

Section WithManager.

Variable P : Type.
Variable emptyProps : P.
Variable M : Type.

Record EntityData : Type := mkData {
  ed_type : option String.string;
  ed_position : option (option R * option R * option R);
  ed_properties : option P
}.

Record Entity : Type := mkEntity {
  e_position : Vector3.t;
  e_properties : P
}.

(** An element of the entities array.  From [null] and [undefined] the
    destructuring [const { type } = entityData] throws; any other value is
    read as entity data, a primitive as data without fields. *)
Inductive Value : Type :=
| Nullish
| Data (d : EntityData).

(** [entityManager.addEntity]: how the call ends and the entity manager
    afterwards. *)
Variable addEntity : Entity -> M -> Completion unit * M.

(** A constructor of the registry; [None] is a constructor that throws. *)
Definition Constructor : Type := EntityData -> option Entity.

Definition Registry : Type := JsMap.t Constructor.

(** [new Vector3(x, y, z)]: a missing argument defaults to 0. *)
Definition vector3_of (c : option R * option R * option R) : Vector3.t :=
  let '(x, y, z) := c in
  Vector3.new (match x with Some a => a | None => 0 end)
              (match y with Some a => a | None => 0 end)
              (match z with Some a => a | None => 0 end).

(** The constructor registered for ['target']: reading [data.position.x]
    throws when the data has no position. *)
Definition targetConstructor : Constructor :=
  fun data =>
    match ed_position data with
    | Some c =>
        Some (mkEntity (vector3_of c)
                (match ed_properties data with Some q => q | None => emptyProps end))
    | None => None
    end.

Definition registerEntity (type : String.string) (constructor : Constructor)
    (r : Registry) : Registry :=
  JsMap.set type constructor r.

Definition registerDefaultEntities (r : Registry) : Registry :=
  registerEntity "target"%string targetConstructor r.

(** The registry after [new EntitySpawner(engine)]. *)
Definition newRegistry : Registry := registerDefaultEntities JsMap.empty.

(** [!type]: a missing type and the empty string are both falsy. *)
Definition usableType (data : EntityData) : option String.string :=
  match ed_type data with
  | Some ty => if String.eqb ty String.EmptyString then None else Some ty
  | None => None
  end.

(** [spawnEntity]: how the call ends, with the entity returned ([None] for
    [null]), and the entity manager afterwards.  The destructuring of line 70
    is outside the [try]: its exception leaves the function.  Inside the
    [try], a constructor or an [addEntity] that throws is caught and gives
    [null]. *)
Definition spawnEntity (r : Registry) (entityData : Value) (m : M)
  : Completion (option Entity) * M :=
  match entityData with
  | Nullish => (Thrown, m)
  | Data data =>
      match usableType data with
      | None => (Returned None, m)
      | Some type =>
          match JsMap.get type r with
          | None => (Returned None, m)
          | Some constructor =>
              match constructor data with
              | Some entity =>
                  match addEntity entity m with
                  | (Returned _, m') => (Returned (Some entity), m')
                  | (Thrown, m') => (Returned None, m')
                  end
              | None => (Returned None, m)
              end
          end
      end
  end.

(** The [for...of] loop of [spawnEntities]: an exception of [spawnEntity]
    leaves the loop, and the entries after it are not reached. *)
Fixpoint spawnLoop (r : Registry) (l : list Value) (m : M) : Completion unit * M :=
  match l with
  | [] => (Returned tt, m)
  | entityData :: l' =>
      match spawnEntity r entityData m with
      | (Returned _, m') => spawnLoop r l' m'
      | (Thrown, m') => (Thrown, m')
      end
  end.

(** [spawnEntities]: [None] is an argument that is missing or no array. *)
Definition spawnEntities (r : Registry) (entitiesData : option (list Value)) (m : M)
  : Completion unit * M :=
  match entitiesData with
  | None => (Returned tt, m)
  | Some l => spawnLoop r l m
  end.

(** The entity manager after [addEntity] was called with each entity in
    turn. *)
Definition addAll (es : list Entity) (m : M) : M :=
  fold_left (fun m e => snd (addEntity e m)) es m.

(** The entity the registry builds from one entity data, if any, and the
    entities a list of data gives rise to, in order. *)
Definition built (r : Registry) (d : EntityData) : option Entity :=
  match usableType d with
  | None => None
  | Some type =>
      match JsMap.get type r with
      | None => None
      | Some constructor => constructor d
      end
  end.

Fixpoint builtAll (r : Registry) (l : list EntityData) : list Entity :=
  match l with
  | [] => []
  | d :: l' =>
      match built r d with
      | Some e => e :: builtAll r l'
      | None => builtAll r l'
      end
  end.

End WithManager.

End EntitySpawner.

(** ** MapLoader.setPlayerSpawn *)

(** The [playerSpawn] entry of a map: coordinates and, when the entry has a
    rotation object, its [y]; a missing field is [None]. *)
Record SpawnData := mkSpawnData {
  sd_x : option R;
  sd_y : option R;
  sd_z : option R;
  sd_rotation : option (option R)
}.

(** [value || 0]. *)
Definition orZero (a : option R) : R :=
  match a with Some v => v | None => 0 end.

(** [MapLoader.setPlayerSpawn]: nothing happens without spawn data or
    without a player. *)
Definition MapLoader_setPlayerSpawn (spawnData : option SpawnData) (player : option Player)
  : option Player :=
  match spawnData, player with
  | Some sd, Some p =>
      Some (setPlayerSpawn
              (Vector3.new (orZero (sd_x sd)) (orZero (sd_y sd)) (orZero (sd_z sd)))
              (option_map orZero (sd_rotation sd)) p)
  | _, _ => player
  end.

(** *** Concrete map data *)

(** An entity manager that keeps the entities in the order they were
    added. *)
Definition listManager : Type := list (EntitySpawner.Entity unit).
Definition listAdd (e : EntitySpawner.Entity unit) (m : listManager)
  : EntitySpawner.Completion unit * listManager :=
  (EntitySpawner.Returned tt, m ++ [e]).

(** A target at [(1, 2, 3)], an entry of an unregistered type, an entry with
    no type, and a target whose position lacks [y]. *)
Definition targetData : EntitySpawner.EntityData unit :=
  EntitySpawner.mkData unit (Some "target"%string) (Some (Some 1, Some 2, Some 3)) None.
Definition pickupData : EntitySpawner.EntityData unit :=
  EntitySpawner.mkData unit (Some "pickup"%string) (Some (Some 0, Some 0, Some 0)) None.
Definition untypedData : EntitySpawner.EntityData unit :=
  EntitySpawner.mkData unit None (Some (Some 0, Some 0, Some 0)) None.
Definition flatTargetData : EntitySpawner.EntityData unit :=
  EntitySpawner.mkData unit (Some "target"%string) (Some (Some 4, None, Some 5)) None.

(** ** Engine.js *)

(** The engine as far as the player is concerned.  The timer, the physics
    world, the entity manager, the camera and the renderer are outside the
    sources at hand: a frame is given the raw time step the timer returns
    and the step the physics world makes on the player's body. *)
Module Engine.

Record t := mk {
  isRunning : bool;
  isPaused : bool;
  player : option Player;
  input : Input.t Player
}.

(** [new Engine(config)]. *)
Definition new : t := mk false false None (Input.new Player).

(** [init]: the player is constructed, which registers its bindings. *)
Definition init (c : Config) (v0 : Vector3.t) (g0 : bool) (e : t) : t :=
  mk (isRunning e) (isPaused e) (Some (Player_new c v0 g0)) (setupInputBindings (input e)).

Definition start (e : t) : t :=
  if isRunning e then e else mk true (isPaused e) (player e) (input e).

Definition stop (e : t) : t :=
  if negb (isRunning e) then e else mk false (isPaused e) (player e) (input e).

(** The time step of a frame: the raw one capped at 1/30. *)
Definition frameDelta (rawDeltaTime : R) : R := Rmin rawDeltaTime (1 / 30).

(** [gameLoop], as far as the player and the input are concerned. *)
Definition gameLoop (rawDeltaTime : R) (clk : Clock)
    (physics : R -> PhysicsBody -> PhysicsBody) (e : t) : t :=
  let deltaTime := frameDelta rawDeltaTime in
  let player' :=
    if negb (isPaused e) then
      match player e with
      | Some p =>
          let p := Player_update clk deltaTime p in
          Some (set_physicsBody p (physics deltaTime (physicsBody p)))
      | None => None
      end
    else player e in
  mk (isRunning e) (isPaused e) player' (Input.update Player (input e)).

(** What reaches the engine between frames: the DOM events the input layer
    and [main.js] listen to, and the spawn point of a loaded map. *)
Inductive Event :=
| KeyDown (code : String.string) (now : R)
| KeyUp (code : String.string) (now : R)
| MouseMove (clientX clientY movementX movementY : R)
| PointerLockChange (locked : bool)
| VisibilityHidden
| MapSpawn (spawnData : option SpawnData)
| Frame (rawDeltaTime : R) (clk : Clock) (physics : R -> PhysicsBody -> PhysicsBody).

(** The events below reach an engine whose player exists: the listeners are
    attached in [init], where the player is constructed. *)
Definition step (ev : Event) (e : t) : t :=
  match ev, player e with
  | KeyDown code now, Some p =>
      let r := Input.handleKeyDown Player code now (input e) p in
      mk (isRunning e) (isPaused e) (Some (snd r)) (fst r)
  | KeyUp code now, Some p =>
      let r := Input.handleKeyUp Player code now (input e) p in
      mk (isRunning e) (isPaused e) (Some (snd r)) (fst r)
  | MouseMove cx cy mx my, Some p =>
      let r := Input.handleMouseMove Player cx cy mx my (input e) p in
      mk (isRunning e) (isPaused e) (Some (snd r)) (fst r)
  | PointerLockChange locked, _ =>
      mk (isRunning e) (isPaused e) (player e) (Input.setPointerLocked Player locked (input e))
  | VisibilityHidden, _ => mk (isRunning e) true (player e) (input e)
  | MapSpawn sd, _ =>
      mk (isRunning e) (isPaused e) (MapLoader_setPlayerSpawn sd (player e)) (input e)
  | Frame raw clk physics, _ => gameLoop raw clk physics e
  | _, None => e
  end.

Fixpoint run (evs : list Event) (e : t) : t :=
  match evs with
  | [] => e
  | ev :: evs' => run evs' (step ev e)
  end.

End Engine.

(** The key bound to an [event.code], if any. *)
Definition keyOfCode (code : String.string) : option Key :=
  if String.eqb code "KeyW"%string then Some KeyW
  else if String.eqb code "KeyS"%string then Some KeyS
  else if String.eqb code "KeyA"%string then Some KeyA
  else if String.eqb code "KeyD"%string then Some KeyD
  else if String.eqb code "Space"%string then Some Space
  else if String.eqb code "ShiftLeft"%string then Some ShiftLeft
  else if String.eqb code "F3"%string then Some F3
  else None.

(** The engine's player is the outcome of some run of player events from
    [p0], and its input still has the player's bindings. *)
Definition playedFrom (p0 : Player) (e : Engine.t) : Prop :=
  (exists es, Engine.player e = Some (run es p0))
  /\ sameBindings (setupInputBindings (Input.new Player)) (Engine.input e).

Definition isFrame (ev : Engine.Event) : bool :=
  match ev with Engine.Frame _ _ _ => true | _ => false end.

(** * Properties *)

(** ** Comparisons *)

Module NumFacts.
Import Num.

Lemma ltb_true (a b : R) : ltb a b = true <-> a < b.
Proof. unfold ltb; destruct (Rlt_dec a b); split; intros; auto; discriminate. Qed.

Lemma ltb_false (a b : R) : ltb a b = false <-> b <= a.
Proof.
  unfold ltb; destruct (Rlt_dec a b); split; intros; auto; try discriminate; lra.
Qed.

Lemma gtb_true (a b : R) : gtb a b = true <-> a > b.
Proof. unfold gtb; rewrite ltb_true; lra. Qed.

Lemma gtb_false (a b : R) : gtb a b = false <-> a <= b.
Proof. unfold gtb; rewrite ltb_false; lra. Qed.

Lemma eqb_true (a b : R) : eqb a b = true <-> a = b.
Proof. unfold eqb; destruct (Req_dec_T a b); split; intros; auto; discriminate. Qed.

Lemma eqb_false (a b : R) : eqb a b = false <-> a <> b.
Proof.
  unfold eqb; destruct (Req_dec_T a b); split; intros; auto; try discriminate; contradiction.
Qed.

End NumFacts.


(** ** Proof support *)

Ltac break_if :=
  match goal with
  | |- context [if ?c then _ else _] => destruct c eqn:?
  end.

Ltac num_hyps :=
  repeat match goal with
  | H : Num.ltb _ _ = true |- _ => apply NumFacts.ltb_true in H
  | H : Num.ltb _ _ = false |- _ => apply NumFacts.ltb_false in H
  | H : Num.gtb _ _ = true |- _ => apply NumFacts.gtb_true in H
  | H : Num.gtb _ _ = false |- _ => apply NumFacts.gtb_false in H
  | H : Num.eqb _ _ = true |- _ => apply NumFacts.eqb_true in H
  | H : Num.eqb _ _ = false |- _ => apply NumFacts.eqb_false in H
  end.

Lemma sameJumpState_refl (p : Player) : sameJumpState p p.
Proof. constructor; reflexivity. Qed.

Lemma sameJumpState_trans (p q r : Player) :
  sameJumpState p q -> sameJumpState q r -> sameJumpState p r.
Proof.
  intros [] []; constructor; congruence.
Qed.

Lemma applyFriction_same (dt : R) (p : Player) : sameJumpState p (applyFriction dt p).
Proof.
  unfold applyFriction; repeat break_if; constructor; reflexivity.
Qed.

Lemma calculateMoveDirection_same (mi : Vector3.t) (p : Player) :
  sameJumpState p (calculateMoveDirection mi p).
Proof. constructor; reflexivity. Qed.

Lemma detectDirectionChange_same (now : R) (p : Player) :
  sameJumpState p (detectDirectionChange now p).
Proof.
  unfold detectDirectionChange; repeat break_if; constructor; reflexivity.
Qed.

Lemma set_movement_same (p : Player) (m : Movement) : sameJumpState p (set_movement p m).
Proof. constructor; reflexivity. Qed.

Lemma writeHorizontal_same (v : Vector3.t) (p : Player) :
  sameJumpState p (writeHorizontal v p).
Proof. constructor; reflexivity. Qed.

Lemma forwardBoost_same (p : Player) : sameJumpState p (forwardBoost p).
Proof.
  unfold forwardBoost; break_if; constructor; reflexivity.
Qed.

Lemma applyAccelerationWithMomentum_same (dt : R) (p : Player) :
  sameJumpState p (applyAccelerationWithMomentum dt p).
Proof.
  unfold applyAccelerationWithMomentum.
  eapply sameJumpState_trans; [apply writeHorizontal_same | apply forwardBoost_same].
Qed.

Lemma Movement_update_same (clk : Clock) (dt : R) (p : Player) :
  sameJumpState p (Movement_update clk dt p).
Proof.
  unfold Movement_update.
  destruct (Num.eqb (Vector3.lengthSq (moveInput p)) 0).
  - eapply sameJumpState_trans; [apply applyFriction_same | apply set_movement_same].
  - set (input := if Num.gtb _ _ then _ else _).
    eapply sameJumpState_trans; [apply calculateMoveDirection_same |].
    eapply sameJumpState_trans; [apply detectDirectionChange_same |].
    eapply sameJumpState_trans; [apply set_movement_same |].
    eapply sameJumpState_trans; [apply applyAccelerationWithMomentum_same |].
    apply set_movement_same.
Qed.

(** ** The jump arbiter: [processJump] and the buffered request *)

Section ProcessJump.

Variable now : R.
Variable p : Player.

Lemma processJump_cooldown :
  now - lastJumpTime p < jumpCooldown -> processJump now p = (false, p).
Proof.
  intros H; unfold processJump.
  apply NumFacts.ltb_true in H; rewrite H; reflexivity.
Qed.

Lemma processJump_first :
  jumpCooldown <= now - lastJumpTime p ->
  canFirstJump now p = true ->
  jumpCount p = 0%Z ->
  processJump now p =
    (true,
     applyJumpBoost
       (set_lastJumpTime
          (set_jumpCount
             (set_body_velocity p (Vector3.set_y (body_velocity p) jumpForce)) 1)
          now)).
Proof.
  intros Hc Hg Hn; unfold processJump.
  apply NumFacts.ltb_false in Hc; rewrite Hc, Hg, Hn; reflexivity.
Qed.

Lemma processJump_air :
  jumpCooldown <= now - lastJumpTime p ->
  canFirstJump now p = false ->
  (jumpCount p < maxJumps p)%Z ->
  processJump now p =
    (true,
     set_lastJumpTime
       (set_jumpCount
          (set_body_velocity p
             (Vector3.set_y (body_velocity p) (jumpForce * (9 / 10))))
          (jumpCount p + 1))
       now).
Proof.
  intros Hc Hg Hn; unfold processJump.
  apply NumFacts.ltb_false in Hc; apply Z.ltb_lt in Hn.
  rewrite Hc, Hg, Hn; reflexivity.
Qed.

Lemma processJump_blocked :
  (canFirstJump now p = true /\ jumpCount p <> 0%Z)
  \/ (canFirstJump now p = false /\ (maxJumps p <= jumpCount p)%Z) ->
  processJump now p = (false, p).
Proof.
  intros H; unfold processJump.
  destruct (Num.ltb (now - lastJumpTime p) jumpCooldown); [reflexivity |].
  destruct H as [[Hg Hn] | [Hg Hn]]; rewrite Hg; cbn [andb negb].
  - apply Z.eqb_neq in Hn; rewrite Hn; reflexivity.
  - apply Z.ltb_ge in Hn; rewrite Hn; reflexivity.
Qed.

Lemma processJump_false :
  fst (processJump now p) = false -> processJump now p = (false, p).
Proof.
  unfold processJump; repeat break_if; cbn [fst]; intros; try discriminate; reflexivity.
Qed.

End ProcessJump.

Lemma applyJumpBoost_same (p : Player) : sameJumpState p (applyJumpBoost p).
Proof. unfold applyJumpBoost; break_if; constructor; reflexivity. Qed.

Lemma applyJumpBoost_isJumping (p : Player) :
  isJumping (applyJumpBoost p)
  = isJumping p
    || (Num.gtb (Vector3.lengthSq (moveDirection (movement p))) 0 && onGround p).
Proof.
  unfold applyJumpBoost; break_if; cbn [isJumping set_isJumping].
  - rewrite orb_true_r; reflexivity.
  - rewrite orb_false_r; reflexivity.
Qed.

Lemma applyJumpBoost_movement (p : Player) : movement (applyJumpBoost p) = movement p.
Proof. unfold applyJumpBoost; break_if; reflexivity. Qed.

Section JumpPhase.

Variable clk : Clock.
Variable p : Player.
Hypothesis requested : jumpRequested p = true.

Lemma jumpPhase_expired :
  jumpBufferWindow <= now_update clk - jumpBufferTime p ->
  jumpPhase clk p = set_jumpRequested p false.
Proof.
  intros H; unfold jumpPhase; rewrite requested.
  apply NumFacts.ltb_false in H; rewrite H; reflexivity.
Qed.

Lemma jumpPhase_pending :
  now_update clk - jumpBufferTime p < jumpBufferWindow ->
  processJump (now_jump clk) p = (false, p) ->
  jumpPhase clk p = p.
Proof.
  intros H Hp; unfold jumpPhase; rewrite requested.
  apply NumFacts.ltb_true in H; rewrite H, Hp; reflexivity.
Qed.

Lemma jumpPhase_consumed (q : Player) :
  now_update clk - jumpBufferTime p < jumpBufferWindow ->
  processJump (now_jump clk) p = (true, q) ->
  jumpPhase clk p = set_jumpRequested q false.
Proof.
  intros H Hp; unfold jumpPhase; rewrite requested.
  apply NumFacts.ltb_true in H; rewrite H, Hp; reflexivity.
Qed.

End JumpPhase.

Lemma jumpPhase_idle (clk : Clock) (p : Player) :
  jumpRequested p = false -> jumpPhase clk p = p.
Proof. intros H; unfold jumpPhase; rewrite H; reflexivity. Qed.

(** ** Ground tracking *)

Section TrackGround.

Variable clk : Clock.
Variable p : Player.

Lemma trackGround_jumpCount :
  jumpCount (trackGround clk p)
  = if pb_onGround (physicsBody p) && negb (onGround p) then 0%Z else jumpCount p.
Proof.
  unfold trackGround; destruct p as [? ? ? ? ? ? ? ? g ? ? ? ? [bp bv bg] ? ?].
  destruct bg, g; reflexivity.
Qed.

Lemma trackGround_onGround : onGround (trackGround clk p) = pb_onGround (physicsBody p).
Proof.
  unfold trackGround; destruct p as [? ? ? ? ? ? ? ? g ? ? ? ? [bp bv bg] ? ?].
  destruct bg, g; reflexivity.
Qed.

Lemma trackGround_lastGroundedTime :
  lastGroundedTime (trackGround clk p)
  = if negb (pb_onGround (physicsBody p)) && onGround p
    then now_update clk else lastGroundedTime p.
Proof.
  unfold trackGround; destruct p as [? ? ? ? ? ? ? ? g ? ? ? ? [bp bv bg] ? ?].
  destruct bg, g; reflexivity.
Qed.

Lemma trackGround_other :
  maxJumps (trackGround clk p) = maxJumps p
  /\ lastJumpTime (trackGround clk p) = lastJumpTime p
  /\ jumpRequested (trackGround clk p) = jumpRequested p
  /\ jumpBufferTime (trackGround clk p) = jumpBufferTime p
  /\ isJumping (trackGround clk p) = isJumping p
  /\ physicsBody (trackGround clk p) = physicsBody p
  /\ movement (trackGround clk p) = movement p
  /\ moveInput (trackGround clk p) = moveInput p.
Proof.
  unfold trackGround; destruct p as [? ? ? ? ? ? ? ? g ? ? ? ? [bp bv bg] ? ?].
  destruct bg, g; repeat split.
Qed.

End TrackGround.

(** *** C7 *)

(** C7.  A jump request that cannot be consumed changes nothing.  While
    less than the cooldown (100) has passed since the last jump,
    [processJump] returns false whatever the rest of the state; whenever it
    returns false the state it returns is the one it was given, so the jump
    count, the time of the last jump, the vertical velocity and the boost
    signal are untouched.  Inside the buffer window the jump phase of
    [Player.update] then leaves the whole state as it was, the request still
    pending at the end of the tick; once the window has elapsed the jump
    phase clears [jumpRequested] and nothing else.  All functions involved
    are total: there is no failure outcome. *)
Theorem unconsumed_request_is_silent (clk : Clock) (dt : R) (p : Player) :
  (now_jump clk - lastJumpTime p < jumpCooldown ->
     fst (processJump (now_jump clk) p) = false)
  /\ (fst (processJump (now_jump clk) p) = false ->
     snd (processJump (now_jump clk) p) = p)
  /\ (jumpRequested p = true ->
      now_update clk - jumpBufferTime p < jumpBufferWindow ->
      fst (processJump (now_jump clk) p) = false ->
      jumpPhase clk p = p
      /\ jumpRequested (Movement_update clk dt (jumpPhase clk p)) = true)
  /\ (jumpRequested p = true ->
      jumpBufferWindow <= now_update clk - jumpBufferTime p ->
      jumpPhase clk p = set_jumpRequested p false).
Proof.
  repeat split.
  - intros H; rewrite processJump_cooldown by exact H; reflexivity.
  - intros H; rewrite processJump_false by exact H; reflexivity.
  - apply jumpPhase_pending; auto using processJump_false.
  - rewrite (sj_jumpRequested _ _ (Movement_update_same clk dt _)).
    rewrite jumpPhase_pending; auto using processJump_false.
  - intros; apply jumpPhase_expired; assumption.
Qed.

Lemma unconsumed_request_is_silent_witness :
  jumpPhase (clockAt 1050) coolingDown = coolingDown
  /\ jumpPhase (clockAt 1300) coolingDown = set_jumpRequested coolingDown false.
Proof.
  pose proof (unconsumed_request_is_silent (clockAt 1050) 0 coolingDown) as [Hc [Hf [Hp _]]].
  pose proof (unconsumed_request_is_silent (clockAt 1300) 0 coolingDown) as [_ [_ [_ He]]].
  assert (Hcool : now_jump (clockAt 1050) - lastJumpTime coolingDown < jumpCooldown)
    by (cbn; unfold jumpCooldown; lra).
  split.
  - apply Hp.
    + reflexivity.
    + cbn; unfold jumpBufferWindow; lra.
    + exact (Hc Hcool).
  - apply He.
    + reflexivity.
    + cbn; unfold jumpBufferWindow; lra.
Defined.

(** ** Evaluating the model at concrete numbers *)

Ltac unfold_tuning :=
  unfold jumpCooldown, jumpBufferWindow, coyoteTime, walkSpeed, runSpeed, maxSpeed,
    groundAcceleration, airAcceleration, groundFriction, airFriction,
    momentumRetention, dirChangeBoostMultiplier, jumpForce, jumpBoostForward,
    airControl, directionChangeThreshold in *.

Ltac num_decide :=
  repeat match goal with
  | |- context [Num.ltb ?a ?b] =>
      first [ rewrite (proj2 (NumFacts.ltb_true a b)) by (unfold_tuning; lra)
            | rewrite (proj2 (NumFacts.ltb_false a b)) by (unfold_tuning; lra) ]
  | |- context [Num.gtb ?a ?b] =>
      first [ rewrite (proj2 (NumFacts.gtb_true a b)) by (unfold_tuning; lra)
            | rewrite (proj2 (NumFacts.gtb_false a b)) by (unfold_tuning; lra) ]
  | |- context [Num.eqb ?a ?b] =>
      first [ rewrite (proj2 (NumFacts.eqb_true a b)) by (unfold_tuning; lra)
            | rewrite (proj2 (NumFacts.eqb_false a b)) by (unfold_tuning; lra) ]
  end.

Ltac jump_eval :=
  unfold jumpPhase, processJump, canFirstJump, applyJumpBoost, trackGround,
    Vector3.lengthSq;
  repeat (cbn; num_decide).

(** *** C3 *)

(** C3, as the code has it.  On a tick where a pending, unexpired request
    is processed with the cooldown elapsed, the jump count 0 and the
    character on the ground or within the coyote window, the vertical
    velocity becomes [jumpForce], the jump count 1, [lastJumpTime] the time
    read by [processJump], and the request is cleared; these still hold at
    the end of the tick.  The boost signal [isJumping] is raised only when
    the stored move direction is nonzero and the character is on the ground:
    a jump granted by coyote time alone leaves the signal as it was. *)
Theorem ground_jump_is_performed (clk : Clock) (dt : R) (p : Player) :
  let q := trackGround clk p in
  jumpRequested q = true ->
  now_update clk - jumpBufferTime q < jumpBufferWindow ->
  jumpCooldown <= now_jump clk - lastJumpTime q ->
  jumpCount q = 0%Z ->
  canFirstJump (now_jump clk) q = true ->
  let r := jumpPhase clk q in
  let s := Player_update clk dt p in
  (Vector3.y (body_velocity r) = jumpForce
   /\ jumpCount r = 1%Z
   /\ lastJumpTime r = now_jump clk
   /\ jumpRequested r = false
   /\ isJumping r
      = isJumping q
        || (Num.gtb (Vector3.lengthSq (moveDirection (movement q))) 0 && onGround q))
  /\ (Vector3.y (body_velocity s) = jumpForce
      /\ jumpCount s = 1%Z
      /\ lastJumpTime s = now_jump clk
      /\ jumpRequested s = false).
Proof.
  intros q Hreq Hbuf Hcool Hcount Hground r s.
  assert (Hr : r = set_jumpRequested
                     (applyJumpBoost
                        (set_lastJumpTime
                           (set_jumpCount
                              (set_body_velocity q
                                 (Vector3.set_y (body_velocity q) jumpForce)) 1)
                           (now_jump clk))) false).
  { unfold r; apply jumpPhase_consumed; auto using processJump_first. }
  assert (Hfields : Vector3.y (body_velocity r) = jumpForce
                    /\ jumpCount r = 1%Z
                    /\ lastJumpTime r = now_jump clk
                    /\ jumpRequested r = false).
  { rewrite Hr.
    match goal with |- context [applyJumpBoost ?a] =>
      set (j := a); pose proof (applyJumpBoost_same j) as Hs end.
    repeat split.
    - transitivity (Vector3.y (body_velocity (applyJumpBoost j))); [reflexivity |].
      rewrite (sj_body_y _ _ Hs); reflexivity.
    - transitivity (jumpCount (applyJumpBoost j)); [reflexivity |].
      rewrite (sj_jumpCount _ _ Hs); reflexivity.
    - transitivity (lastJumpTime (applyJumpBoost j)); [reflexivity |].
      rewrite (sj_lastJumpTime _ _ Hs); reflexivity. }
  split.
  - destruct Hfields as (? & ? & ? & ?); repeat split; try assumption.
    rewrite Hr; cbn [isJumping set_jumpRequested].
    rewrite applyJumpBoost_isJumping; reflexivity.
  - pose proof (Movement_update_same clk dt r) as Hm.
    fold q in Hm; fold r in Hm.
    unfold s, Player_update; fold q; fold r.
    destruct Hfields as (? & ? & ? & ?).
    rewrite (sj_body_y _ _ Hm), (sj_jumpCount _ _ Hm),
      (sj_lastJumpTime _ _ Hm), (sj_jumpRequested _ _ Hm).
    repeat split; assumption.
Qed.

Lemma ground_jump_is_performed_witness :
  jumpCount (Player_update (clockAt 1100) 0 coyoteJumper) = 1%Z
  /\ Vector3.y (body_velocity (Player_update (clockAt 1100) 0 coyoteJumper)) = jumpForce.
Proof.
  assert (H : let q := trackGround (clockAt 1100) coyoteJumper in
              jumpRequested q = true
              /\ now_update (clockAt 1100) - jumpBufferTime q < jumpBufferWindow
              /\ jumpCooldown <= now_jump (clockAt 1100) - lastJumpTime q
              /\ jumpCount q = 0%Z
              /\ canFirstJump (now_jump (clockAt 1100)) q = true).
  { repeat split; jump_eval; try reflexivity; unfold_tuning; lra. }
  destruct H as (H1 & H2 & H3 & H4 & H5).
  destruct (ground_jump_is_performed (clockAt 1100) 0 coyoteJumper H1 H2 H3 H4 H5)
    as [_ (Hy & Hc & _)].
  split; assumption.
Defined.

(** C3 fails as stated: a jump granted by coyote time, with the character
    off the ground, meets every condition of the claim and is performed, yet
    the boost signal stays down although the move direction is nonzero. *)
Lemma coyote_jump_raises_no_boost :
  let clk := clockAt 1100 in
  let q := trackGround clk coyoteJumper in
  let r := jumpPhase clk q in
  (jumpRequested q = true
   /\ now_update clk - jumpBufferTime q < jumpBufferWindow
   /\ jumpCooldown <= now_jump clk - lastJumpTime q
   /\ jumpCount q = 0%Z
   /\ onGround q = false
   /\ now_jump clk - lastGroundedTime q < coyoteTime
   /\ Vector3.lengthSq (moveDirection (movement q)) > 0)
  /\ (jumpCount r = 1%Z /\ Vector3.y (body_velocity r) = jumpForce)
  /\ isJumping r = false
  /\ isJumping (Player_update clk (1 / 120) coyoteJumper) = false.
Proof.
  cbv zeta.
  assert (Hr : isJumping (jumpPhase (clockAt 1100) (trackGround (clockAt 1100) coyoteJumper))
               = false) by (jump_eval; reflexivity).
  repeat split; try (jump_eval; try reflexivity; unfold_tuning; lra).
  unfold Player_update, Movement_update.
  assert (Hi : moveInput (jumpPhase (clockAt 1100) (trackGround (clockAt 1100) coyoteJumper))
               = Vector3.zero) by (jump_eval; reflexivity).
  rewrite Hi.
  replace (Num.eqb (Vector3.lengthSq Vector3.zero) 0) with true
    by (symmetry; apply NumFacts.eqb_true; unfold Vector3.lengthSq; cbn; lra).
  cbn [isJumping set_movement].
  unfold applyFriction; repeat break_if; cbn [isJumping set_body_velocity set_physicsBody];
    exact Hr.
Qed.

(** ** What jump processing leaves alone *)

Lemma processJump_frame (now : R) (p : Player) :
  let q := snd (processJump now p) in
  onGround q = onGround p
  /\ lastGroundedTime q = lastGroundedTime p
  /\ maxJumps q = maxJumps p
  /\ jumpRequested q = jumpRequested p
  /\ jumpBufferTime q = jumpBufferTime p
  /\ pb_onGround (physicsBody q) = pb_onGround (physicsBody p)
  /\ moveInput q = moveInput p.
Proof.
  unfold processJump, applyJumpBoost; repeat break_if; cbn; repeat split.
Qed.

Lemma jumpPhase_frame (clk : Clock) (p : Player) :
  let q := jumpPhase clk p in
  onGround q = onGround p
  /\ lastGroundedTime q = lastGroundedTime p
  /\ maxJumps q = maxJumps p
  /\ jumpBufferTime q = jumpBufferTime p
  /\ pb_onGround (physicsBody q) = pb_onGround (physicsBody p)
  /\ moveInput q = moveInput p.
Proof.
  pose proof (processJump_frame (now_jump clk) p) as H; cbv zeta in H.
  unfold jumpPhase.
  destruct (jumpRequested p); [| repeat split].
  destruct (Num.ltb _ _); [| repeat split].
  destruct (processJump (now_jump clk) p) as [[|] q]; cbn [snd] in H;
    destruct H as (? & ? & ? & ? & ? & ? & ?); repeat split; assumption.
Qed.

Lemma Player_update_ground (clk : Clock) (dt : R) (p : Player) :
  let q := Player_update clk dt p in
  onGround q = pb_onGround (physicsBody p)
  /\ pb_onGround (physicsBody q) = pb_onGround (physicsBody p)
  /\ lastGroundedTime q
     = (if negb (pb_onGround (physicsBody p)) && onGround p
        then now_update clk else lastGroundedTime p)
  /\ jumpBufferTime q = jumpBufferTime p
  /\ maxJumps q = maxJumps p.
Proof.
  cbv zeta; unfold Player_update.
  pose proof (Movement_update_same clk dt (jumpPhase clk (trackGround clk p))) as Hs.
  destruct (jumpPhase_frame clk (trackGround clk p)) as (H1 & H2 & H3 & H4 & H5 & _).
  destruct (trackGround_other clk p) as (T1 & _ & _ & T4 & _ & T6 & _).
  rewrite (sj_onGround _ _ Hs), (sj_body_onGround _ _ Hs),
    (sj_lastGroundedTime _ _ Hs), (sj_jumpBufferTime _ _ Hs), (sj_maxJumps _ _ Hs).
  rewrite H1, H2, H3, H4, H5, T6, T1, T4, trackGround_onGround, trackGround_lastGroundedTime.
  repeat split.
Qed.

(** ** The jump counter *)

Lemma processJump_jumpCount (now : R) (p : Player) :
  (1 <= maxJumps p)%Z -> jumpCountInRange p ->
  jumpCountInRange (snd (processJump now p))
  /\ maxJumps (snd (processJump now p)) = maxJumps p
  /\ (jumpCount p <= jumpCount (snd (processJump now p)))%Z.
Proof.
  unfold jumpCountInRange, processJump; intros Hm Hp.
  repeat break_if; cbn [snd];
    try (pose proof (applyJumpBoost_same
                       (set_lastJumpTime
                          (set_jumpCount
                             (set_body_velocity p
                                (Vector3.set_y (body_velocity p) jumpForce)) 1) now)) as Hs;
         rewrite (sj_jumpCount _ _ Hs), (sj_maxJumps _ _ Hs));
    cbn [jumpCount maxJumps set_lastJumpTime set_jumpCount set_body_velocity set_physicsBody];
    repeat match goal with
    | H : _ && _ = true |- _ => apply andb_true_iff in H; destruct H
    | H : (_ <? _)%Z = true |- _ => apply Z.ltb_lt in H
    | H : (_ =? _)%Z = true |- _ => apply Z.eqb_eq in H
    end; lia.
Qed.

Lemma jumpPhase_jumpCount (clk : Clock) (p : Player) :
  (1 <= maxJumps p)%Z -> jumpCountInRange p ->
  jumpCountInRange (jumpPhase clk p)
  /\ maxJumps (jumpPhase clk p) = maxJumps p
  /\ (jumpCount p <= jumpCount (jumpPhase clk p))%Z.
Proof.
  intros Hm Hp.
  pose proof (processJump_jumpCount (now_jump clk) p Hm Hp) as Hj.
  unfold jumpPhase, jumpCountInRange in *.
  destruct (jumpRequested p); [| lia].
  destruct (Num.ltb _ _); [| cbn; lia].
  destruct (processJump (now_jump clk) p) as [[|] q]; cbn [snd] in Hj; cbn; lia.
Qed.

Lemma trackGround_jumpCountInRange (clk : Clock) (p : Player) :
  (1 <= maxJumps p)%Z -> jumpCountInRange p ->
  jumpCountInRange (trackGround clk p).
Proof.
  unfold jumpCountInRange; intros Hm Hp.
  rewrite trackGround_jumpCount.
  destruct (trackGround_other clk p) as [-> _].
  destruct (_ && _); lia.
Qed.

Lemma Player_update_jumpCount (clk : Clock) (dt : R) (p : Player) :
  (1 <= maxJumps p)%Z -> jumpCountInRange p ->
  jumpCountInRange (Player_update clk dt p)
  /\ maxJumps (Player_update clk dt p) = maxJumps p
  /\ (jumpCount (trackGround clk p) <= jumpCount (Player_update clk dt p))%Z.
Proof.
  intros Hm Hp.
  pose proof (trackGround_jumpCountInRange clk p Hm Hp) as Ht.
  destruct (trackGround_other clk p) as [Hmax _].
  rewrite <- Hmax in Hm.
  destruct (jumpPhase_jumpCount clk _ Hm Ht) as (Hj & Hjm & Hle).
  pose proof (Movement_update_same clk dt (jumpPhase clk (trackGround clk p))) as Hs.
  unfold Player_update, jumpCountInRange in *.
  rewrite (sj_jumpCount _ _ Hs), (sj_maxJumps _ _ Hs).
  repeat split; lia.
Qed.

Lemma step_jumpCount (e : Event) (p : Player) :
  (1 <= maxJumps p)%Z -> jumpCountInRange p ->
  (1 <= maxJumps (step e p))%Z /\ jumpCountInRange (step e p).
Proof.
  intros Hm Hp.
  destruct e as [k now | k | dx dy | pos r | f | clk dt]; cbn [step].
  - destruct k; split; assumption.
  - destruct k; split; assumption.
  - split; assumption.
  - destruct r; split; assumption.
  - split; assumption.
  - destruct (Player_update_jumpCount clk dt p Hm Hp) as (Hr & Hmax & _).
    rewrite Hmax; split; assumption.
Qed.

Lemma run_jumpCount (es : list Event) (p : Player) :
  (1 <= maxJumps p)%Z -> jumpCountInRange p ->
  (1 <= maxJumps (run es p))%Z /\ jumpCountInRange (run es p).
Proof.
  revert p; induction es as [| e es IH]; intros p Hm Hp; cbn [run].
  - split; assumption.
  - destruct (step_jumpCount e p Hm Hp) as [Hm' Hp']; apply IH; assumption.
Qed.

Lemma landing_tick_jumpCount (clk : Clock) (dt : R) (p : Player) :
  landing p = true ->
  jumpCount (Player_update clk dt p) = 0%Z \/ jumpCount (Player_update clk dt p) = 1%Z.
Proof.
  intros Hl.
  pose proof (Movement_update_same clk dt (jumpPhase clk (trackGround clk p))) as Hs.
  unfold Player_update; rewrite (sj_jumpCount _ _ Hs).
  assert (Hc : jumpCount (trackGround clk p) = 0%Z)
    by (rewrite trackGround_jumpCount; unfold landing in Hl; rewrite Hl; reflexivity).
  assert (Hg : canFirstJump (now_jump clk) (trackGround clk p) = true).
  { unfold canFirstJump; rewrite trackGround_onGround.
    unfold landing in Hl; apply andb_true_iff in Hl; destruct Hl as [-> _]; reflexivity. }
  set (t := trackGround clk p) in *.
  unfold jumpPhase.
  destruct (jumpRequested t); [| left; exact Hc].
  destruct (Num.ltb _ _); [| left; exact Hc].
  destruct (Rlt_dec (now_jump clk - lastJumpTime t) jumpCooldown) as [Hcool | Hcool].
  - rewrite processJump_cooldown by exact Hcool; left; exact Hc.
  - rewrite processJump_first by (try assumption; lra).
    right.
    match goal with |- context [applyJumpBoost ?a] =>
      pose proof (applyJumpBoost_same a) as Hb end.
    cbn [jumpCount set_jumpRequested]; rewrite (sj_jumpCount _ _ Hb); reflexivity.
Qed.

(** *** C4 *)

(** C4.  In every state reached from a newly constructed player (allowed
    at least one jump, as with the configuration of [main.js], which gives
    2) by key, mouse, spawn and physics events and ticks, the jump count is
    between 0 and [maxJumps].  On a tick the count is reset to 0 by the
    ground tracking of [Player.update] exactly when the body is on the
    ground and the player was not, whatever the count was; on any other
    tick ground tracking leaves the count alone, and nothing later in the
    tick lowers it.  A landing tick therefore ends with the count at 0, or
    at 1 when a buffered jump is granted in that same tick. *)
Theorem jumpCount_range_and_landing_reset
    (c : Config) (v0 : Vector3.t) (g0 : bool) (es : list Event)
    (clk : Clock) (dt : R) :
  (1 <= config_maxJumps c)%Z ->
  let p := run es (Player_new c v0 g0) in
  (0 <= jumpCount p <= maxJumps p)%Z
  /\ (landing p = true -> jumpCount (trackGround clk p) = 0%Z)
  /\ (landing p = false -> jumpCount (trackGround clk p) = jumpCount p)
  /\ (jumpCount (trackGround clk p) <= jumpCount (Player_update clk dt p))%Z
  /\ (landing p = true ->
      jumpCount (Player_update clk dt p) = 0%Z \/ jumpCount (Player_update clk dt p) = 1%Z)
  /\ (0 <= jumpCount (Player_update clk dt p) <= maxJumps (Player_update clk dt p))%Z.
Proof.
  intros Hc p.
  assert (Hinit : (1 <= maxJumps (Player_new c v0 g0))%Z
                  /\ jumpCountInRange (Player_new c v0 g0)).
  { unfold jumpCountInRange; cbn; lia. }
  destruct Hinit as [Hm0 Hp0].
  destruct (run_jumpCount es _ Hm0 Hp0) as [Hm Hp]; fold p in Hm, Hp.
  destruct (Player_update_jumpCount clk dt p Hm Hp) as (Hu & _ & Hle).
  split; [exact Hp |].
  split; [| split; [| split; [exact Hle | split; [apply landing_tick_jumpCount | exact Hu]]]];
    intros Hl; rewrite trackGround_jumpCount; unfold landing in Hl; rewrite Hl; reflexivity.
Qed.

Lemma jumpCount_range_and_landing_reset_witness :
  let p := run [ETick (clockAt 1000) 0; EKeyDown Space 2000; ETick (clockAt 2010) 0;
                EPhysics (fun b => mkPhysicsBody (pb_position b) (pb_velocity b) true)]
               (Player_new main_config Vector3.zero false) in
  (0 <= jumpCount p <= maxJumps p)%Z
  /\ landing p = true
  /\ jumpCount (trackGround (clockAt 3000) p) = 0%Z.
Proof.
  cbv zeta.
  pose proof (jumpCount_range_and_landing_reset main_config Vector3.zero false
                [ETick (clockAt 1000) 0; EKeyDown Space 2000; ETick (clockAt 2010) 0;
                 EPhysics (fun b => mkPhysicsBody (pb_position b) (pb_velocity b) true)]
                (clockAt 3000) 0) as H.
  cbv zeta in H.
  destruct H as (Hr & Hl & _); [cbn; lia |].
  assert (Hland : landing
            (run [ETick (clockAt 1000) 0; EKeyDown Space 2000; ETick (clockAt 2010) 0;
                  EPhysics (fun b => mkPhysicsBody (pb_position b) (pb_velocity b) true)]
                 (Player_new main_config Vector3.zero false)) = true).
  { unfold landing.
    cbn [run step physicsBody set_physicsBody pb_onGround].
    destruct (Player_update_ground (clockAt 2010) 0
                (step (EKeyDown Space 2000)
                   (step (ETick (clockAt 1000) 0)
                      (Player_new main_config Vector3.zero false)))) as (Hg & Hb & _).
    change (negb (onGround (set_physicsBody ?a ?b))) with (negb (onGround a)).
    cbn [step] in *.
    rewrite Hg.
    change (physicsBody (keyDown Space 2000 ?a)) with (physicsBody a).
    destruct (Player_update_ground (clockAt 1000) 0
                (Player_new main_config Vector3.zero false)) as (_ & Hb' & _).
    rewrite Hb'; reflexivity. }
  split; [exact Hr | split; [exact Hland | exact (Hl Hland)]].
Defined.

(** ** Dropped and consumed presses over a run *)

Lemma blocked_tick (clk : Clock) (dt : R) (q : Player) :
  pressBlocked clk dt q ->
  let t := trackGround clk q in
  jumpCount t = jumpCount q
  /\ (jumpPhase clk t = t \/ jumpPhase clk t = set_jumpRequested t false).
Proof.
  intros [Hg Hb] t.
  unfold airborneOutsideCoyote in Hg; fold t in Hg.
  assert (Hland : landing q = false).
  { unfold canFirstJump in Hg.
    apply orb_false_iff in Hg; destruct Hg as [Hg _].
    unfold t in Hg; rewrite trackGround_onGround in Hg.
    unfold landing; rewrite Hg; reflexivity. }
  assert (Hcount : jumpCount t = jumpCount q).
  { unfold t; rewrite trackGround_jumpCount; unfold landing in Hland.
    rewrite Hland; reflexivity. }
  split; [exact Hcount |].
  destruct (trackGround_other clk q) as (Hmax & Hlast & Hreq & Hbuf & _).
  fold t in Hmax, Hlast, Hreq, Hbuf.
  destruct (jumpRequested t) eqn:Hr; [| left; apply jumpPhase_idle; exact Hr].
  destruct (Rlt_dec (now_update clk - jumpBufferTime t) jumpBufferWindow) as [Hw | Hw].
  - left; apply jumpPhase_pending; [exact Hr | exact Hw |].
    destruct Hb as [Hc | Hc].
    + split; [rewrite <- Hreq; reflexivity | rewrite <- Hbuf; exact Hw].
    + apply processJump_cooldown; rewrite Hlast; exact Hc.
    + apply processJump_blocked; right; split; [exact Hg |].
      rewrite Hmax, Hcount; exact Hc.
  - right; apply jumpPhase_expired; [exact Hr | lra].
Qed.

Lemma blocked_tick_outputs (clk : Clock) (dt : R) (q : Player) :
  pressBlocked clk dt q -> jumpOutputsKept clk dt q.
Proof.
  intros Hb; destruct (blocked_tick clk dt q Hb) as [Hc Hj].
  pose proof (Movement_update_same clk dt (jumpPhase clk (trackGround clk q))) as Hs.
  destruct (trackGround_other clk q) as (_ & _ & _ & _ & _ & Hbody & _).
  unfold jumpOutputsKept, Player_update.
  rewrite (sj_jumpCount _ _ Hs), (sj_body_y _ _ Hs).
  destruct Hj as [-> | ->].
  - unfold body_velocity; rewrite Hbody; split; [exact Hc | reflexivity].
  - unfold body_velocity; cbn [jumpCount physicsBody set_jumpRequested].
    rewrite Hbody; split; [exact Hc | reflexivity].
Qed.

Lemma Player_update_request (clk : Clock) (dt : R) (p : Player) :
  (jumpRequested p = false -> jumpRequested (Player_update clk dt p) = false)
  /\ (jumpBufferWindow <= now_update clk - jumpBufferTime p ->
      jumpRequested (Player_update clk dt p) = false).
Proof.
  pose proof (Movement_update_same clk dt (jumpPhase clk (trackGround clk p))) as Hs.
  destruct (trackGround_other clk p) as (_ & _ & Hreq & Hbuf & _).
  unfold Player_update; rewrite (sj_jumpRequested _ _ Hs).
  split.
  - intros H; rewrite jumpPhase_idle; rewrite Hreq; exact H.
  - intros H; destruct (jumpRequested (trackGround clk p)) eqn:Hr.
    + rewrite jumpPhase_expired; [reflexivity | exact Hr | rewrite Hbuf; exact H].
    + rewrite jumpPhase_idle; assumption.
Qed.

Lemma step_without_press (e : Event) (p : Player) :
  isSpacePress e = false ->
  jumpBufferTime (step e p) = jumpBufferTime p
  /\ (jumpRequested p = false -> jumpRequested (step e p) = false).
Proof.
  intros He.
  destruct e as [k now | k | dx dy | pos r | f | clk dt]; cbn [step].
  - destruct k; try discriminate; split; auto.
  - destruct k; split; auto.
  - split; auto.
  - destruct r; split; auto.
  - split; auto.
  - destruct (Player_update_ground clk dt p) as (_ & _ & _ & Hb & _).
    split; [exact Hb | apply Player_update_request].
Qed.

Lemma run_without_press (es : list Event) (p : Player) :
  noSpacePress es = true ->
  jumpRequested p = false -> jumpRequested (run es p) = false.
Proof.
  revert p; induction es as [| e es IH]; intros p Hn Hr; cbn [run]; [exact Hr |].
  cbn in Hn; apply andb_true_iff in Hn; destruct Hn as [He Hn].
  apply negb_true_iff in He.
  apply IH; [exact Hn | apply step_without_press; assumption].
Qed.

Lemma step_untimed_jumpCount (e : Event) (p : Player) :
  match e with ETick _ _ => False | _ => True end ->
  jumpCount (step e p) = jumpCount p.
Proof.
  destruct e as [k now | k | dx dy | pos r | f | clk dt]; cbn [step]; intros H;
    try contradiction; try (destruct k; reflexivity); try reflexivity.
  destruct r; reflexivity.
Qed.

Lemma blocked_run (es : list Event) (p : Player) :
  everyTick pressBlocked es p ->
  jumpCount (run es p) = jumpCount p /\ everyTick jumpOutputsKept es p.
Proof.
  revert p; induction es as [| e es IH]; intros p Hb.
  - cbn; split; [reflexivity | exact I].
  - destruct Hb as [Hhead Htail].
    destruct (IH (step e p) Htail) as (Hc & Hk).
    assert (Hstep : jumpCount (step e p) = jumpCount p
                    /\ match e with ETick clk dt => jumpOutputsKept clk dt p | _ => True end).
    { destruct e as [k now | k | dx dy | pos r | f | clk dt];
        try (split; [apply step_untimed_jumpCount; exact I | exact I]).
      pose proof (blocked_tick_outputs clk dt p Hhead) as Ho.
      split; [exact (proj1 Ho) | exact Ho]. }
    destruct Hstep as [Hsc Hso].
    cbn [run everyTick]; repeat split.
    + rewrite Hc; exact Hsc.
    + exact Hso.
    + exact Hk.
Qed.

Lemma expired_run (es : list Event) (p : Player) :
  noSpacePress es = true ->
  Exists (expiresPress (jumpBufferTime p)) es ->
  jumpRequested (run es p) = false.
Proof.
  revert p; induction es as [| e es IH]; intros p Hn Hex; [inversion Hex |].
  cbn in Hn; apply andb_true_iff in Hn; destruct Hn as [He Hn].
  apply negb_true_iff in He.
  destruct (step_without_press e p He) as [Hbuf _].
  cbn [run]; apply Exists_cons in Hex; destruct Hex as [Hex | Hex].
  - apply run_without_press; [exact Hn |].
    destruct e as [k now | k | dx dy | pos r | f | clk dt]; try contradiction.
    cbn [step]; apply Player_update_request; exact Hex.
  - apply IH; [exact Hn | rewrite Hbuf; exact Hex].
Qed.

Lemma canFirstJump_trackGround (clk : Clock) (p : Player) :
  canFirstJump (now_jump clk) (trackGround clk p)
  = pb_onGround (physicsBody p)
    || Num.ltb (now_jump clk
                - (if negb (pb_onGround (physicsBody p)) && onGround p
                   then now_update clk else lastGroundedTime p)) coyoteTime.
Proof.
  unfold canFirstJump.
  rewrite trackGround_onGround, trackGround_lastGroundedTime; reflexivity.
Qed.

Lemma idle_tick (clk : Clock) (dt : R) (p : Player) :
  jumpRequested p = false -> landing p = false ->
  jumpCount (Player_update clk dt p) = jumpCount p.
Proof.
  intros Hr Hl.
  pose proof (Movement_update_same clk dt (jumpPhase clk (trackGround clk p))) as Hs.
  destruct (trackGround_other clk p) as (_ & _ & Hreq & _).
  unfold Player_update; rewrite (sj_jumpCount _ _ Hs).
  rewrite jumpPhase_idle by (rewrite Hreq; exact Hr).
  rewrite trackGround_jumpCount; unfold landing in Hl; rewrite Hl; reflexivity.
Qed.

Lemma air_jump_tick (clk : Clock) (dt : R) (p : Player) :
  let q := trackGround clk p in
  jumpRequested q = true ->
  now_update clk - jumpBufferTime q < jumpBufferWindow ->
  jumpCooldown <= now_jump clk - lastJumpTime q ->
  canFirstJump (now_jump clk) q = false ->
  (jumpCount q < maxJumps q)%Z ->
  let s := Player_update clk dt p in
  jumpCount s = (jumpCount q + 1)%Z
  /\ Vector3.y (body_velocity s) = jumpForce * (9 / 10)
  /\ lastJumpTime s = now_jump clk
  /\ jumpRequested s = false.
Proof.
  intros q Hreq Hbuf Hcool Hg Hn s.
  pose proof (Movement_update_same clk dt (jumpPhase clk q)) as Hs.
  unfold s, Player_update; fold q.
  rewrite (sj_jumpCount _ _ Hs), (sj_body_y _ _ Hs), (sj_lastJumpTime _ _ Hs),
    (sj_jumpRequested _ _ Hs).
  rewrite (jumpPhase_consumed clk q Hreq _ Hbuf (processJump_air _ _ Hcool Hg Hn)).
  repeat split.
Qed.

(** *** C1 *)

(** C1, as the code has it.  Take a run from a latched jump press in
    which, on every tick, the character is neither on the ground nor within
    coyote time, and in which no air jump is available (the cooldown is
    running or the jump count has reached [maxJumps]) on any tick that finds
    the press pending inside its buffer window.  Nothing more is asked of a
    tick at or after the end of the window.  Then the press is dropped: the
    jump count keeps its value over the run, so it stays 0 if it was 0, no
    tick of the run changes the jump count or the body's vertical velocity,
    and, when no further jump press is made, the request is cleared once a
    tick has taken place at or after [jumpBufferWindow] past the press
    timestamp.  A run whose first tick after the press comes past the window
    meets the condition on the air jump for free. *)
Theorem blocked_press_is_dropped (es : list Event) (p : Player) :
  jumpRequested p = true ->
  everyTick pressBlocked es p ->
  jumpCount (run es p) = jumpCount p
  /\ everyTick jumpOutputsKept es p
  /\ (noSpacePress es = true ->
      Exists (expiresPress (jumpBufferTime p)) es ->
      jumpRequested (run es p) = false).
Proof.
  intros _ Hb; destruct (blocked_run es p Hb) as [Hc Hk].
  split; [exact Hc | split; [exact Hk |]].
  intros Hn Hex; apply expired_run; assumption.
Qed.

Lemma pressedSpent_blocked : everyTick pressBlocked twoFrames pressedSpent.
Proof.
  assert (H1 : pressBlocked (clockAt 1010) (1 / 120) pressedSpent).
  { split; [| intros _; right; cbn; lia].
    unfold airborneOutsideCoyote.
    rewrite canFirstJump_trackGround; cbn; num_decide; reflexivity. }
  destruct (blocked_tick_outputs _ _ _ H1) as [Hc _].
  destruct (Player_update_ground (clockAt 1010) (1 / 120) pressedSpent)
    as (Hg & Hb & Hl & _ & Hm).
  cbn [twoFrames everyTick step]; repeat split; try exact (proj1 H1); try exact (proj2 H1).
  - unfold airborneOutsideCoyote.
    rewrite canFirstJump_trackGround, Hb, Hg, Hl; cbn; num_decide; reflexivity.
  - intros _; right; rewrite Hm, Hc; cbn; lia.
Qed.

Lemma pressedInAir_blocked : everyTick pressBlocked lateFrames pressedInAir.
Proof.
  assert (H1 : pressBlocked (clockAt 1250) (1 / 120) pressedInAir).
  { split.
    - unfold airborneOutsideCoyote.
      rewrite canFirstJump_trackGround; cbn; num_decide; reflexivity.
    - intros [_ Hw]; cbn in Hw; unfold jumpBufferWindow in Hw; lra. }
  destruct (Player_update_ground (clockAt 1250) (1 / 120) pressedInAir)
    as (Hg & Hb & Hl & Ht & _).
  cbn [lateFrames everyTick step]; repeat split; try exact (proj1 H1); try exact (proj2 H1).
  - unfold airborneOutsideCoyote.
    rewrite canFirstJump_trackGround, Hb, Hg, Hl; cbn; num_decide; reflexivity.
  - intros [_ Hw]; rewrite Ht in Hw; cbn in Hw; unfold jumpBufferWindow in Hw; lra.
Qed.

Lemma blocked_press_is_dropped_witness :
  (jumpCount pressedInAir = 0%Z
   /\ jumpCount (run lateFrames pressedInAir) = 0%Z
   /\ jumpRequested (run lateFrames pressedInAir) = false)
  /\ (jumpCount (run twoFrames pressedSpent) = 2%Z
      /\ jumpRequested (run twoFrames pressedSpent) = false).
Proof.
  split.
  - destruct (blocked_press_is_dropped lateFrames pressedInAir) as (Hc & _ & Hx).
    + reflexivity.
    + exact pressedInAir_blocked.
    + split; [reflexivity | split; [exact Hc |]].
      apply Hx; [reflexivity |].
      unfold lateFrames; apply Exists_cons_hd.
      cbn; unfold jumpBufferWindow; lra.
  - destruct (blocked_press_is_dropped twoFrames pressedSpent) as (Hc & _ & Hx).
    + reflexivity.
    + exact pressedSpent_blocked.
    + split; [exact Hc |].
      apply Hx; [reflexivity |].
      unfold twoFrames; apply Exists_cons_tl, Exists_cons_hd.
      cbn; unfold jumpBufferWindow; lra.
Defined.

(** C1 fails as stated: with the jump count at 0, a press made while
    airborne and outside coyote time is not dropped but consumed as an air
    jump on the next tick.  Here the character is never on the ground nor in
    coyote time, a tick takes place 250 ms after the press, and yet the jump
    count has become 1 and the first tick wrote the vertical velocity. *)
Lemma airborne_press_is_air_jump :
  jumpRequested pressedInAir = true
  /\ jumpCount pressedInAir = 0%Z
  /\ noSpacePress twoFrames = true
  /\ everyTick airborneOutsideCoyote twoFrames pressedInAir
  /\ Exists (expiresPress (jumpBufferTime pressedInAir)) twoFrames
  /\ jumpCount (run twoFrames pressedInAir) = 1%Z
  /\ Vector3.y (body_velocity pressedInAir) = 0
  /\ Vector3.y (body_velocity (Player_update (clockAt 1010) (1 / 120) pressedInAir))
     = jumpForce * (9 / 10).
Proof.
  assert (Hair : let q := trackGround (clockAt 1010) pressedInAir in
                 jumpRequested q = true
                 /\ now_update (clockAt 1010) - jumpBufferTime q < jumpBufferWindow
                 /\ jumpCooldown <= now_jump (clockAt 1010) - lastJumpTime q
                 /\ canFirstJump (now_jump (clockAt 1010)) q = false
                 /\ (jumpCount q < maxJumps q)%Z).
  { repeat split; jump_eval; try reflexivity; unfold_tuning; lra. }
  destruct Hair as (A1 & A2 & A3 & A4 & A5).
  destruct (air_jump_tick (clockAt 1010) (1 / 120) pressedInAir A1 A2 A3 A4 A5)
    as (Hc & Hy & _ & Hr).
  destruct (Player_update_ground (clockAt 1010) (1 / 120) pressedInAir)
    as (Hg & Hb & Hl & _).
  set (p1 := Player_update (clockAt 1010) (1 / 120) pressedInAir) in *.
  assert (Hland : landing p1 = false) by (unfold landing; rewrite Hb; reflexivity).
  repeat split; try reflexivity.
  - exact A4.
  - unfold airborneOutsideCoyote; cbn [step]; fold p1.
    rewrite canFirstJump_trackGround, Hb, Hg, Hl; cbn; num_decide; reflexivity.
  - unfold twoFrames; apply Exists_cons_tl, Exists_cons_hd.
    cbn; unfold jumpBufferWindow; lra.
  - cbn [twoFrames run step]; fold p1.
    rewrite (idle_tick _ _ p1 Hr Hland), Hc; reflexivity.
  - exact Hy.
Qed.

(** ** Vectors *)

Section VectorFacts.

Import Vector3.

Lemma lengthSq_nonneg (v : t) : 0 <= lengthSq v.
Proof. unfold lengthSq; nra. Qed.

Lemma length_nonneg (v : t) : 0 <= length v.
Proof. apply sqrt_pos. Qed.

Lemma length_sqr (v : t) : length v * length v = lengthSq v.
Proof. apply sqrt_sqrt, lengthSq_nonneg. Qed.

Lemma length_zero_iff (v : t) : length v = 0 <-> lengthSq v = 0.
Proof.
  split; intros H.
  - rewrite <- length_sqr, H; ring.
  - unfold length; rewrite H; apply sqrt_0.
Qed.

Lemma lengthSq_multiplyScalar (v : t) (s : R) :
  lengthSq (multiplyScalar v s) = s * s * lengthSq v.
Proof. unfold lengthSq, multiplyScalar; cbn; ring. Qed.

Lemma length_multiplyScalar (v : t) (s : R) :
  0 <= s -> length (multiplyScalar v s) = s * length v.
Proof.
  intros Hs; unfold length; rewrite lengthSq_multiplyScalar.
  rewrite sqrt_mult by (try apply lengthSq_nonneg; nra).
  rewrite sqrt_square by exact Hs; reflexivity.
Qed.

Lemma length_unit (v : t) : lengthSq v = 1 -> length v = 1.
Proof. intros H; unfold length; rewrite H; apply sqrt_1. Qed.

Lemma multiplyScalar_one (v : t) : multiplyScalar v 1 = v.
Proof.
  destruct v; unfold multiplyScalar; cbn; f_equal; ring.
Qed.

Lemma normalize_unit (v : t) : lengthSq v = 1 -> normalize v = v.
Proof.
  intros H; unfold normalize, divideScalar.
  rewrite (length_unit v H).
  replace (Num.eqb 1 0) with false by (symmetry; apply NumFacts.eqb_false; lra).
  replace (1 / 1) with 1 by field.
  apply multiplyScalar_one.
Qed.

Lemma length_normalize (v : t) : lengthSq v <> 0 -> length (normalize v) = 1.
Proof.
  intros H; unfold normalize, divideScalar.
  assert (Hl : length v <> 0) by (rewrite length_zero_iff; exact H).
  pose proof (length_nonneg v) as Hn.
  replace (Num.eqb (length v) 0) with false by (symmetry; apply NumFacts.eqb_false; exact Hl).
  rewrite length_multiplyScalar.
  - field; exact Hl.
  - apply Rlt_le, Rdiv_lt_0_compat; lra.
Qed.

Lemma normalize_y (v : t) : y v = 0 -> y (normalize v) = 0.
Proof.
  intros H; unfold normalize, divideScalar, multiplyScalar; cbn; rewrite H; ring.
Qed.

Lemma hspeed_eq (v : t) : hspeed v = sqrt (x v * x v + z v * z v).
Proof.
  unfold hspeed, length, lengthSq, horizontal; cbn; f_equal; ring.
Qed.

Lemma hspeed_nonneg (v : t) : 0 <= hspeed v.
Proof. apply length_nonneg. Qed.


Lemma hspeed_flat (v : t) : y v = 0 -> hspeed v = length v.
Proof.
  intros H; rewrite hspeed_eq; unfold length, lengthSq; rewrite H; f_equal; ring.
Qed.

Lemma hspeed_scaled (a b s : R) (v : t) :
  0 <= s -> x v = a * s -> z v = b * s ->
  hspeed v = s * sqrt (a * a + b * b).
Proof.
  intros Hs Hx Hz; rewrite hspeed_eq, Hx, Hz.
  replace (a * s * (a * s) + b * s * (b * s)) with (s * s * (a * a + b * b)) by ring.
  rewrite sqrt_mult by nra.
  rewrite sqrt_square by exact Hs; reflexivity.
Qed.

(** The triangle inequality in the horizontal plane. *)
Lemma sqrt_triangle (a b c d : R) :
  sqrt ((a + c) * (a + c) + (b + d) * (b + d))
  <= sqrt (a * a + b * b) + sqrt (c * c + d * d).
Proof.
  set (u := sqrt (a * a + b * b)).
  set (w := sqrt (c * c + d * d)).
  assert (Hu : 0 <= u) by apply sqrt_pos.
  assert (Hw : 0 <= w) by apply sqrt_pos.
  assert (Hu2 : u * u = a * a + b * b) by (apply sqrt_sqrt; nra).
  assert (Hw2 : w * w = c * c + d * d) by (apply sqrt_sqrt; nra).
  assert (Hcs : a * c + b * d <= u * w).
  { destruct (Rle_lt_dec (a * c + b * d) 0) as [Hneg | Hpos]; [nra |].
    apply Rsqr_incr_0_var; [| nra].
    unfold Rsqr.
    replace (u * w * (u * w)) with ((u * u) * (w * w)) by ring.
    rewrite Hu2, Hw2.
    assert (Hid : (a * a + b * b) * (c * c + d * d) - (a * c + b * d) * (a * c + b * d)
                  = (a * d - b * c) * (a * d - b * c)) by ring.
    pose proof (Rle_0_sqr (a * d - b * c)) as Hsq; unfold Rsqr in Hsq.
    lra. }
  rewrite <- (sqrt_square (u + w)) by lra.
  apply sqrt_le_1_alt; nra.
Qed.

End VectorFacts.

(** ** Locomotion: the vertical velocity and the idle path *)

(** *** C9 *)

(** C9.  The locomotion update, and each of its parts that touches the
    body (both blending regimes with the speed limit, the forward boost of
    a jump, the idle friction), leaves the Y component of the body's
    velocity as it was: only X and Z are written. *)
Theorem locomotion_keeps_vertical_velocity (clk : Clock) (dt : R) (p : Player) :
  Vector3.y (body_velocity (Movement_update clk dt p)) = Vector3.y (body_velocity p)
  /\ Vector3.y (body_velocity (applyAccelerationWithMomentum dt p))
     = Vector3.y (body_velocity p)
  /\ Vector3.y (body_velocity (forwardBoost p)) = Vector3.y (body_velocity p)
  /\ Vector3.y (body_velocity (applyFriction dt p)) = Vector3.y (body_velocity p).
Proof.
  repeat split.
  - apply (sj_body_y _ _ (Movement_update_same clk dt p)).
  - apply (sj_body_y _ _ (applyAccelerationWithMomentum_same dt p)).
  - apply (sj_body_y _ _ (forwardBoost_same p)).
  - apply (sj_body_y _ _ (applyFriction_same dt p)).
Qed.

Lemma applyFriction_velocity (dt : R) (p : Player) :
  let v := body_velocity p in
  body_velocity (applyFriction dt p)
  = if Num.ltb (Vector3.hspeed v) (1 / 100)
    then Vector3.new 0 (Vector3.y v) 0
    else Vector3.new (Vector3.x v * idleDamping (onGround p) (Vector3.hspeed v) dt)
                     (Vector3.y v)
                     (Vector3.z v * idleDamping (onGround p) (Vector3.hspeed v) dt).
Proof.
  unfold applyFriction, idleDamping, idleFriction; cbv zeta.
  destruct (Num.ltb (Vector3.hspeed (body_velocity p)) (1 / 100)); reflexivity.
Qed.

Lemma Movement_update_idle (clk : Clock) (dt : R) (p : Player) :
  Vector3.lengthSq (moveInput p) = 0 ->
  body_velocity (Movement_update clk dt p) = body_velocity (applyFriction dt p).
Proof.
  intros H; unfold Movement_update.
  apply NumFacts.eqb_true in H; rewrite H; reflexivity.
Qed.

Lemma idleDamping_range (g : bool) (speed dt : R) :
  0 <= dt -> 0 <= idleDamping g speed dt <= 1.
Proof.
  intros Hdt; unfold idleDamping, idleFriction.
  assert (Hf : 0 <= (if g then groundFriction else airFriction))
    by (destruct g; unfold_tuning; lra).
  split; [apply Rmax_l |].
  apply Rmax_lub; [lra |].
  destruct (Num.gtb speed 5); nra.
Qed.

(** *** C8 *)

(** C8.  On a tick with zero move input (and a time step that is not
    negative) the horizontal speed after the tick is at most the speed
    before it.  Below speed 0.01 both horizontal components become exactly
    0; otherwise both are multiplied by [max(0, 1 - friction * dt)], the
    friction being the ground or air coefficient by [onGround], halved when
    the speed exceeds 5. *)
Theorem idle_friction_decays (clk : Clock) (dt : R) (p : Player) :
  0 <= dt ->
  Vector3.lengthSq (moveInput p) = 0 ->
  let v := body_velocity p in
  let v' := body_velocity (Movement_update clk dt p) in
  Vector3.hspeed v' <= Vector3.hspeed v
  /\ (Vector3.hspeed v < 1 / 100 -> Vector3.x v' = 0 /\ Vector3.z v' = 0)
  /\ (1 / 100 <= Vector3.hspeed v ->
      Vector3.x v' = Vector3.x v * idleDamping (onGround p) (Vector3.hspeed v) dt
      /\ Vector3.z v' = Vector3.z v * idleDamping (onGround p) (Vector3.hspeed v) dt).
Proof.
  intros Hdt Hin v v'.
  unfold v'; rewrite Movement_update_idle by exact Hin.
  rewrite applyFriction_velocity; fold v.
  pose proof (idleDamping_range (onGround p) (Vector3.hspeed v) dt Hdt) as Hd.
  pose proof (hspeed_nonneg v) as Hv.
  destruct (Num.ltb (Vector3.hspeed v) (1 / 100)) eqn:Hs; num_hyps.
  - repeat split; try reflexivity; try lra.
    rewrite hspeed_eq; cbn.
    replace (0 * 0 + 0 * 0) with 0 by ring; rewrite sqrt_0; exact Hv.
  - repeat split; try reflexivity; try lra.
    rewrite (hspeed_scaled (Vector3.x v) (Vector3.z v)
               (idleDamping (onGround p) (Vector3.hspeed v) dt));
      [| lra | reflexivity | reflexivity].
    rewrite <- hspeed_eq; nra.
Qed.

Lemma idle_friction_decays_witness :
  let p := set_body_velocity standing (Vector3.new 3 0 4) in
  Vector3.x (body_velocity (Movement_update (clockAt 0) (1 / 120) p))
  = 3 * idleDamping true 5 (1 / 120).
Proof.
  cbv zeta.
  set (p := set_body_velocity standing (Vector3.new 3 0 4)).
  assert (Hh : Vector3.hspeed (body_velocity p) = 5).
  { rewrite hspeed_eq; cbn.
    replace (3 * 3 + 4 * 4) with (5 * 5) by ring; apply sqrt_square; lra. }
  destruct (idle_friction_decays (clockAt 0) (1 / 120) p) as (_ & _ & Hx).
  - lra.
  - unfold Vector3.lengthSq; cbn; ring.
  - rewrite Hh in Hx; apply Hx; lra.
Defined.

(** ** Locomotion with move input *)

Lemma Movement_update_active (clk : Clock) (dt : R) (p : Player) :
  Vector3.lengthSq (moveInput p) <> 0 ->
  body_velocity (Movement_update clk dt p)
  = body_velocity (applyAccelerationWithMomentum dt (aimed clk p)).
Proof.
  intros H; unfold Movement_update.
  apply NumFacts.eqb_false in H; rewrite H; reflexivity.
Qed.

Lemma half_zero : 0 / 2 = 0.
Proof. field. Qed.

Lemma yaw_quaternion (yaw : R) :
  Quaternion.setFromEuler (Euler.new3 0 yaw 0)
  = Quaternion.new 0 (sin (yaw / 2)) 0 (cos (yaw / 2)).
Proof.
  unfold Quaternion.setFromEuler; cbn.
  rewrite half_zero, sin_0, cos_0; f_equal; ring.
Qed.

Lemma sin_half (yaw : R) : sin yaw = 2 * sin (yaw / 2) * cos (yaw / 2).
Proof.
  replace yaw with (2 * (yaw / 2)) at 1 by field; apply sin_2a.
Qed.

Lemma cos_half (yaw : R) :
  cos yaw = cos (yaw / 2) * cos (yaw / 2) - sin (yaw / 2) * sin (yaw / 2).
Proof.
  replace yaw with (2 * (yaw / 2)) at 1 by field; apply cos_2a.
Qed.

Lemma sin_cos_sqr (a : R) : sin a * sin a + cos a * cos a = 1.
Proof. exact (sin2_cos2 a). Qed.

Lemma yaw_forward (yaw : R) :
  Vector3.set_y
    (Vector3.applyQuaternion (Vector3.new 0 0 (-1))
       (Quaternion.setFromEuler (Euler.new3 0 yaw 0))) 0
  = Vector3.new (- sin yaw) 0 (- cos yaw).
Proof.
  rewrite yaw_quaternion, (sin_half yaw), (cos_half yaw).
  unfold Vector3.applyQuaternion, Vector3.set_y; cbn; f_equal; ring.
Qed.

Lemma yaw_right (yaw : R) :
  Vector3.set_y
    (Vector3.applyQuaternion (Vector3.new 1 0 0)
       (Quaternion.setFromEuler (Euler.new3 0 yaw 0))) 0
  = Vector3.new (cos yaw) 0 (- sin yaw).
Proof.
  rewrite yaw_quaternion, (sin_half yaw), (cos_half yaw).
  unfold Vector3.applyQuaternion, Vector3.set_y; cbn; f_equal; ring.
Qed.

Lemma unit_kept (v : Vector3.t) :
  Vector3.lengthSq v = 1 ->
  (if Num.gtb (Vector3.lengthSq v) 0 then Vector3.normalize v else v) = v.
Proof.
  intros H; rewrite (normalize_unit v H).
  destruct (Num.gtb _ _); reflexivity.
Qed.

Lemma calculateMoveDirection_direction (mi : Vector3.t) (p : Player) :
  moveDirection (movement (calculateMoveDirection mi p))
  = let d := worldDirection (Euler.y (viewRotation p)) mi in
    if Num.gtb (Vector3.lengthSq d) 0 then Vector3.normalize d else d.
Proof.
  unfold calculateMoveDirection; cbv zeta.
  rewrite yaw_forward, yaw_right.
  set (yaw := Euler.y (viewRotation p)).
  rewrite (unit_kept (Vector3.new (- sin yaw) 0 (- cos yaw)))
    by (unfold Vector3.lengthSq; cbn; pose proof (sin_cos_sqr yaw); lra).
  rewrite (unit_kept (Vector3.new (cos yaw) 0 (- sin yaw)))
    by (unfold Vector3.lengthSq; cbn; pose proof (sin_cos_sqr yaw); lra).
  cbn [movement set_movement moveDirection set_moveDirection].
  replace (Vector3.addScaledVector
             (Vector3.addScaledVector (Vector3.new 0 0 0)
                (Vector3.new (- sin yaw) 0 (- cos yaw)) (- Vector3.z mi))
             (Vector3.new (cos yaw) 0 (- sin yaw)) (Vector3.x mi))
    with (worldDirection yaw mi)
    by (unfold worldDirection, Vector3.addScaledVector; cbn; f_equal; ring).
  reflexivity.
Qed.

Lemma worldDirection_lengthSq (yaw : R) (mi : Vector3.t) :
  Vector3.lengthSq (worldDirection yaw mi)
  = Vector3.x mi * Vector3.x mi + Vector3.z mi * Vector3.z mi.
Proof.
  unfold Vector3.lengthSq, worldDirection; cbn.
  transitivity ((sin yaw * sin yaw + cos yaw * cos yaw)
                * (Vector3.x mi * Vector3.x mi + Vector3.z mi * Vector3.z mi));
    [ring | rewrite sin_cos_sqr; ring].
Qed.

(** The move direction of a tick is horizontal and of length 1 or 0. *)
Lemma moveDirection_shape (mi : Vector3.t) (p : Player) :
  let d := moveDirection (movement (calculateMoveDirection mi p)) in
  Vector3.y d = 0 /\ (Vector3.length d = 1 \/ Vector3.length d = 0).
Proof.
  cbv zeta; rewrite calculateMoveDirection_direction; cbv zeta.
  set (w := worldDirection (Euler.y (viewRotation p)) mi).
  assert (Hy : Vector3.y w = 0) by reflexivity.
  destruct (Num.gtb (Vector3.lengthSq w) 0) eqn:Hg; num_hyps.
  - split; [apply normalize_y; exact Hy | left; apply length_normalize; lra].
  - split; [exact Hy | right].
    apply length_zero_iff; pose proof (lengthSq_nonneg w); lra.
Qed.

Lemma aimed_fields (clk : Clock) (p : Player) :
  let a := aimed clk p in
  let d := moveDirection (movement (calculateMoveDirection (usedInput p) p)) in
  body_velocity a = body_velocity p
  /\ onGround a = onGround p
  /\ boostDue a = boostDue p
  /\ moveDirection (movement a) = d
  /\ targetVelocity (movement a)
     = Vector3.multiplyScalar d (if isSprinting p then runSpeed else walkSpeed)
  /\ hasChangedDirection (movement a)
     = hasChangedDirection
         (movement (detectDirectionChange (now_dir clk)
                      (calculateMoveDirection (usedInput p) p))).
Proof.
  unfold aimed; cbv zeta.
  set (q := calculateMoveDirection (usedInput p) p).
  assert (Hq : isSprinting q = isSprinting p) by reflexivity.
  assert (Hs : isSprinting (detectDirectionChange (now_dir clk) q) = isSprinting p).
  { rewrite <- Hq; unfold detectDirectionChange; repeat break_if; reflexivity. }
  rewrite Hs.
  unfold detectDirectionChange; repeat break_if; repeat split.
Qed.

Section LimitSpeed.

Variable v : Vector3.t.

Lemma limitSpeed_over :
  Vector3.length v > maxSpeed ->
  limitSpeed v = Vector3.multiplyScalar v (maxSpeed / Vector3.length v)
  /\ 0 < maxSpeed / Vector3.length v
  /\ Vector3.length (limitSpeed v) = maxSpeed.
Proof.
  intros H; unfold limitSpeed.
  rewrite (proj2 (NumFacts.gtb_true _ _) H).
  assert (Hm : 0 < maxSpeed) by (unfold maxSpeed; lra).
  assert (Hk : 0 < maxSpeed / Vector3.length v) by (apply Rdiv_lt_0_compat; lra).
  repeat split; [exact Hk |].
  rewrite length_multiplyScalar by lra.
  field; lra.
Qed.

Lemma limitSpeed_under : Vector3.length v <= maxSpeed -> limitSpeed v = v.
Proof.
  intros H; unfold limitSpeed.
  rewrite (proj2 (NumFacts.gtb_false _ _) H); reflexivity.
Qed.

Lemma limitSpeed_bound : Vector3.length (limitSpeed v) <= maxSpeed.
Proof.
  destruct (Rle_lt_dec (Vector3.length v) maxSpeed) as [H | H].
  - rewrite limitSpeed_under; assumption.
  - destruct (limitSpeed_over H) as (_ & _ & ->); lra.
Qed.

Lemma limitSpeed_y : Vector3.y v = 0 -> Vector3.y (limitSpeed v) = 0.
Proof.
  intros H; unfold limitSpeed; destruct (Num.gtb _ _); [cbn; rewrite H; ring | exact H].
Qed.

End LimitSpeed.

Lemma blendVelocity_y (dt : R) (p : Player) :
  Vector3.y (targetVelocity (movement p)) = 0 -> Vector3.y (blendVelocity dt p) = 0.
Proof.
  intros H; unfold blendVelocity; cbv zeta.
  destruct (_ && _); cbn; rewrite H; ring.
Qed.

Lemma aimed_target_y (clk : Clock) (p : Player) :
  Vector3.y (targetVelocity (movement (aimed clk p))) = 0.
Proof.
  destruct (aimed_fields clk p) as (_ & _ & _ & _ & -> & _).
  destruct (moveDirection_shape (usedInput p) p) as [Hy _].
  unfold Vector3.multiplyScalar; cbn [Vector3.y]; rewrite Hy; ring.
Qed.

Lemma writeHorizontal_velocity (w : Vector3.t) (p : Player) :
  body_velocity (writeHorizontal w p)
  = Vector3.new (Vector3.x w) (Vector3.y (body_velocity p)) (Vector3.z w).
Proof. reflexivity. Qed.

Lemma forwardBoost_velocity (p : Player) :
  body_velocity (forwardBoost p)
  = if boostDue p then
      Vector3.new
        (Vector3.x (body_velocity p)
         + Vector3.x (moveDirection (movement p)) * (jumpBoostForward * walkSpeed))
        (Vector3.y (body_velocity p))
        (Vector3.z (body_velocity p)
         + Vector3.z (moveDirection (movement p)) * (jumpBoostForward * walkSpeed))
    else body_velocity p.
Proof.
  unfold forwardBoost, boostDue; destruct (_ && _); reflexivity.
Qed.

(** The velocity a tick with move input leaves in the body: the limited
    blend in X and Z, plus the boost when one is due. *)
Lemma Movement_update_velocity (clk : Clock) (dt : R) (p : Player) :
  Vector3.lengthSq (moveInput p) <> 0 ->
  let a := aimed clk p in
  let w := limitSpeed (blendVelocity dt a) in
  let d := moveDirection (movement a) in
  body_velocity (Movement_update clk dt p)
  = if boostDue p then
      Vector3.new (Vector3.x w + Vector3.x d * (jumpBoostForward * walkSpeed))
                  (Vector3.y (body_velocity p))
                  (Vector3.z w + Vector3.z d * (jumpBoostForward * walkSpeed))
    else Vector3.new (Vector3.x w) (Vector3.y (body_velocity p)) (Vector3.z w).
Proof.
  intros H a w d.
  rewrite Movement_update_active by exact H; fold a.
  unfold applyAccelerationWithMomentum; fold w.
  rewrite forwardBoost_velocity, writeHorizontal_velocity.
  destruct (aimed_fields clk p) as (Hv & _ & Hb & _); fold a in Hv, Hb.
  replace (boostDue (writeHorizontal w a)) with (boostDue p) by (rewrite <- Hb; reflexivity).
  rewrite Hv.
  destruct (boostDue p); reflexivity.
Qed.

Lemma limited_blend_speed (clk : Clock) (dt : R) (p : Player) :
  let w := limitSpeed (blendVelocity dt (aimed clk p)) in
  Vector3.y w = 0 /\ Vector3.hspeed w = Vector3.length w /\ Vector3.hspeed w <= maxSpeed.
Proof.
  cbv zeta.
  assert (Hy : Vector3.y (limitSpeed (blendVelocity dt (aimed clk p))) = 0)
    by (apply limitSpeed_y, blendVelocity_y, aimed_target_y).
  split; [exact Hy |].
  rewrite (hspeed_flat _ Hy); split; [reflexivity | apply limitSpeed_bound].
Qed.

Lemma hspeed_xz (v w : Vector3.t) :
  Vector3.x v = Vector3.x w -> Vector3.z v = Vector3.z w ->
  Vector3.hspeed v = Vector3.hspeed w.
Proof. intros Hx Hz; rewrite !hspeed_eq, Hx, Hz; reflexivity. Qed.

(** ** The speed limit *)

Lemma capped_tick (clk : Clock) (dt : R) (p : Player) :
  Vector3.lengthSq (moveInput p) <> 0 ->
  boostDue p = false ->
  let w := limitSpeed (blendVelocity dt (aimed clk p)) in
  let v' := body_velocity (Movement_update clk dt p) in
  Vector3.x v' = Vector3.x w /\ Vector3.z v' = Vector3.z w
  /\ Vector3.hspeed v' = Vector3.length w
  /\ Vector3.hspeed v' <= maxSpeed.
Proof.
  intros Hin Hb w v'.
  pose proof (Movement_update_velocity clk dt p Hin) as Hv; cbv zeta in Hv.
  rewrite Hb in Hv; fold w in Hv; fold v' in Hv.
  destruct (limited_blend_speed clk dt p) as (_ & Hl & Hm); fold w in Hl, Hm.
  assert (Hx : Vector3.x v' = Vector3.x w) by (rewrite Hv; reflexivity).
  assert (Hz : Vector3.z v' = Vector3.z w) by (rewrite Hv; reflexivity).
  rewrite (hspeed_xz v' w Hx Hz).
  repeat split; [exact Hx | exact Hz | exact Hl | exact Hm].
Qed.

Lemma Movement_update_isJumping (clk : Clock) (dt : R) (p : Player) :
  isJumping p = false -> isJumping (Movement_update clk dt p) = false.
Proof.
  intros H; unfold Movement_update.
  destruct (Num.eqb _ _).
  - unfold applyFriction; repeat break_if; exact H.
  - cbn [isJumping set_movement].
    unfold applyAccelerationWithMomentum, forwardBoost.
    break_if; [reflexivity |].
    cbn [isJumping writeHorizontal set_body_velocity set_physicsBody].
    unfold detectDirectionChange; repeat break_if; exact H.
Qed.

Lemma Player_update_noJumpPending (clk : Clock) (dt : R) (p : Player) :
  noJumpPending p ->
  noJumpPending (Player_update clk dt p)
  /\ Player_update clk dt p = Movement_update clk dt (trackGround clk p).
Proof.
  intros [Hr Hj].
  destruct (trackGround_other clk p) as (_ & _ & Hreq & _ & Hjmp & _).
  assert (Hidle : jumpPhase clk (trackGround clk p) = trackGround clk p)
    by (apply jumpPhase_idle; rewrite Hreq; exact Hr).
  unfold Player_update; rewrite Hidle.
  split; [split | reflexivity].
  - rewrite (sj_jumpRequested _ _ (Movement_update_same clk dt _)), Hreq; exact Hr.
  - apply Movement_update_isJumping; rewrite Hjmp; exact Hj.
Qed.

Lemma step_noJumpPending (e : Event) (p : Player) :
  isSpacePress e = false -> noJumpPending p -> noJumpPending (step e p).
Proof.
  intros He Hp.
  destruct e as [k now | k | dx dy | pos r | f | clk dt]; cbn [step].
  - destruct k; try discriminate; exact Hp.
  - destruct k; exact Hp.
  - exact Hp.
  - destruct r; exact Hp.
  - exact Hp.
  - apply Player_update_noJumpPending; exact Hp.
Qed.

Lemma run_speedWithinMax (es : list Event) (p : Player) :
  noSpacePress es = true ->
  noJumpPending p ->
  everyTick hasMoveInput es p ->
  everyTick speedWithinMax es p.
Proof.
  revert p; induction es as [| e es IH]; intros p Hn Hp Hin; [exact I |].
  cbn in Hn; apply andb_true_iff in Hn; destruct Hn as [He Hn].
  apply negb_true_iff in He.
  destruct Hin as [Hhead Htail].
  split.
  - destruct e as [k now | k | dx dy | pos r | f | clk dt]; try exact I.
    unfold speedWithinMax, hasMoveInput in *.
    destruct (Player_update_noJumpPending clk dt p Hp) as [_ ->].
    destruct (trackGround_other clk p) as (_ & _ & _ & _ & Hjmp & _ & _ & Hmi).
    apply capped_tick.
    + rewrite Hmi; exact Hhead.
    + unfold boostDue; rewrite Hjmp, (proj2 Hp); reflexivity.
  - apply IH; [exact Hn | apply step_noJumpPending; assumption | exact Htail].
Qed.

(** *** C6 *)

(** C6.  On a tick with move input, the velocity chosen by either
    blending regime goes through the speed limit before it is written to
    the body: when its length exceeds [maxSpeed] it is multiplied by the
    positive factor [maxSpeed / length], which makes its length exactly
    [maxSpeed], and otherwise it is left as it is; X and Z of the body then
    hold the limited velocity, to which only a due jump boost is added.
    Hence in any run from a new player without a jump press, if every tick
    has move input, the horizontal speed after every tick is at most
    [maxSpeed] (whatever the physics step does in between). *)
Theorem speed_limit_before_write :
  (forall (clk : Clock) (dt : R) (p : Player),
      Vector3.lengthSq (moveInput p) <> 0 ->
      let a := aimed clk p in
      let blended := blendVelocity dt a in
      let w := limitSpeed blended in
      let v' := body_velocity (Movement_update clk dt p) in
      (Vector3.length blended > maxSpeed ->
         w = Vector3.multiplyScalar blended (maxSpeed / Vector3.length blended)
         /\ 0 < maxSpeed / Vector3.length blended
         /\ Vector3.length w = maxSpeed)
      /\ (Vector3.length blended <= maxSpeed -> w = blended)
      /\ applyAccelerationWithMomentum dt a = forwardBoost (writeHorizontal w a)
      /\ body_velocity (writeHorizontal w a)
         = Vector3.new (Vector3.x w) (Vector3.y (body_velocity p)) (Vector3.z w)
      /\ (boostDue p = false ->
          Vector3.x v' = Vector3.x w /\ Vector3.z v' = Vector3.z w
          /\ Vector3.hspeed v' = Vector3.length w
          /\ Vector3.hspeed v' <= maxSpeed))
  /\ (forall (c : Config) (v0 : Vector3.t) (g0 : bool) (es : list Event),
         noSpacePress es = true ->
         everyTick hasMoveInput es (Player_new c v0 g0) ->
         everyTick speedWithinMax es (Player_new c v0 g0)).
Proof.
  split.
  - intros clk dt p Hin a blended w v'.
    split; [apply limitSpeed_over |].
    split; [apply limitSpeed_under |].
    split; [reflexivity |].
    split.
    + rewrite writeHorizontal_velocity; unfold a.
      destruct (aimed_fields clk p) as (-> & _); reflexivity.
    + intros Hb; apply capped_tick; assumption.
  - intros c v0 g0 es Hn Hin.
    apply run_speedWithinMax; [exact Hn | split; reflexivity | exact Hin].
Qed.

(** ** The two blending regimes *)

Lemma blend_momentum (dt : R) (p : Player) :
  hasChangedDirection (movement p) = true ->
  Vector3.hspeed (body_velocity p) > 2 ->
  blendVelocity dt p = momentumBlend (body_velocity p) (targetVelocity (movement p)).
Proof.
  intros Hc Hs; unfold blendVelocity; cbv zeta.
  fold (Vector3.hspeed (body_velocity p)).
  rewrite Hc, (proj2 (NumFacts.gtb_true _ _) Hs); reflexivity.
Qed.

Lemma blend_accelerated (dt : R) (p : Player) :
  hasChangedDirection (movement p) && Num.gtb (Vector3.hspeed (body_velocity p)) 2 = false ->
  let accel := if onGround p then groundAcceleration else airAcceleration in
  let accel :=
    if Num.ltb (Vector3.hspeed (body_velocity p)) 2 || hasChangedDirection (movement p)
    then accel * dirChangeBoostMultiplier else accel in
  let accel := if negb (onGround p) then accel * airControl else accel in
  blendVelocity dt p
  = acceleratedBlend (Rmin (accel * dt) 1) (body_velocity p) (targetVelocity (movement p)).
Proof.
  intros Hc; unfold blendVelocity; cbv zeta.
  fold (Vector3.hspeed (body_velocity p)).
  rewrite Hc; reflexivity.
Qed.

Lemma detect_change (now : R) (p : Player) :
  Vector3.lengthSq (lastDirection (movement p)) <> 0 ->
  Vector3.dot (lastDirection (movement p)) (moveDirection (movement p))
  < directionChangeThreshold ->
  hasChangedDirection (movement (detectDirectionChange now p)) = true.
Proof.
  intros Hl Hd; unfold detectDirectionChange; cbv zeta.
  rewrite (proj2 (NumFacts.eqb_false _ _) Hl), (proj2 (NumFacts.ltb_true _ _) Hd).
  reflexivity.
Qed.

Lemma detect_first (now : R) (p : Player) :
  Vector3.lengthSq (lastDirection (movement p)) = 0 ->
  hasChangedDirection (movement (detectDirectionChange now p)) = false.
Proof.
  intros Hl; unfold detectDirectionChange; cbv zeta.
  rewrite (proj2 (NumFacts.eqb_true _ _) Hl); reflexivity.
Qed.

Lemma target_length (clk : Clock) (p : Player) :
  Vector3.length (targetVelocity (movement (aimed clk p))) <= runSpeed.
Proof.
  destruct (aimed_fields clk p) as (_ & _ & _ & _ & -> & _).
  destruct (moveDirection_shape (usedInput p) p) as [_ Hl].
  rewrite length_multiplyScalar by (destruct (isSprinting p); unfold_tuning; lra).
  destruct Hl as [-> | ->]; destruct (isSprinting p); unfold_tuning; lra.
Qed.

Lemma sqrt_scaled (a b s : R) :
  0 <= s -> sqrt (a * s * (a * s) + b * s * (b * s)) = s * sqrt (a * a + b * b).
Proof.
  intros Hs.
  replace (a * s * (a * s) + b * s * (b * s)) with (s * s * (a * a + b * b)) by ring.
  rewrite sqrt_mult by nra.
  rewrite sqrt_square by exact Hs; reflexivity.
Qed.

Lemma momentumBlend_length (c t : Vector3.t) :
  Vector3.y t = 0 ->
  Vector3.length (momentumBlend c t)
  <= momentumRetention * Vector3.hspeed c + (1 - momentumRetention) * Vector3.length t.
Proof.
  intros Hy.
  assert (Hb : Vector3.y (momentumBlend c t) = 0) by (cbn; rewrite Hy; ring).
  rewrite <- (hspeed_flat _ Hb), <- (hspeed_flat _ Hy).
  rewrite (hspeed_eq (momentumBlend c t)); cbn [momentumBlend Vector3.x Vector3.z].
  eapply Rle_trans; [apply sqrt_triangle |].
  rewrite !sqrt_scaled by (unfold_tuning; lra).
  rewrite <- !hspeed_eq; lra.
Qed.

Lemma aimed_direction_unit (clk : Clock) (p : Player) :
  Vector3.lengthSq (moveInput p) = 1 ->
  Vector3.y (moveInput p) = 0 ->
  moveDirection (movement (aimed clk p))
  = worldDirection (Euler.y (viewRotation p)) (moveInput p).
Proof.
  intros Hl Hy.
  destruct (aimed_fields clk p) as (_ & _ & _ & -> & _).
  assert (Hu : usedInput p = moveInput p).
  { unfold usedInput; rewrite Hl.
    rewrite (proj2 (NumFacts.gtb_false 1 1)) by lra; reflexivity. }
  rewrite Hu, calculateMoveDirection_direction; cbv zeta.
  apply unit_kept.
  rewrite worldDirection_lengthSq.
  unfold Vector3.lengthSq in Hl; rewrite Hy in Hl; lra.
Qed.

Lemma aimed_changed (clk : Clock) (p : Player) :
  Vector3.lengthSq (lastDirection (movement p)) <> 0 ->
  Vector3.dot (lastDirection (movement p)) (moveDirection (movement (aimed clk p)))
  < directionChangeThreshold ->
  hasChangedDirection (movement (aimed clk p)) = true.
Proof.
  intros Hl Hd.
  destruct (aimed_fields clk p) as (_ & _ & _ & Hdir & _ & ->).
  rewrite Hdir in Hd.
  apply detect_change; assumption.
Qed.

Lemma momentum_tick (clk : Clock) (dt : R) (p : Player) :
  Vector3.lengthSq (moveInput p) <> 0 ->
  hasChangedDirection (movement (aimed clk p)) = true ->
  2 < Vector3.hspeed (body_velocity p) ->
  let b := momentumBlend (body_velocity p) (targetVelocity (movement (aimed clk p))) in
  blendVelocity dt (aimed clk p) = b
  /\ Vector3.length b
     <= momentumRetention * Vector3.hspeed (body_velocity p)
        + (1 - momentumRetention) * runSpeed.
Proof.
  intros Hin Hc Hs b.
  destruct (aimed_fields clk p) as (Hv & _).
  split.
  - rewrite blend_momentum; [rewrite Hv; reflexivity | exact Hc | rewrite Hv; lra].
  - eapply Rle_trans; [apply momentumBlend_length, aimed_target_y |].
    pose proof (target_length clk p).
    unfold_tuning; lra.
Qed.

(** *** C5 *)

(** C5.  Whenever the direction-change flag is set and the horizontal
    speed exceeds 2, the velocity computed before the speed limit is
    [current * 0.9 + target * (1 - 0.9)] in each component.  In particular,
    on a tick that starts at horizontal speed 8 and whose new move direction
    has a dot product with the previous direction below the threshold, X and
    Z of the body end up as that blend (no jump boost being due), and this
    differs from what the accelerated regime would give for any factor other
    than 0.1 unless the target equals the current horizontal velocity. *)
Theorem momentum_regime_blend :
  (forall (dt : R) (p : Player),
      hasChangedDirection (movement p) = true ->
      Vector3.hspeed (body_velocity p) > 2 ->
      blendVelocity dt p = momentumBlend (body_velocity p) (targetVelocity (movement p))
      /\ momentumRetention = 9 / 10)
  /\ (forall (clk : Clock) (dt : R) (p : Player),
         Vector3.lengthSq (moveInput p) <> 0 ->
         let a := aimed clk p in
         let current := body_velocity p in
         let target := targetVelocity (movement a) in
         Vector3.lengthSq (lastDirection (movement p)) <> 0 ->
         Vector3.dot (lastDirection (movement p)) (moveDirection (movement a))
         < directionChangeThreshold ->
         Vector3.hspeed current = 8 ->
         boostDue p = false ->
         let v' := body_velocity (Movement_update clk dt p) in
         (Vector3.x v' = 9 / 10 * Vector3.x current + 1 / 10 * Vector3.x target
          /\ Vector3.z v' = 9 / 10 * Vector3.z current + 1 / 10 * Vector3.z target)
         /\ (forall k : R,
                k <> 1 / 10 ->
                Vector3.x target <> Vector3.x current
                \/ Vector3.z target <> Vector3.z current ->
                ~ (Vector3.x v' = Vector3.x (acceleratedBlend k current target)
                   /\ Vector3.z v' = Vector3.z (acceleratedBlend k current target)))).
Proof.
  split.
  - intros dt p Hc Hs; split; [apply blend_momentum; assumption | reflexivity].
  - intros clk dt p Hin a current target Hl Hd H8 Hb v'.
    assert (Hc : hasChangedDirection (movement a) = true) by (apply aimed_changed; assumption).
    destruct (momentum_tick clk dt p Hin Hc) as [Hblend Hlen]; [fold current; lra |].
    fold a in Hblend; fold current target in Hblend, Hlen.
    destruct (capped_tick clk dt p Hin Hb) as (Hx & Hz & _); fold a v' in Hx, Hz.
    assert (Hle : Vector3.length (momentumBlend current target) <= maxSpeed)
      by (unfold target, a; rewrite H8 in Hlen; unfold_tuning; lra).
    rewrite Hblend, (limitSpeed_under _ Hle) in Hx, Hz.
    assert (Hxz : Vector3.x v' = 9 / 10 * Vector3.x current + 1 / 10 * Vector3.x target
                  /\ Vector3.z v' = 9 / 10 * Vector3.z current + 1 / 10 * Vector3.z target).
    { rewrite Hx, Hz; unfold momentumBlend, momentumRetention; cbn; split; lra. }
    split; [exact Hxz |].
    intros k Hk Hne [Ex Ez]; destruct Hxz as [Hx' Hz'].
    rewrite Hx' in Ex; rewrite Hz' in Ez.
    unfold acceleratedBlend in Ex, Ez; cbn [Vector3.x Vector3.z] in Ex, Ez.
    assert (Fx : (Vector3.x target - Vector3.x current) * (k - 1 / 10) = 0) by nra.
    assert (Fz : (Vector3.z target - Vector3.z current) * (k - 1 / 10) = 0) by nra.
    apply Rmult_integral in Fx; apply Rmult_integral in Fz.
    destruct Hne as [Hne | Hne]; [destruct Fx | destruct Fz]; lra.
Qed.

Lemma momentum_regime_blend_witness :
  Vector3.x (body_velocity (Movement_update (clockAt 0) (1 / 120) reversing)) = 0
  /\ Vector3.z (body_velocity (Movement_update (clockAt 0) (1 / 120) reversing)) = - (66 / 10)
  /\ blendVelocity (1 / 120) (aimed (clockAt 0) reversing)
     = momentumBlend (body_velocity (aimed (clockAt 0) reversing))
                     (targetVelocity (movement (aimed (clockAt 0) reversing))).
Proof.
  destruct momentum_regime_blend as [Hgen H].
  assert (H8 : Vector3.hspeed (body_velocity reversing) = 8).
  { rewrite hspeed_eq; cbn.
    replace (0 * 0 + -8 * -8) with (8 * 8) by ring; apply sqrt_square; lra. }
  cut (Vector3.x (body_velocity (Movement_update (clockAt 0) (1 / 120) reversing)) = 0
       /\ Vector3.z (body_velocity (Movement_update (clockAt 0) (1 / 120) reversing))
          = - (66 / 10)).
  { intros [Hx Hz]; split; [exact Hx | split; [exact Hz |]].
    apply Hgen.
    - apply aimed_changed.
      + unfold Vector3.lengthSq; cbn; lra.
      + rewrite aimed_direction_unit;
          [| unfold Vector3.lengthSq; cbn; ring | reflexivity].
        unfold worldDirection, Vector3.dot, directionChangeThreshold; cbn.
        rewrite sin_0, cos_0; lra.
    - destruct (aimed_fields (clockAt 0) reversing) as (-> & _); rewrite H8; lra. }
  assert (Hd : moveDirection (movement (aimed (clockAt 0) reversing)) = Vector3.new 0 0 1).
  { rewrite aimed_direction_unit;
      [| unfold Vector3.lengthSq; cbn; ring | reflexivity].
    unfold worldDirection; cbn; rewrite sin_0, cos_0; f_equal; ring. }
  assert (Ht : targetVelocity (movement (aimed (clockAt 0) reversing))
               = Vector3.new (0 * walkSpeed) (0 * walkSpeed) (1 * walkSpeed)).
  { destruct (aimed_fields (clockAt 0) reversing) as (_ & _ & _ & Hdir & -> & _).
    rewrite <- Hdir, Hd; reflexivity. }
  destruct (H (clockAt 0) (1 / 120) reversing) as [[Hx Hz] _].
  - unfold Vector3.lengthSq; cbn; lra.
  - unfold Vector3.lengthSq; cbn; lra.
  - rewrite Hd; unfold Vector3.dot, directionChangeThreshold; cbn; lra.
  - exact H8.
  - reflexivity.
  - rewrite Hx, Hz, Ht; cbn; unfold walkSpeed; split; lra.
Defined.

(** ** Starting from rest *)

Lemma first_step_from_rest (clk : Clock) (p : Player) :
  Vector3.x (body_velocity p) = 0 ->
  Vector3.z (body_velocity p) = 0 ->
  onGround p = true ->
  moveInput p = Vector3.new 0 0 (-1) ->
  isSprinting p = false ->
  boostDue p = false ->
  let yaw := Euler.y (viewRotation p) in
  let v' := body_velocity (Movement_update clk (1 / 120) p) in
  Rmin (groundAcceleration * dirChangeBoostMultiplier * (1 / 120)) 1 = 1
  /\ Vector3.x v' = - sin yaw * walkSpeed
  /\ Vector3.z v' = - cos yaw * walkSpeed
  /\ Vector3.hspeed v' = walkSpeed.
Proof.
  intros Hx0 Hz0 Hg Hin Hsp Hb yaw v'.
  assert (Hk : Rmin (groundAcceleration * dirChangeBoostMultiplier * (1 / 120)) 1 = 1)
    by (apply Rmin_right; unfold_tuning; lra).
  assert (Hne : Vector3.lengthSq (moveInput p) <> 0)
    by (rewrite Hin; unfold Vector3.lengthSq; cbn; lra).
  assert (Hd : moveDirection (movement (aimed clk p))
               = Vector3.new (- sin yaw) 0 (- cos yaw)).
  { rewrite aimed_direction_unit;
      [| rewrite Hin; unfold Vector3.lengthSq; cbn; ring | rewrite Hin; reflexivity].
    rewrite Hin; unfold worldDirection; fold yaw; cbn; f_equal; ring. }
  destruct (aimed_fields clk p) as (Hv & Hog & _ & Hdir & Ht & _).
  rewrite <- Hdir, Hd, Hsp in Ht.
  assert (Hrest : Vector3.hspeed (body_velocity (aimed clk p)) = 0).
  { rewrite Hv, hspeed_eq, Hx0, Hz0.
    replace (0 * 0 + 0 * 0) with 0 by ring; apply sqrt_0. }
  assert (Hblend : blendVelocity (1 / 120) (aimed clk p)
                   = Vector3.new (- sin yaw * walkSpeed) (0 * walkSpeed)
                                 (- cos yaw * walkSpeed)).
  { rewrite blend_accelerated.
    - rewrite Hrest, Hog, Hg.
      rewrite (proj2 (NumFacts.ltb_true 0 2)) by lra.
      cbn [orb negb]; rewrite Hk, Ht, Hv.
      unfold acceleratedBlend, Vector3.multiplyScalar; cbn [Vector3.x Vector3.y Vector3.z].
      rewrite Hx0, Hz0; f_equal; ring.
    - rewrite Hrest, (proj2 (NumFacts.gtb_false 0 2)) by lra.
      apply andb_false_r. }
  assert (Hlen : Vector3.length (blendVelocity (1 / 120) (aimed clk p)) = walkSpeed).
  { rewrite Hblend; unfold Vector3.length, Vector3.lengthSq; cbn.
    replace (- sin yaw * walkSpeed * (- sin yaw * walkSpeed)
             + 0 * walkSpeed * (0 * walkSpeed)
             + - cos yaw * walkSpeed * (- cos yaw * walkSpeed))
      with (walkSpeed * walkSpeed * (sin yaw * sin yaw + cos yaw * cos yaw)) by ring.
    rewrite sin_cos_sqr, Rmult_1_r; apply sqrt_square; unfold walkSpeed; lra. }
  destruct (capped_tick clk (1 / 120) p Hne Hb) as (Hx & Hz & Hh & _); fold v' in Hx, Hz, Hh.
  rewrite limitSpeed_under in Hx, Hz, Hh by (rewrite Hlen; unfold_tuning; lra).
  rewrite Hlen in Hh; rewrite Hblend in Hx, Hz.
  repeat split; assumption.
Qed.

(** *** C2 *)

(** C2, as the code has it.  With [walkSpeed] 6, [groundAcceleration] 150
    and [dirChangeBoostMultiplier] 4, a tick of 1/120 from rest on the
    ground with forward input scales the velocity delta by
    [min(150 * 4 / 120, 1) = 1]: the body reaches the whole target in that
    one tick, its horizontal speed being exactly 6 along the view's forward
    direction. *)
Theorem first_tick_reaches_walk_speed (clk : Clock) (p : Player) :
  Vector3.x (body_velocity p) = 0 ->
  Vector3.z (body_velocity p) = 0 ->
  onGround p = true ->
  moveInput p = Vector3.new 0 0 (-1) ->
  isSprinting p = false ->
  boostDue p = false ->
  let yaw := Euler.y (viewRotation p) in
  let v' := body_velocity (Movement_update clk (1 / 120) p) in
  walkSpeed = 6 /\ groundAcceleration = 150 /\ dirChangeBoostMultiplier = 4
  /\ Rmin (groundAcceleration * dirChangeBoostMultiplier * (1 / 120)) 1 = 1
  /\ Vector3.x v' = - sin yaw * 6
  /\ Vector3.z v' = - cos yaw * 6
  /\ Vector3.hspeed v' = 6.
Proof.
  intros Hx0 Hz0 Hg Hin Hsp Hb yaw v'.
  destruct (first_step_from_rest clk p Hx0 Hz0 Hg Hin Hsp Hb) as (Hk & Hx & Hz & Hh).
  repeat split; assumption.
Qed.

Lemma first_tick_reaches_walk_speed_witness :
  Vector3.hspeed (body_velocity (Movement_update (clockAt 0) (1 / 120) startingForward)) = 6
  /\ Vector3.z (body_velocity (Movement_update (clockAt 0) (1 / 120) startingForward)) = - 6.
Proof.
  destruct (first_tick_reaches_walk_speed (clockAt 0) startingForward)
    as (_ & _ & _ & _ & _ & Hz & Hh); try reflexivity.
  split; [exact Hh |].
  rewrite Hz; cbn; rewrite cos_0; lra.
Defined.

(** C2 fails as stated: from rest on the ground with forward input, one
    tick of 1/120 leaves the horizontal speed at exactly 6, not near 5; the
    factor applied to the velocity delta is [min(5, 1) = 1]. *)
Lemma first_tick_speed_is_six_not_five :
  let v' := body_velocity (Movement_update (clockAt 0) (1 / 120) startingForward) in
  Vector3.hspeed (body_velocity startingForward) = 0
  /\ groundAcceleration * dirChangeBoostMultiplier * (1 / 120) = 5
  /\ Vector3.hspeed v' = 6
  /\ ~ (Rabs (Vector3.hspeed v' - 5) < 1).
Proof.
  cbv zeta.
  destruct (first_step_from_rest (clockAt 0) startingForward)
    as (_ & _ & _ & Hh); try reflexivity.
  rewrite Hh; unfold walkSpeed.
  repeat split.
  - rewrite hspeed_eq; cbn.
    replace (0 * 0 + 0 * 0) with 0 by ring; apply sqrt_0.
  - unfold_tuning; field.
  - replace (6 - 5) with 1 by ring; rewrite Rabs_R1; lra.
Qed.

(** ** The jump boost and the speed limit *)


Lemma idle_tick_speed (clk : Clock) (dt : R) (p : Player) :
  0 <= dt ->
  Vector3.lengthSq (moveInput p) = 0 ->
  Vector3.hspeed (body_velocity (Movement_update clk dt p))
  <= Vector3.hspeed (body_velocity p).
Proof.
  intros Hdt Hin.
  rewrite Movement_update_idle by exact Hin.
  rewrite applyFriction_velocity; cbv zeta.
  set (v := body_velocity p).
  pose proof (idleDamping_range (onGround p) (Vector3.hspeed v) dt Hdt) as Hd.
  pose proof (hspeed_nonneg v) as Hv.
  destruct (Num.ltb (Vector3.hspeed v) (1 / 100)).
  - rewrite hspeed_eq; cbn.
    replace (0 * 0 + 0 * 0) with 0 by ring; rewrite sqrt_0; exact Hv.
  - rewrite (hspeed_scaled (Vector3.x v) (Vector3.z v)
               (idleDamping (onGround p) (Vector3.hspeed v) dt));
      [| lra | reflexivity | reflexivity].
    rewrite <- hspeed_eq; nra.
Qed.

Lemma jump_keeps_horizontal (clk : Clock) (p : Player) :
  let q := jumpPhase clk (trackGround clk p) in
  Vector3.x (body_velocity q) = Vector3.x (body_velocity p)
  /\ Vector3.z (body_velocity q) = Vector3.z (body_velocity p)
  /\ moveInput q = moveInput p.
Proof.
  cbv zeta.
  destruct (trackGround_other clk p) as (_ & _ & _ & _ & _ & Hb & _ & Hmi).
  destruct (jumpPhase_frame clk (trackGround clk p)) as (_ & _ & _ & _ & _ & ->).
  rewrite Hmi.
  assert (H : forall now t,
             Vector3.x (body_velocity (snd (processJump now t))) = Vector3.x (body_velocity t)
             /\ Vector3.z (body_velocity (snd (processJump now t)))
                = Vector3.z (body_velocity t)).
  { intros now t; unfold processJump, applyJumpBoost; repeat break_if; split; reflexivity. }
  specialize (H (now_jump clk) (trackGround clk p)).
  unfold body_velocity at 2 4 in H; rewrite Hb in H; fold (body_velocity p) in H.
  unfold jumpPhase.
  destruct (jumpRequested _); [| unfold body_velocity; rewrite Hb; repeat split].
  destruct (Num.ltb _ _); [| unfold body_velocity; cbn; rewrite Hb; repeat split].
  destruct (processJump _ _) as [[|] q]; cbn [snd] in H; destruct H; repeat split; assumption.
Qed.



(** A body pushed to speed 20 along the forward direction, turning from a
    strafe to forward input: the momentum blend has length 18.6 and the
    speed limit scales it back to 12. *)
Lemma pushed_forward_blend (clk : Clock) (dt : R) (p : Player) (vy : R) :
  moveInput p = Vector3.new 0 0 (-1) ->
  Euler.y (viewRotation p) = 0 ->
  lastDirection (movement p) = Vector3.new 1 0 0 ->
  body_velocity p = Vector3.new 0 vy (-20) ->
  isSprinting p = false ->
  let a := aimed clk p in
  let w := limitSpeed (blendVelocity dt a) in
  Vector3.lengthSq (moveInput p) <> 0
  /\ moveDirection (movement a) = Vector3.new 0 0 (-1)
  /\ Vector3.length (blendVelocity dt a) = 186 / 10
  /\ Vector3.x w = 0 /\ Vector3.z w = - 12.
Proof.
  intros Hin Hyaw Hlast Hv Hsp a w.
  assert (Hne : Vector3.lengthSq (moveInput p) <> 0)
    by (rewrite Hin; unfold Vector3.lengthSq; cbn; lra).
  assert (Hd : moveDirection (movement a) = Vector3.new 0 0 (-1)).
  { unfold a; rewrite aimed_direction_unit;
      [| rewrite Hin; unfold Vector3.lengthSq; cbn; ring | rewrite Hin; reflexivity].
    rewrite Hin, Hyaw; unfold worldDirection; cbn; rewrite sin_0, cos_0; f_equal; ring. }
  assert (Hc : hasChangedDirection (movement a) = true).
  { apply aimed_changed.
    - rewrite Hlast; unfold Vector3.lengthSq; cbn; lra.
    - fold a; rewrite Hd, Hlast; unfold Vector3.dot, directionChangeThreshold; cbn; lra. }
  assert (Hs : Vector3.hspeed (body_velocity p) = 20).
  { rewrite Hv, hspeed_eq; cbn.
    replace (0 * 0 + -20 * -20) with (20 * 20) by ring; apply sqrt_square; lra. }
  destruct (momentum_tick clk dt p Hne Hc) as [Hb _]; [rewrite Hs; lra |].
  fold a in Hb.
  assert (Ht : targetVelocity (movement a)
               = Vector3.new (0 * walkSpeed) (0 * walkSpeed) (-1 * walkSpeed)).
  { unfold a; destruct (aimed_fields clk p) as (_ & _ & _ & Hdir & -> & _).
    rewrite <- Hdir; fold a; rewrite Hd, Hsp; reflexivity. }
  rewrite Ht, Hv in Hb.
  assert (Hblend : blendVelocity dt a = Vector3.new 0 0 (- (186 / 10))).
  { rewrite Hb; unfold momentumBlend; unfold_tuning; cbn; f_equal; field. }
  assert (Hlen : Vector3.length (blendVelocity dt a) = 186 / 10).
  { rewrite Hblend; unfold Vector3.length, Vector3.lengthSq; cbn.
    replace (0 * 0 + 0 * 0 + - (186 / 10) * - (186 / 10))
      with (186 / 10 * (186 / 10)) by ring.
    apply sqrt_square; lra. }
  destruct (limitSpeed_over (blendVelocity dt a)) as (Hw & _ & _);
    [rewrite Hlen; unfold maxSpeed; lra |].
  fold w in Hw.
  repeat split; try assumption.
  - rewrite Hw, Hlen, Hblend; cbn; ring.
  - rewrite Hw, Hlen, Hblend; cbn; unfold maxSpeed; field.
Qed.


(** *** C10 *)




Lemma speed_limit_before_write_witness :
  Vector3.length
    (limitSpeed (blendVelocity (1 / 120) (aimed (clockAt 1010) boostedRunner))) = maxSpeed
  /\ speedWithinMax (clockAt 1000) (1 / 120) (keyDown KeyW 900 spawned).
Proof.
  destruct speed_limit_before_write as [Htick Hrun].
  split.
  - destruct (Htick (clockAt 1010) (1 / 120) boostedRunner) as [Hover _].
    + unfold Vector3.lengthSq; cbn; lra.
    + apply Hover.
      destruct (pushed_forward_blend (clockAt 1010) (1 / 120) boostedRunner 0)
        as (_ & _ & Hlen & _); try reflexivity.
      rewrite Hlen; unfold maxSpeed; lra.
  - destruct (Hrun main_config Vector3.zero false
                [EKeyDown KeyW 900; ETick (clockAt 1000) (1 / 120)]) as (_ & Ht & _).
    + reflexivity.
    + cbn; repeat split.
      unfold hasMoveInput, Vector3.lengthSq; cbn; lra.
    + exact Ht.
Defined.

(** * Further properties of the player and its movement *)

(** ** What a tick leaves to the input handlers *)

Lemma sameInputState_refl (p : Player) : sameInputState p p.
Proof. constructor; reflexivity. Qed.

Lemma sameInputState_trans (p q r : Player) :
  sameInputState p q -> sameInputState q r -> sameInputState p r.
Proof. intros [] []; constructor; congruence. Qed.

Lemma trackGround_sameInput (clk : Clock) (p : Player) :
  sameInputState p (trackGround clk p).
Proof.
  unfold trackGround; destruct p as [? ? ? ? ? ? ? ? g ? ? ? ? [bp bv bg] ? ?].
  destruct bg, g; constructor; reflexivity.
Qed.

Lemma jumpPhase_sameInput (clk : Clock) (p : Player) :
  sameInputState p (jumpPhase clk p).
Proof.
  unfold jumpPhase, processJump, applyJumpBoost.
  repeat break_if; constructor; reflexivity.
Qed.

Lemma Movement_update_sameInput (clk : Clock) (dt : R) (p : Player) :
  sameInputState p (Movement_update clk dt p).
Proof.
  unfold Movement_update, applyFriction, applyAccelerationWithMomentum, forwardBoost,
    detectDirectionChange.
  repeat break_if; constructor; reflexivity.
Qed.

Lemma Player_update_sameInput (clk : Clock) (dt : R) (p : Player) :
  sameInputState p (Player_update clk dt p).
Proof.
  unfold Player_update.
  eapply sameInputState_trans; [apply trackGround_sameInput |].
  eapply sameInputState_trans; [apply jumpPhase_sameInput |].
  apply Movement_update_sameInput.
Qed.

(** ** The view rotation *)

Lemma rotate_pitch (dx dy : R) (p : Player) : pitchInRange (rotate dx dy p).
Proof.
  unfold pitchInRange, rotate; cbn.
  pose proof PI2_1 as Hpi.
  set (a := Euler.x (viewRotation p) - dy * mouseSensitivity p).
  split.
  - apply Rmax_l.
  - apply Rmax_lub; [lra | apply Rmin_l].
Qed.

Lemma step_pitch (e : Event) (p : Player) : pitchInRange p -> pitchInRange (step e p).
Proof.
  intros Hp.
  destruct e as [k now | k | dx dy | pos r | f | clk dt]; cbn [step].
  - destruct k; exact Hp.
  - destruct k; exact Hp.
  - apply rotate_pitch.
  - destruct r; exact Hp.
  - exact Hp.
  - unfold pitchInRange; rewrite (si_viewRotation _ _ (Player_update_sameInput clk dt p)).
    exact Hp.
Qed.


(** ** The move input *)

Lemma step_keyboardInput (e : Event) (p : Player) :
  keyboardInput p -> keyboardInput (step e p).
Proof.
  intros (Hx & Hy & Hz).
  unfold keyboardInput, axisValue in *.
  destruct e as [k now | k | dx dy | pos r | f | clk dt]; cbn [step].
  - destruct k; cbn; repeat split; auto.
  - destruct k; cbn; repeat split; auto.
  - repeat split; assumption.
  - destruct r; repeat split; assumption.
  - repeat split; assumption.
  - rewrite (si_moveInput _ _ (Player_update_sameInput clk dt p)).
    repeat split; assumption.
Qed.


(** X3.  Releasing one key of an axis clears the axis even while the
    opposite key is still held: after W down, S down and S up the forward
    axis is 0 although W was never released (and likewise for the other
    orders and for A and D).  With no strafe input the next tick then takes
    the idle path: it only damps the horizontal velocity, W being held
    notwithstanding. *)
Theorem release_clears_axis_of_held_key
    (p : Player) (t1 t2 : R) (clk : Clock) (dt : R) :
  Vector3.x (moveInput p) = 0 ->
  Vector3.y (moveInput p) = 0 ->
  0 <= dt ->
  let q := keyUp KeyS (keyDown KeyS t2 (keyDown KeyW t1 p)) in
  Vector3.z (moveInput q) = 0
  /\ Vector3.lengthSq (moveInput q) = 0
  /\ Vector3.hspeed (body_velocity (Player_update clk dt q))
     <= Vector3.hspeed (body_velocity p)
  /\ Vector3.z (moveInput (keyUp KeyW (keyDown KeyW t2 (keyDown KeyS t1 p)))) = 0
  /\ Vector3.x (moveInput (keyUp KeyD (keyDown KeyD t2 (keyDown KeyA t1 p)))) = 0
  /\ Vector3.x (moveInput (keyUp KeyA (keyDown KeyA t2 (keyDown KeyD t1 p)))) = 0.
Proof.
  intros Hx Hy Hdt q.
  assert (Hl : Vector3.lengthSq (moveInput q) = 0).
  { unfold Vector3.lengthSq; cbn; rewrite Hx, Hy; ring. }
  repeat split; try exact Hl.
  unfold Player_update.
  destruct (jump_keeps_horizontal clk q) as (Jx & Jz & Jm); cbv zeta in *.
  eapply Rle_trans; [apply idle_tick_speed; [exact Hdt | rewrite Jm; exact Hl] |].
  rewrite (hspeed_xz _ _ Jx Jz); apply Rle_refl.
Qed.

Lemma release_clears_axis_of_held_key_witness :
  Vector3.hspeed
    (body_velocity
       (Player_update (clockAt 0) (1 / 120)
          (keyUp KeyS (keyDown KeyS 2 (keyDown KeyW 1 sliding)))))
  <= Vector3.hspeed (body_velocity sliding).
Proof.
  apply (release_clears_axis_of_held_key sliding 1 2 (clockAt 0) (1 / 120));
    [reflexivity | reflexivity | lra].
Defined.

(** ** Jump processing *)

Lemma processJump_outcome (now : R) (p : Player) :
  let ok := fst (processJump now p) in
  let q := snd (processJump now p) in
  (ok = true <->
     jumpCooldown <= now - lastJumpTime p
     /\ ((canFirstJump now p = true /\ jumpCount p = 0%Z)
         \/ (canFirstJump now p = false /\ (jumpCount p < maxJumps p)%Z)))
  /\ (ok = true ->
      jumpCount q = (jumpCount p + 1)%Z
      /\ lastJumpTime q = now
      /\ Vector3.y (body_velocity q)
         = (if canFirstJump now p then jumpForce else jumpForce * (9 / 10))
      /\ Vector3.x (body_velocity q) = Vector3.x (body_velocity p)
      /\ Vector3.z (body_velocity q) = Vector3.z (body_velocity p))
  /\ (ok = false -> q = p).
Proof.
  cbv zeta.
  destruct (Rlt_dec (now - lastJumpTime p) jumpCooldown) as [Hc | Hc].
  { rewrite processJump_cooldown by exact Hc; cbn [fst snd].
    repeat split; try discriminate; intros; try reflexivity.
    destruct H as [H _]; lra. }
  apply Rnot_lt_le in Hc.
  destruct (canFirstJump now p) eqn:Hg.
  - destruct (Z.eq_dec (jumpCount p) 0) as [H0 | H0].
    + rewrite processJump_first by assumption; cbn [fst snd].
      match goal with |- context [applyJumpBoost ?a] =>
        set (j := a); pose proof (applyJumpBoost_same j) as Hs end.
      assert (Hxz : Vector3.x (body_velocity (applyJumpBoost j)) = Vector3.x (body_velocity p)
                    /\ Vector3.z (body_velocity (applyJumpBoost j))
                       = Vector3.z (body_velocity p)).
      { unfold applyJumpBoost; destruct (_ && _); split; reflexivity. }
      repeat split; try discriminate; try tauto.
      * rewrite (sj_jumpCount _ _ Hs), H0; reflexivity.
      * rewrite (sj_lastJumpTime _ _ Hs); reflexivity.
      * rewrite (sj_body_y _ _ Hs); reflexivity.
    + rewrite processJump_blocked by (left; split; assumption); cbn [fst snd].
      repeat split; try discriminate; try reflexivity.
      intros [_ [[_ H] | [H _]]]; [contradiction | discriminate].
  - destruct (Z_lt_dec (jumpCount p) (maxJumps p)) as [Hn | Hn].
    + rewrite processJump_air by assumption; cbn [fst snd].
      repeat split; try discriminate; try tauto.
    + rewrite processJump_blocked by (right; split; [assumption | lia]); cbn [fst snd].
      repeat split; try discriminate; try reflexivity.
      intros [_ [[H _] | [_ H]]]; [discriminate | contradiction].
Qed.

(** X4.  [processJump] grants a jump exactly when the cooldown has
    elapsed and either the character may ground-jump (on the ground or in
    coyote time) with the jump count at 0, or it may not and the count is
    below [maxJumps].  A granted jump raises the count by exactly one, sets
    [lastJumpTime] to the time read, sets the vertical velocity to
    [jumpForce] for a ground jump and to 0.9 of it for an air jump, and
    leaves the horizontal velocity alone; a refused one changes nothing. *)
Theorem processJump_granted_iff (now : R) (p : Player) :
  let ok := fst (processJump now p) in
  let q := snd (processJump now p) in
  (ok = true <->
     jumpCooldown <= now - lastJumpTime p
     /\ ((canFirstJump now p = true /\ jumpCount p = 0%Z)
         \/ (canFirstJump now p = false /\ (jumpCount p < maxJumps p)%Z)))
  /\ (ok = true ->
      jumpCount q = (jumpCount p + 1)%Z
      /\ lastJumpTime q = now
      /\ Vector3.y (body_velocity q)
         = (if canFirstJump now p then jumpForce else jumpForce * (9 / 10))
      /\ Vector3.x (body_velocity q) = Vector3.x (body_velocity p)
      /\ Vector3.z (body_velocity q) = Vector3.z (body_velocity p))
  /\ (ok = false -> q = p).
Proof. exact (processJump_outcome now p). Qed.

Lemma processJump_granted_iff_witness :
  fst (processJump 1010 pressedInAir) = true
  /\ jumpCount (snd (processJump 1010 pressedInAir)) = 1%Z.
Proof.
  destruct (processJump_granted_iff 1010 pressedInAir) as (Hiff & Hgrant & _).
  assert (Hok : fst (processJump 1010 pressedInAir) = true).
  { apply Hiff; split; [cbn; unfold jumpCooldown; lra |].
    right; split; [jump_eval; reflexivity | cbn; lia]. }
  split; [exact Hok | exact (proj1 (Hgrant Hok))].
Defined.

(** X5.  While the character may still ground-jump (on the ground or
    within coyote time) and the jump count is not 0, a tick grants no jump
    at all, however many air jumps remain: the count and the vertical
    velocity are left as they are and a request inside its buffer window
    stays pending.  After a ground jump the second jump is therefore locked
    until coyote time has run out. *)
Theorem no_second_jump_while_ground_eligible (clk : Clock) (dt : R) (p : Player) :
  let t := trackGround clk p in
  canFirstJump (now_jump clk) t = true ->
  jumpCount t <> 0%Z ->
  jumpCount (Player_update clk dt p) = jumpCount t
  /\ lastJumpTime (Player_update clk dt p) = lastJumpTime p
  /\ Vector3.y (body_velocity (Player_update clk dt p)) = Vector3.y (body_velocity p)
  /\ (jumpRequested p = true ->
      now_update clk - jumpBufferTime p < jumpBufferWindow ->
      jumpRequested (Player_update clk dt p) = true).
Proof.
  intros t Hg Hn.
  pose proof (Movement_update_same clk dt (jumpPhase clk t)) as Hs.
  destruct (trackGround_other clk p) as (_ & Hlast & Hreq & Hbuf & _ & Hbody & _).
  fold t in Hlast, Hreq, Hbuf, Hbody.
  assert (Hp : processJump (now_jump clk) t = (false, t))
    by (apply processJump_blocked; left; split; assumption).
  assert (Hj : jumpPhase clk t = t \/ jumpPhase clk t = set_jumpRequested t false).
  { unfold jumpPhase; rewrite Hp.
    destruct (jumpRequested t); [| left; reflexivity].
    destruct (Num.ltb _ _); [left | right]; reflexivity. }
  unfold Player_update; fold t.
  rewrite (sj_jumpCount _ _ Hs), (sj_lastJumpTime _ _ Hs), (sj_body_y _ _ Hs),
    (sj_jumpRequested _ _ Hs).
  repeat split.
  - destruct Hj as [-> | ->]; reflexivity.
  - destruct Hj as [-> | ->]; cbn [lastJumpTime set_jumpRequested]; exact Hlast.
  - destruct Hj as [-> | ->]; unfold body_velocity;
      cbn [physicsBody set_jumpRequested]; rewrite Hbody; reflexivity.
  - intros Hr Hw.
    rewrite jumpPhase_pending; [rewrite Hreq; exact Hr | rewrite Hreq; exact Hr | | exact Hp].
    rewrite Hbuf; exact Hw.
Qed.

Lemma no_second_jump_while_ground_eligible_witness :
  jumpCount (Player_update (clockAt 1100) 0 (set_jumpCount coyoteJumper 1)) = 1%Z
  /\ jumpRequested (Player_update (clockAt 1100) 0 (set_jumpCount coyoteJumper 1)) = true.
Proof.
  destruct (no_second_jump_while_ground_eligible (clockAt 1100) 0
              (set_jumpCount coyoteJumper 1)) as (Hc & _ & _ & Hr).
  - jump_eval; reflexivity.
  - jump_eval; discriminate.
  - split.
    + rewrite Hc; jump_eval; reflexivity.
    + apply Hr; [reflexivity | cbn; unfold jumpBufferWindow; lra].
Defined.

(** ** The mirror of the body *)

(** X6.  [Player.update] copies the body's position and velocity into the
    player at the start of the tick and never writes the body's position or
    ground flag.  The player's [velocity] is therefore the body's velocity
    from before the tick: after a granted jump it still shows the old
    vertical velocity while the body already has the new one. *)
Theorem update_mirrors_body_at_tick_start (clk : Clock) (dt : R) (p : Player) :
  let s := Player_update clk dt p in
  position s = pb_position (physicsBody p)
  /\ velocity s = pb_velocity (physicsBody p)
  /\ pb_position (physicsBody s) = pb_position (physicsBody p)
  /\ pb_onGround (physicsBody s) = pb_onGround (physicsBody p)
  /\ (fst (processJump (now_jump clk) (trackGround clk p)) = true ->
      jumpRequested p = true ->
      now_update clk - jumpBufferTime p < jumpBufferWindow ->
      Vector3.y (velocity s) = Vector3.y (body_velocity p)
      /\ (Vector3.y (body_velocity s) = jumpForce
          \/ Vector3.y (body_velocity s) = jumpForce * (9 / 10))).
Proof.
  cbv zeta.
  pose proof (Movement_update_same clk dt (jumpPhase clk (trackGround clk p))) as Hs.
  assert (Hmirror : forall q, position (Movement_update clk dt q) = position q
                              /\ velocity (Movement_update clk dt q) = velocity q).
  { intros q; unfold Movement_update, applyFriction, applyAccelerationWithMomentum,
      forwardBoost, detectDirectionChange.
    repeat break_if; split; reflexivity. }
  assert (Hjump : forall q, position (jumpPhase clk q) = position q
                            /\ velocity (jumpPhase clk q) = velocity q
                            /\ pb_position (physicsBody (jumpPhase clk q))
                               = pb_position (physicsBody q)).
  { intros q; unfold jumpPhase, processJump, applyJumpBoost.
    repeat break_if; repeat split; reflexivity. }
  assert (Htrack : position (trackGround clk p) = pb_position (physicsBody p)
                   /\ velocity (trackGround clk p) = pb_velocity (physicsBody p)).
  { unfold trackGround; destruct p as [? ? ? ? ? ? ? ? g ? ? ? ? [bp bv bg] ? ?].
    destruct bg, g; split; reflexivity. }
  destruct (trackGround_other clk p) as (_ & _ & Hreq & Hbuf & _ & Hbody & _).
  destruct (Hmirror (jumpPhase clk (trackGround clk p))) as [Mp Mv].
  destruct (Hjump (trackGround clk p)) as (Jp & Jv & Jb).
  destruct Htrack as [Tp Tv].
  destruct (Player_update_ground clk dt p) as (_ & Hg & _).
  unfold Player_update in *.
  repeat split.
  - rewrite Mp, Jp; exact Tp.
  - rewrite Mv, Jv; exact Tv.
  - rewrite (sj_body_position _ _ Hs), Jb, Hbody; reflexivity.
  - exact Hg.
  - rewrite Mv, Jv, Tv; reflexivity.
  - rewrite (sj_body_y _ _ Hs).
    destruct (processJump_outcome (now_jump clk) (trackGround clk p))
      as (_ & Hgrant & _).
    destruct (Hgrant H) as (_ & _ & Hy & _).
    destruct (processJump (now_jump clk) (trackGround clk p)) as [ok q] eqn:Hp.
    cbn [fst snd] in *; subst ok.
    rewrite (jumpPhase_consumed clk (trackGround clk p)) with (q := q);
      [| rewrite Hreq; assumption | rewrite Hbuf; assumption | exact Hp].
    change (body_velocity (set_jumpRequested q false)) with (body_velocity q).
    rewrite Hy; destruct (canFirstJump _ _); [left | right]; reflexivity.
Qed.

Lemma update_mirrors_body_at_tick_start_witness :
  Vector3.y (velocity (Player_update (clockAt 1010) 0 pressedInAir)) = 0
  /\ Vector3.y (body_velocity (Player_update (clockAt 1010) 0 pressedInAir))
     = jumpForce * (9 / 10).
Proof.
  destruct (update_mirrors_body_at_tick_start (clockAt 1010) 0 pressedInAir)
    as (_ & Hv & _ & _ & Hj).
  split; [rewrite Hv; reflexivity |].
  destruct Hj as [_ [Hy | Hy]].
  - jump_eval; reflexivity.
  - reflexivity.
  - cbn; unfold jumpBufferWindow; lra.
  - exfalso.
    destruct (air_jump_tick (clockAt 1010) 0 pressedInAir) as (_ & Hy' & _);
      try (jump_eval; try reflexivity; unfold_tuning; lra).
    all: try (rewrite Hy in Hy'; unfold jumpForce in Hy'; lra).
  - exact Hy.
Defined.

(** ** The move direction and the target *)

Lemma steering_lengthSq (p : Player) :
  steering p -> Vector3.lengthSq (moveInput p) <> 0.
Proof.
  unfold steering, Vector3.lengthSq; intros [H | H] E;
    apply H; nra.
Qed.

Lemma usedInput_steering (p : Player) :
  steering p ->
  Vector3.x (usedInput p) * Vector3.x (usedInput p)
  + Vector3.z (usedInput p) * Vector3.z (usedInput p) > 0.
Proof.
  intros Hs.
  assert (Hxz : Vector3.x (moveInput p) * Vector3.x (moveInput p)
                + Vector3.z (moveInput p) * Vector3.z (moveInput p) > 0)
    by (destruct Hs as [H | H]; nra).
  unfold usedInput; destruct (Num.gtb _ _) eqn:Hg; [| exact Hxz].
  num_hyps.
  assert (Hl : Vector3.length (moveInput p) <> 0)
    by (rewrite length_zero_iff; lra).
  pose proof (length_nonneg (moveInput p)) as Hn.
  unfold Vector3.normalize, Vector3.divideScalar.
  rewrite (proj2 (NumFacts.eqb_false _ _) Hl); cbn.
  set (k := 1 / Vector3.length (moveInput p)).
  assert (Hk : 0 < k) by (apply Rdiv_lt_0_compat; lra).
  assert (Hk2 : 0 < k * k) by nra.
  replace (Vector3.x (moveInput p) * k * (Vector3.x (moveInput p) * k)
           + Vector3.z (moveInput p) * k * (Vector3.z (moveInput p) * k))
    with (k * k * (Vector3.x (moveInput p) * Vector3.x (moveInput p)
                   + Vector3.z (moveInput p) * Vector3.z (moveInput p))) by ring.
  nra.
Qed.

Lemma aimed_direction (clk : Clock) (p : Player) :
  let w := worldDirection (Euler.y (viewRotation p)) (usedInput p) in
  moveDirection (movement (aimed clk p))
  = if Num.gtb (Vector3.lengthSq w) 0 then Vector3.normalize w else w.
Proof.
  destruct (aimed_fields clk p) as (_ & _ & _ & -> & _).
  apply calculateMoveDirection_direction.
Qed.

Lemma steering_direction (clk : Clock) (p : Player) :
  steering p ->
  Vector3.lengthSq (moveDirection (movement (aimed clk p))) = 1
  /\ Vector3.length (moveDirection (movement (aimed clk p))) = 1.
Proof.
  intros Hs.
  rewrite aimed_direction; cbv zeta.
  pose proof (usedInput_steering p Hs) as Hu.
  rewrite <- (worldDirection_lengthSq (Euler.y (viewRotation p))) in Hu.
  rewrite (proj2 (NumFacts.gtb_true _ _) Hu).
  assert (Hl : Vector3.length
                 (Vector3.normalize (worldDirection (Euler.y (viewRotation p)) (usedInput p)))
               = 1) by (apply length_normalize; lra).
  split; [| exact Hl].
  rewrite <- length_sqr, Hl; ring.
Qed.

Lemma Movement_update_movement (clk : Clock) (dt : R) (p : Player) :
  Vector3.lengthSq (moveInput p) <> 0 ->
  let a := aimed clk p in
  let m := movement (Movement_update clk dt p) in
  moveDirection m = moveDirection (movement a)
  /\ targetVelocity m = targetVelocity (movement a)
  /\ lastDirection m = moveDirection (movement a)
  /\ lastMoveInput m = usedInput p
  /\ hasChangedDirection m = hasChangedDirection (movement a)
  /\ directionChangeTime m = directionChangeTime (movement a).
Proof.
  intros H; cbv zeta; unfold Movement_update.
  rewrite (proj2 (NumFacts.eqb_false _ _) H).
  fold (usedInput p); fold (aimed clk p).
  unfold applyAccelerationWithMomentum, forwardBoost.
  destruct (_ && _); repeat split.
Qed.

(** X7.  On a tick with move input the move direction is horizontal and
    depends on the yaw and the input only, not on the pitch.  It has length
    exactly 1 as soon as the input has a horizontal component, also for a
    diagonal input, and is the zero vector otherwise; for forward input it
    is [(- sin yaw, 0, - cos yaw)] and for right input
    [(cos yaw, 0, - sin yaw)]. *)
Theorem move_direction_is_unit_and_yaw_only (clk : Clock) (dt : R) (p : Player) :
  Vector3.lengthSq (moveInput p) <> 0 ->
  let d := moveDirection (movement (Movement_update clk dt p)) in
  let yaw := Euler.y (viewRotation p) in
  Vector3.y d = 0
  /\ (steering p -> Vector3.length d = 1)
  /\ (~ steering p -> d = Vector3.zero)
  /\ (forall pitch : R,
         moveDirection
           (movement
              (Movement_update clk dt
                 (set_viewRotation p (Euler.set_x (viewRotation p) pitch))))
         = d)
  /\ (moveInput p = Vector3.new 0 0 (-1) -> d = Vector3.new (- sin yaw) 0 (- cos yaw))
  /\ (moveInput p = Vector3.new 1 0 0 -> d = Vector3.new (cos yaw) 0 (- sin yaw)).
Proof.
  intros Hin d yaw.
  destruct (Movement_update_movement clk dt p Hin) as (Hd & _); cbv zeta in Hd.
  unfold d; rewrite Hd.
  split; [| split; [| split; [| split; [| split]]]].
  - destruct (aimed_fields clk p) as (_ & _ & _ & -> & _).
    apply moveDirection_shape.
  - intros Hs; apply steering_direction; exact Hs.
  - intros Hs; rewrite aimed_direction; cbv zeta.
    assert (Hx : Vector3.x (moveInput p) = 0)
      by (destruct (Req_dec_T (Vector3.x (moveInput p)) 0); [assumption |];
          exfalso; apply Hs; left; assumption).
    assert (Hz : Vector3.z (moveInput p) = 0)
      by (destruct (Req_dec_T (Vector3.z (moveInput p)) 0); [assumption |];
          exfalso; apply Hs; right; assumption).
    assert (Hu : Vector3.x (usedInput p) = 0 /\ Vector3.z (usedInput p) = 0).
    { unfold usedInput; destruct (Num.gtb _ _); [| split; assumption].
      unfold Vector3.normalize, Vector3.divideScalar; cbn; rewrite Hx, Hz; split; ring. }
    destruct Hu as [Ux Uz].
    assert (Hw : worldDirection (Euler.y (viewRotation p)) (usedInput p) = Vector3.zero).
    { unfold worldDirection, Vector3.zero; rewrite Ux, Uz; f_equal; ring. }
    rewrite Hw.
    rewrite (proj2 (NumFacts.gtb_false (Vector3.lengthSq Vector3.zero) 0))
      by (unfold Vector3.lengthSq; cbn; lra).
    reflexivity.
  - intros pitch.
    destruct (Movement_update_movement clk dt
                (set_viewRotation p (Euler.set_x (viewRotation p) pitch)) Hin)
      as (-> & _).
    rewrite !aimed_direction; reflexivity.
  - intros Hf.
    rewrite aimed_direction_unit;
      [| rewrite Hf; unfold Vector3.lengthSq; cbn; ring | rewrite Hf; reflexivity].
    rewrite Hf; unfold worldDirection; fold yaw; cbn; f_equal; ring.
  - intros Hr.
    rewrite aimed_direction_unit;
      [| rewrite Hr; unfold Vector3.lengthSq; cbn; ring | rewrite Hr; reflexivity].
    rewrite Hr; unfold worldDirection; fold yaw; cbn; f_equal; ring.
Qed.

Lemma move_direction_is_unit_and_yaw_only_witness :
  Vector3.length
    (moveDirection
       (movement
          (Movement_update (clockAt 0) (1 / 120) (keyDown KeyD 0 startingForward))))
  = 1.
Proof.
  destruct (move_direction_is_unit_and_yaw_only (clockAt 0) (1 / 120)
              (keyDown KeyD 0 startingForward)) as (_ & H & _).
  - unfold Vector3.lengthSq; cbn; lra.
  - apply H; left; cbn; lra.
Defined.

Lemma target_speed_ignores_diagonal_core (clk : Clock) (dt : R) (p : Player) :
  steering p ->
  let t := targetVelocity (movement (Movement_update clk dt p)) in
  Vector3.length t = (if isSprinting p then runSpeed else walkSpeed)
  /\ Vector3.y t = 0
  /\ runSpeed = 10 /\ walkSpeed = 6.
Proof.
  intros Hs t.
  pose proof (steering_lengthSq p Hs) as Hin.
  destruct (Movement_update_movement clk dt p Hin) as (_ & Ht & _); cbv zeta in Ht.
  unfold t; rewrite Ht.
  split; [| split; [apply aimed_target_y | split; reflexivity]].
  destruct (aimed_fields clk p) as (_ & _ & _ & Hd & -> & _).
  destruct (steering_direction clk p Hs) as [_ Hl].
  rewrite Hd in Hl.
  rewrite length_multiplyScalar by (destruct (isSprinting p); unfold_tuning; lra).
  rewrite Hl; ring.
Qed.

(** X8.  On a tick with horizontal move input the target velocity has
    length exactly [runSpeed] when sprinting and [walkSpeed] otherwise,
    whatever the yaw: a diagonal input (two keys held) aims no faster than
    a single key. *)
Theorem target_speed_ignores_diagonal (clk : Clock) (dt : R) (p : Player) :
  steering p ->
  let t := targetVelocity (movement (Movement_update clk dt p)) in
  Vector3.length t = (if isSprinting p then runSpeed else walkSpeed)
  /\ Vector3.y t = 0
  /\ runSpeed = 10 /\ walkSpeed = 6.
Proof. exact (target_speed_ignores_diagonal_core clk dt p). Qed.

Lemma target_speed_ignores_diagonal_witness :
  Vector3.length
    (targetVelocity
       (movement
          (Movement_update (clockAt 0) (1 / 120) (keyDown KeyD 0 startingForward))))
  = walkSpeed.
Proof.
  destruct (target_speed_ignores_diagonal (clockAt 0) (1 / 120)
              (keyDown KeyD 0 startingForward)) as (H & _).
  - left; cbn; lra.
  - exact H.
Defined.

(** ** Direction changes *)

Lemma aimed_flag (clk : Clock) (q : Player) :
  let m := movement q in
  let d := moveDirection (movement (aimed clk q)) in
  hasChangedDirection (movement (aimed clk q))
  = (if Num.eqb (Vector3.lengthSq (lastDirection m)) 0 then false
     else if Num.ltb (Vector3.dot (lastDirection m) d) directionChangeThreshold then true
          else hasChangedDirection m && Num.ltb (now_dir clk - directionChangeTime m) 100)
  /\ directionChangeTime (movement (aimed clk q))
     = (if Num.eqb (Vector3.lengthSq (lastDirection m)) 0 then directionChangeTime m
        else if Num.ltb (Vector3.dot (lastDirection m) d) directionChangeThreshold
             then now_dir clk else directionChangeTime m).
Proof.
  cbv zeta.
  destruct (aimed_fields clk q) as (_ & _ & _ & -> & _).
  unfold aimed, detectDirectionChange; cbv zeta.
  set (c := calculateMoveDirection (usedInput q) q).
  change (lastDirection (movement c)) with (lastDirection (movement q)).
  change (hasChangedDirection (movement c)) with (hasChangedDirection (movement q)).
  change (directionChangeTime (movement c)) with (directionChangeTime (movement q)).
  destruct (Num.eqb _ _); [split; reflexivity |].
  destruct (Num.ltb (Vector3.dot _ _) _); split; reflexivity.
Qed.

Lemma jump_keeps_movement (clk : Clock) (p : Player) :
  movement (jumpPhase clk (trackGround clk p)) = movement p.
Proof.
  destruct (trackGround_other clk p) as (_ & _ & _ & _ & _ & _ & Hm & _).
  rewrite <- Hm.
  unfold jumpPhase, processJump, applyJumpBoost; repeat break_if; reflexivity.
Qed.

Lemma dot_self (v : Vector3.t) : Vector3.dot v v = Vector3.lengthSq v.
Proof. reflexivity. Qed.

(** X9.  Holding the same keys at the same yaw raises no new direction
    change.  If a tick with horizontal move input is followed, after any
    physics step, by another tick with the input and yaw as they were, the
    second tick keeps the direction-change flag only if it was set and less
    than 100 ms have passed since it was set, and never restarts its timer.
    And a tick that has no previous direction to compare with leaves the
    flag down. *)
Theorem steady_input_raises_no_direction_change
    (clk1 clk2 : Clock) (dt1 dt2 : R) (f : PhysicsBody -> PhysicsBody) (p : Player) :
  steering p ->
  let p1 := Player_update clk1 dt1 p in
  let p2 := Player_update clk2 dt2 (set_physicsBody p1 (f (physicsBody p1))) in
  hasChangedDirection (movement p2)
  = hasChangedDirection (movement p1)
    && Num.ltb (now_dir clk2 - directionChangeTime (movement p1)) 100
  /\ directionChangeTime (movement p2) = directionChangeTime (movement p1)
  /\ (Vector3.lengthSq (lastDirection (movement p)) = 0 ->
      hasChangedDirection (movement p1) = false).
Proof.
  intros Hs p1 p2.
  pose proof (steering_lengthSq p Hs) as Hin.
  (* the first tick *)
  set (q1 := jumpPhase clk1 (trackGround clk1 p)).
  assert (Hq1 : sameInputState p q1).
  { eapply sameInputState_trans; [apply trackGround_sameInput | apply jumpPhase_sameInput]. }
  assert (Hs1 : steering q1) by (unfold steering; rewrite (si_moveInput _ _ Hq1); exact Hs).
  assert (Hin1 : Vector3.lengthSq (moveInput q1) <> 0) by (apply steering_lengthSq, Hs1).
  destruct (Movement_update_movement clk1 dt1 q1 Hin1) as (_ & _ & Hld & _ & Hfl & _).
  cbv zeta in Hld, Hfl.
  change (Movement_update clk1 dt1 q1) with p1 in Hld, Hfl.
  destruct (steering_direction clk1 q1 Hs1) as [Hunit _].
  (* the second tick *)
  set (p1' := set_physicsBody p1 (f (physicsBody p1))).
  set (q2 := jumpPhase clk2 (trackGround clk2 p1')).
  assert (Hp1 : sameInputState p p1) by apply Player_update_sameInput.
  assert (Hq2 : sameInputState p1' q2).
  { eapply sameInputState_trans; [apply trackGround_sameInput | apply jumpPhase_sameInput]. }
  assert (Hmi2 : moveInput q2 = moveInput q1).
  { rewrite (si_moveInput _ _ Hq2), (si_moveInput _ _ Hq1).
    exact (si_moveInput _ _ Hp1). }
  assert (Hvr2 : viewRotation q2 = viewRotation q1).
  { rewrite (si_viewRotation _ _ Hq2), (si_viewRotation _ _ Hq1).
    exact (si_viewRotation _ _ Hp1). }
  assert (Hm2 : movement q2 = movement p1) by (unfold q2; rewrite jump_keeps_movement; reflexivity).
  assert (Hin2 : Vector3.lengthSq (moveInput q2) <> 0) by (rewrite Hmi2; exact Hin1).
  assert (Hd2 : moveDirection (movement (aimed clk2 q2))
                = moveDirection (movement (aimed clk1 q1))).
  { rewrite !aimed_direction; unfold usedInput; rewrite Hmi2, Hvr2; reflexivity. }
  destruct (Movement_update_movement clk2 dt2 q2 Hin2) as (_ & _ & _ & _ & Hfl2 & Ht2).
  cbv zeta in Hfl2, Ht2.
  change (Movement_update clk2 dt2 q2) with p2 in Hfl2, Ht2.
  destruct (aimed_flag clk2 q2) as [Af At]; cbv zeta in Af, At.
  rewrite Hm2, Hd2, Hld, dot_self, Hunit in Af, At.
  rewrite (proj2 (NumFacts.eqb_false 1 0)) in Af, At by lra.
  rewrite (proj2 (NumFacts.ltb_false 1 directionChangeThreshold)) in Af, At
    by (unfold directionChangeThreshold; lra).
  split; [rewrite Hfl2; exact Af | split; [rewrite Ht2; exact At |]].
  intros H0.
  rewrite Hfl.
  destruct (aimed_flag clk1 q1) as [Af1 _]; cbv zeta in Af1.
  unfold q1 in Af1 at 2; rewrite jump_keeps_movement in Af1.
  rewrite (proj2 (NumFacts.eqb_true _ _) H0) in Af1; exact Af1.
Qed.

Lemma steady_input_raises_no_direction_change_witness :
  hasChangedDirection
    (movement
       (Player_update (clockAt 20) (1 / 120)
          (set_physicsBody (Player_update (clockAt 10) (1 / 120) startingForward)
             (physicsBody (Player_update (clockAt 10) (1 / 120) startingForward)))))
  = false.
Proof.
  destruct (steady_input_raises_no_direction_change (clockAt 10) (clockAt 20)
              (1 / 120) (1 / 120) (fun b => b) startingForward) as (H2 & _ & H1).
  - right; cbn; lra.
  - rewrite H2, H1; [reflexivity |].
    unfold Vector3.lengthSq; cbn; ring.
Defined.

(** ** Approaching the target *)

Lemma acceleratedBlend_length (k : R) (c t : Vector3.t) :
  0 <= k <= 1 -> Vector3.y t = 0 ->
  Vector3.length (acceleratedBlend k c t)
  <= (1 - k) * Vector3.hspeed c + k * Vector3.length t.
Proof.
  intros Hk Hy.
  assert (Hb : Vector3.y (acceleratedBlend k c t) = 0) by (cbn; rewrite Hy; ring).
  rewrite <- (hspeed_flat _ Hb), <- (hspeed_flat _ Hy).
  rewrite (hspeed_eq (acceleratedBlend k c t)); cbn [acceleratedBlend Vector3.x Vector3.z].
  replace (Vector3.x c + (Vector3.x t - Vector3.x c) * k)
    with (Vector3.x c * (1 - k) + Vector3.x t * k) by ring.
  replace (Vector3.z c + (Vector3.z t - Vector3.z c) * k)
    with (Vector3.z c * (1 - k) + Vector3.z t * k) by ring.
  eapply Rle_trans; [apply sqrt_triangle |].
  rewrite !sqrt_scaled by lra.
  rewrite <- !hspeed_eq; lra.
Qed.

Lemma acceleratedBlend_hdist (k : R) (c t : Vector3.t) :
  0 <= k <= 1 ->
  hdist (acceleratedBlend k c t) t = (1 - k) * hdist c t.
Proof.
  intros Hk; unfold hdist; cbn [acceleratedBlend Vector3.x Vector3.z].
  replace (Vector3.x c + (Vector3.x t - Vector3.x c) * k - Vector3.x t)
    with ((Vector3.x c - Vector3.x t) * (1 - k)) by ring.
  replace (Vector3.z c + (Vector3.z t - Vector3.z c) * k - Vector3.z t)
    with ((Vector3.z c - Vector3.z t) * (1 - k)) by ring.
  apply sqrt_scaled; lra.
Qed.

Lemma blend_is_convex (dt : R) (a : Player) :
  0 <= dt ->
  exists k : R,
    Rmin (1 / 10) (18 * dt) <= k <= 1 /\ 0 <= k
    /\ blendVelocity dt a
       = acceleratedBlend k (body_velocity a) (targetVelocity (movement a)).
Proof.
  intros Hdt.
  destruct (hasChangedDirection (movement a)
            && Num.gtb (Vector3.hspeed (body_velocity a)) 2) eqn:Hreg.
  - exists (1 / 10).
    apply andb_true_iff in Hreg; destruct Hreg as [Hc Hs]; num_hyps.
    split; [split; [apply Rmin_l | lra] | split; [lra |]].
    rewrite blend_momentum by assumption.
    unfold momentumBlend, acceleratedBlend, momentumRetention; f_equal; field.
  - pose proof (blend_accelerated dt a Hreg) as Hb; cbv zeta in Hb.
    match type of Hb with _ = acceleratedBlend (Rmin (?acc * dt) 1) _ _ =>
      set (accel := acc) in *; exists (Rmin (accel * dt) 1) end.
    assert (Hacc : 18 <= accel).
    { unfold accel; destruct (onGround a), (Num.ltb _ _ || _); cbn [negb];
        unfold_tuning; lra. }
    assert (Hk0 : 0 <= accel * dt) by nra.
    split; [split |]; [| apply Rmin_r | split; [apply Rmin_glb; lra | exact Hb]].
    apply Rmin_glb.
    + eapply Rle_trans; [apply Rmin_r | nra].
    + eapply Rle_trans; [apply Rmin_l | lra].
Qed.

(** X10.  A tick with move input never overshoots.  When the time step
    is not negative, no jump boost is due and the body is no faster than
    [maxSpeed], the horizontal velocity written is the old one moved toward
    the tick's target by a fraction [k] of the way, with
    [min(0.1, 18 * dt) <= k <= 1]: the distance to the target shrinks by the
    factor [1 - k] and the speed limit does not intervene. *)
Theorem tick_moves_toward_target (clk : Clock) (dt : R) (p : Player) :
  Vector3.lengthSq (moveInput p) <> 0 ->
  0 <= dt ->
  boostDue p = false ->
  Vector3.hspeed (body_velocity p) <= maxSpeed ->
  let c := body_velocity p in
  let t := targetVelocity (movement (Movement_update clk dt p)) in
  let v' := body_velocity (Movement_update clk dt p) in
  exists k : R,
    Rmin (1 / 10) (18 * dt) <= k <= 1
    /\ Vector3.x v' = Vector3.x c + (Vector3.x t - Vector3.x c) * k
    /\ Vector3.z v' = Vector3.z c + (Vector3.z t - Vector3.z c) * k
    /\ hdist v' t = (1 - k) * hdist c t
    /\ hdist v' t <= hdist c t.
Proof.
  intros Hin Hdt Hb Hc c t v'.
  destruct (Movement_update_movement clk dt p Hin) as (_ & Ht & _); cbv zeta in Ht.
  unfold t; rewrite Ht; clear t Ht.
  set (a := aimed clk p).
  destruct (aimed_fields clk p) as (Hv & _); fold a in Hv.
  destruct (blend_is_convex dt a Hdt) as (k & Hk & Hk0 & Hblend).
  rewrite Hv in Hblend; fold c in Hblend.
  set (t := targetVelocity (movement a)) in *.
  assert (Hty : Vector3.y t = 0) by apply aimed_target_y.
  assert (Hlen : Vector3.length (acceleratedBlend k c t) <= maxSpeed).
  { eapply Rle_trans; [apply acceleratedBlend_length; [lra | exact Hty] |].
    pose proof (target_length clk p) as Htl; fold a t in Htl.
    pose proof (hspeed_nonneg c).
    fold c in Hc; unfold_tuning; nra. }
  destruct (capped_tick clk dt p Hin Hb) as (Hx & Hz & _); fold a v' in Hx, Hz.
  rewrite Hblend, (limitSpeed_under _ Hlen) in Hx, Hz.
  cbn [acceleratedBlend Vector3.x Vector3.z] in Hx, Hz.
  assert (Hd : hdist v' t = (1 - k) * hdist c t).
  { rewrite <- (acceleratedBlend_hdist k c t) by lra.
    unfold hdist; cbn [acceleratedBlend Vector3.x Vector3.z]; rewrite Hx, Hz; reflexivity. }
  exists k; repeat split; try assumption; try lra.
  rewrite Hd.
  assert (0 <= hdist c t) by apply sqrt_pos.
  nra.
Qed.

Lemma tick_moves_toward_target_witness :
  exists k : R,
    1 / 10 <= k <= 1
    /\ Vector3.z (body_velocity (Movement_update (clockAt 0) (1 / 120) reversing))
       = -8 + (Vector3.z (targetVelocity
                            (movement (Movement_update (clockAt 0) (1 / 120) reversing)))
               - -8) * k.
Proof.
  destruct (tick_moves_toward_target (clockAt 0) (1 / 120) reversing)
    as (k & Hk & _ & Hz & _).
  - unfold Vector3.lengthSq; cbn; lra.
  - lra.
  - reflexivity.
  - rewrite hspeed_eq; cbn.
    replace (0 * 0 + -8 * -8) with (8 * 8) by ring.
    rewrite sqrt_square by lra; unfold maxSpeed; lra.
  - exists k; split; [| exact Hz].
    rewrite Rmin_left in Hk by lra; exact Hk.
Defined.

(** ** Coming to rest *)

Section ComingToRest.

Variable clk : Clock.
Variable dt : R.
Hypothesis dt_pos : 0 < dt.

Local Abbreviation slowest := (slowestDamping dt).

Lemma slowest_range : 0 <= slowest < 1.
Proof.
  unfold slowestDamping; split; [apply Rmax_l |].
  apply Rmax_lub_lt; unfold airFriction; lra.
Qed.

Lemma idleDamping_le_slowest (g : bool) (s : R) : idleDamping g s dt <= slowest.
Proof.
  unfold idleDamping, slowestDamping.
  apply Rmax_lub; [apply Rmax_l |].
  eapply Rle_trans; [| apply Rmax_r].
  unfold idleFriction; destruct g, (Num.gtb s 5); unfold_tuning; nra.
Qed.

Lemma idle_step_factor (q : Player) :
  Vector3.lengthSq (moveInput q) = 0 ->
  Vector3.hspeed (body_velocity (Movement_update clk dt q))
  <= slowest * Vector3.hspeed (body_velocity q).
Proof.
  intros Hin.
  rewrite Movement_update_idle by exact Hin.
  rewrite applyFriction_velocity; cbv zeta.
  set (v := body_velocity q).
  pose proof (hspeed_nonneg v) as Hv.
  pose proof slowest_range as Hs.
  destruct (Num.ltb (Vector3.hspeed v) (1 / 100)).
  - rewrite hspeed_eq; cbn.
    replace (0 * 0 + 0 * 0) with 0 by ring; rewrite sqrt_0; nra.
  - pose proof (idleDamping_range (onGround q) (Vector3.hspeed v) dt (Rlt_le _ _ dt_pos)) as Hd.
    pose proof (idleDamping_le_slowest (onGround q) (Vector3.hspeed v)) as Hle.
    rewrite (hspeed_scaled (Vector3.x v) (Vector3.z v)
               (idleDamping (onGround q) (Vector3.hspeed v) dt));
      [| lra | reflexivity | reflexivity].
    rewrite <- hspeed_eq; nra.
Qed.

Lemma idle_snap (q : Player) :
  Vector3.lengthSq (moveInput q) = 0 ->
  Vector3.hspeed (body_velocity q) < 1 / 100 ->
  Vector3.x (body_velocity (Movement_update clk dt q)) = 0
  /\ Vector3.z (body_velocity (Movement_update clk dt q)) = 0.
Proof.
  intros Hin Hs.
  rewrite Movement_update_idle by exact Hin.
  rewrite applyFriction_velocity; cbv zeta.
  rewrite (proj2 (NumFacts.ltb_true _ _) Hs); split; reflexivity.
Qed.

Lemma locomotionTicks_S (n : nat) (p : Player) :
  locomotionTicks clk dt (S n) p = Movement_update clk dt (locomotionTicks clk dt n p).
Proof. reflexivity. Qed.

Lemma locomotionTicks_input (n : nat) (p : Player) :
  moveInput (locomotionTicks clk dt n p) = moveInput p.
Proof.
  induction n as [| n IH]; [reflexivity |].
  rewrite locomotionTicks_S, (si_moveInput _ _ (Movement_update_sameInput clk dt _)).
  exact IH.
Qed.

Lemma locomotionTicks_decay (n : nat) (p : Player) :
  Vector3.lengthSq (moveInput p) = 0 ->
  Vector3.hspeed (body_velocity (locomotionTicks clk dt n p))
  <= slowest ^ n * Vector3.hspeed (body_velocity p).
Proof.
  intros Hin; induction n as [| n IH].
  - cbn; lra.
  - rewrite locomotionTicks_S.
    eapply Rle_trans;
      [apply idle_step_factor; rewrite locomotionTicks_input; exact Hin |].
    pose proof slowest_range as Hs.
    cbn [pow]; nra.
Qed.

Lemma locomotionTicks_rest (p : Player) :
  Vector3.lengthSq (moveInput p) = 0 ->
  exists N : nat, forall n : nat, (N <= n)%nat ->
    Vector3.x (body_velocity (locomotionTicks clk dt n p)) = 0
    /\ Vector3.z (body_velocity (locomotionTicks clk dt n p)) = 0.
Proof.
  intros Hin.
  pose proof slowest_range as Hs.
  pose proof (hspeed_nonneg (body_velocity p)) as Hh.
  set (h := Vector3.hspeed (body_velocity p)) in *.
  assert (Hy : 0 < 1 / 100 / (h + 1)) by (apply Rdiv_lt_0_compat; lra).
  destruct (pow_lt_1_zero slowest) with (y := 1 / 100 / (h + 1)) as [N HN];
    [rewrite Rabs_pos_eq; lra | exact Hy |].
  exists (S N).
  assert (Hfirst : Vector3.x (body_velocity (locomotionTicks clk dt (S N) p)) = 0
                   /\ Vector3.z (body_velocity (locomotionTicks clk dt (S N) p)) = 0).
  { rewrite locomotionTicks_S; apply idle_snap;
      [rewrite locomotionTicks_input; exact Hin |].
    eapply Rle_lt_trans; [apply locomotionTicks_decay; exact Hin |].
    fold h.
    specialize (HN N (Nat.le_refl N)).
    rewrite Rabs_pos_eq in HN by (apply pow_le; lra).
    assert (Hp : 0 <= slowest ^ N) by (apply pow_le; lra).
    assert (Hq : 1 / 100 / (h + 1) * (h + 1) = 1 / 100) by (field; lra).
    nra. }
  intros n Hn; induction Hn as [| n Hn IH]; [exact Hfirst |].
  rewrite locomotionTicks_S; apply idle_snap;
    [rewrite locomotionTicks_input; exact Hin |].
  destruct IH as [Ix Iz].
  rewrite hspeed_eq, Ix, Iz.
  replace (0 * 0 + 0 * 0) with 0 by ring; rewrite sqrt_0; lra.
Qed.

End ComingToRest.

(** X11.  Without move input the character comes to a complete stop in
    finitely many ticks: for any positive time step there is a number of
    locomotion updates after which both horizontal velocity components are
    exactly 0 and stay 0, whatever the speed started from and whether it is
    on the ground or not. *)
Theorem idle_comes_to_rest (clk : Clock) (dt : R) (p : Player) :
  0 < dt ->
  Vector3.lengthSq (moveInput p) = 0 ->
  exists N : nat, forall n : nat, (N <= n)%nat ->
    Vector3.x (body_velocity (locomotionTicks clk dt n p)) = 0
    /\ Vector3.z (body_velocity (locomotionTicks clk dt n p)) = 0.
Proof.
  intros Hdt Hin; apply locomotionTicks_rest; assumption.
Qed.

Lemma idle_comes_to_rest_witness :
  exists N : nat,
    Vector3.x (body_velocity (locomotionTicks (clockAt 0) (1 / 120) N sliding)) = 0.
Proof.
  destruct (idle_comes_to_rest (clockAt 0) (1 / 120) sliding) as [N HN].
  - lra.
  - unfold Vector3.lengthSq; cbn; ring.
  - exists N; apply (HN N); apply Nat.le_refl.
Defined.

(** * The input layer *)

(** ** Maps *)

Section JsMapFacts.

Context {V : Type}.

Lemma JsMap_get_set_eq (k : String.string) (v : V) (m : JsMap.t V) :
  JsMap.get k (JsMap.set k v m) = Some v.
Proof.
  induction m as [| [k' v'] m IH]; cbn.
  - rewrite String.eqb_refl; reflexivity.
  - destruct (String.eqb k k') eqn:E; cbn.
    + rewrite String.eqb_refl; reflexivity.
    + rewrite E; exact IH.
Qed.

Lemma JsMap_get_set_ne (k k' : String.string) (v : V) (m : JsMap.t V) :
  k <> k' -> JsMap.get k' (JsMap.set k v m) = JsMap.get k' m.
Proof.
  intros Hne.
  assert (Hkk : String.eqb k' k = false) by (apply String.eqb_neq; congruence).
  induction m as [| [k0 v0] m IH]; cbn.
  - rewrite Hkk; reflexivity.
  - destruct (String.eqb k k0) eqn:E; cbn.
    + apply String.eqb_eq in E; subst k0; rewrite Hkk; reflexivity.
    + rewrite IH; reflexivity.
Qed.

End JsMapFacts.

Lemma register_get_eq {W : Type} (code : String.string) (cb : Input.KeyCallback W)
    (m : JsMap.t (list (Input.KeyCallback W))) :
  JsMap.get code (Input.register W code cb m)
  = Some (match JsMap.get code m with Some l => l | None => [] end ++ [cb]).
Proof.
  unfold Input.register, JsMap.has.
  destruct (JsMap.get code m) as [l |] eqn:E.
  - rewrite E, JsMap_get_set_eq; reflexivity.
  - rewrite !JsMap_get_set_eq; reflexivity.
Qed.

Lemma register_get_ne {W : Type} (code code' : String.string) (cb : Input.KeyCallback W)
    (m : JsMap.t (list (Input.KeyCallback W))) :
  code <> code' ->
  JsMap.get code' (Input.register W code cb m) = JsMap.get code' m.
Proof.
  intros Hne; unfold Input.register, JsMap.has.
  destruct (JsMap.get code m) as [l |] eqn:E.
  - rewrite E, JsMap_get_set_ne by exact Hne; reflexivity.
  - rewrite JsMap_get_set_eq, !JsMap_get_set_ne by exact Hne; reflexivity.
Qed.

Lemma isTrue_set_eq (k : String.string) (b : bool) (m : JsMap.t bool) :
  Input.isTrue k (JsMap.set k b m) = b.
Proof. unfold Input.isTrue; rewrite JsMap_get_set_eq; destruct b; reflexivity. Qed.

Lemma isTrue_set_ne (k k' : String.string) (b : bool) (m : JsMap.t bool) :
  k <> k' -> Input.isTrue k' (JsMap.set k b m) = Input.isTrue k' m.
Proof. intros H; unfold Input.isTrue; rewrite JsMap_get_set_ne by exact H; reflexivity. Qed.

Section InputFacts.

Variable W : Type.
Implicit Types (i : Input.t W) (w : W).

(** ** Key states and edges *)

(** X12.  A key-down event makes the key read as down and leaves every
    other key as it was; the press shows as an edge ([wasKeyPressed])
    exactly when the key was not down at the last [update], so a repeated
    key-down of a held key gives no edge.  [update] consumes all edges:
    after it no key reads as just pressed or just released, while the key
    states themselves are kept.  [isKeyUp] is always the negation of
    [isKeyDown]. *)
Theorem key_edges_last_until_update (code : String.string) (now : R) i w :
  let i1 := fst (Input.handleKeyDown W code now i w) in
  let i0 := fst (Input.handleKeyUp W code now i w) in
  Input.isKeyDown W code i1 = true
  /\ Input.wasKeyPressed W code i1 = negb (Input.isTrue code (Input.previousKeys W i))
  /\ Input.isKeyDown W code i0 = false
  /\ Input.wasKeyReleased W code i0 = Input.isTrue code (Input.previousKeys W i)
  /\ (forall c, c <> code ->
        Input.isKeyDown W c i1 = Input.isKeyDown W c i
        /\ Input.isKeyDown W c i0 = Input.isKeyDown W c i)
  /\ (forall c j,
        Input.wasKeyPressed W c (Input.update W j) = false
        /\ Input.wasKeyReleased W c (Input.update W j) = false
        /\ Input.isKeyDown W c (Input.update W j) = Input.isKeyDown W c j
        /\ Input.isKeyUp W c j = negb (Input.isKeyDown W c j)).
Proof.
  cbv zeta.
  assert (H1 : Input.keys W (fst (Input.handleKeyDown W code now i w))
               = JsMap.set code true (Input.keys W i)).
  { unfold Input.handleKeyDown; cbn; destruct (JsMap.get _ _); reflexivity. }
  assert (H1p : Input.previousKeys W (fst (Input.handleKeyDown W code now i w))
                = Input.previousKeys W i).
  { unfold Input.handleKeyDown; cbn; destruct (JsMap.get _ _); reflexivity. }
  assert (H0 : Input.keys W (fst (Input.handleKeyUp W code now i w))
               = JsMap.set code false (Input.keys W i)).
  { unfold Input.handleKeyUp; cbn; destruct (JsMap.get _ _); reflexivity. }
  assert (H0p : Input.previousKeys W (fst (Input.handleKeyUp W code now i w))
                = Input.previousKeys W i).
  { unfold Input.handleKeyUp; cbn; destruct (JsMap.get _ _); reflexivity. }
  unfold Input.isKeyDown, Input.wasKeyPressed, Input.wasKeyReleased, Input.isKeyUp.
  rewrite H1, H1p, H0, H0p, !isTrue_set_eq.
  repeat split.
  - apply isTrue_set_ne; congruence.
  - apply isTrue_set_ne; congruence.
  - cbn; apply andb_negb_r.
  - cbn; apply andb_negb_l.
Qed.

(** ** Callbacks *)

Lemma handleKeyDown_world (code : String.string) (now : R) i w :
  snd (Input.handleKeyDown W code now i w)
  = match JsMap.get code (Input.keyDownCallbacks W i) with
    | Some cbs => Input.fire W cbs now w
    | None => w
    end.
Proof.
  unfold Input.handleKeyDown; cbn; destruct (JsMap.get _ _); reflexivity.
Qed.

Lemma handleKeyUp_world (code : String.string) (now : R) i w :
  snd (Input.handleKeyUp W code now i w)
  = match JsMap.get code (Input.keyUpCallbacks W i) with
    | Some cbs => Input.fire W cbs now w
    | None => w
    end.
Proof.
  unfold Input.handleKeyUp; cbn; destruct (JsMap.get _ _); reflexivity.
Qed.

(** X13.  Callbacks of a key run in the order they were registered: a
    key-down event runs a newly registered callback after all the earlier
    ones, once.  Registering leaves the callbacks of every other key, the
    key-up callbacks and the key states as they were, and an event for a key
    without callbacks changes nothing but the key state. *)
Theorem callbacks_run_in_registration_order
    (code : String.string) (cb : Input.KeyCallback W) (now : R) i w :
  snd (Input.handleKeyDown W code now (Input.onKeyDown W code cb i) w)
  = cb now (snd (Input.handleKeyDown W code now i w))
  /\ (forall code', code <> code' ->
        snd (Input.handleKeyDown W code' now (Input.onKeyDown W code cb i) w)
        = snd (Input.handleKeyDown W code' now i w))
  /\ (forall code',
        snd (Input.handleKeyUp W code' now (Input.onKeyDown W code cb i) w)
        = snd (Input.handleKeyUp W code' now i w))
  /\ Input.keys W (Input.onKeyDown W code cb i) = Input.keys W i
  /\ (JsMap.get code (Input.keyDownCallbacks W i) = None ->
      snd (Input.handleKeyDown W code now i w) = w).
Proof.
  repeat split.
  - rewrite !handleKeyDown_world; unfold Input.onKeyDown; cbn.
    rewrite register_get_eq.
    destruct (JsMap.get code (Input.keyDownCallbacks W i)) as [l |]; cbn.
    + unfold Input.fire; rewrite fold_left_app; reflexivity.
    + reflexivity.
  - intros code' Hne; rewrite !handleKeyDown_world; unfold Input.onKeyDown; cbn.
    rewrite register_get_ne by exact Hne; reflexivity.
  - intros code'; rewrite !handleKeyUp_world; reflexivity.
  - intros H; rewrite handleKeyDown_world, H; reflexivity.
Qed.

(** ** The mouse *)

Lemma mouseMoves_locked (ms : list (R * R * R * R)) i w :
  Input.isPointerLocked W i = true ->
  Input.mouseDelta W (fst (mouseMoves ms i w))
  = (fst (Input.mouseDelta W i) + fst (movementSum ms),
     snd (Input.mouseDelta W i) + snd (movementSum ms)).
Proof.
  revert i w; induction ms as [| [[[cx cy] mx] my] ms IH]; intros i w Hl.
  - cbn; destruct (Input.mouseDelta W i); cbn; f_equal; ring.
  - cbn [mouseMoves movementSum].
    unfold Input.handleMouseMove; cbn [Input.isPointerLocked Input.set_mousePosition].
    rewrite Hl.
    rewrite IH by exact Hl; cbn; f_equal; ring.
Qed.

Lemma mouseMoves_unlocked (ms : list (R * R * R * R)) i w :
  Input.isPointerLocked W i = false ->
  Input.mouseDelta W (fst (mouseMoves ms i w)) = Input.mouseDelta W i
  /\ snd (mouseMoves ms i w) = w.
Proof.
  revert i w; induction ms as [| [[[cx cy] mx] my] ms IH]; intros i w Hl.
  - split; reflexivity.
  - cbn [mouseMoves].
    unfold Input.handleMouseMove; cbn [Input.isPointerLocked Input.set_mousePosition].
    rewrite Hl.
    destruct (IH (Input.set_mousePosition W i (cx, cy)) w Hl) as [-> ->].
    split; reflexivity.
Qed.

(** X14.  Mouse movement counts only while the pointer is locked.
    Locked, the mouse delta after the mouse moves of a frame is the sum of
    their movements since the last [update], which had reset it to zero;
    unlocked, the moves change neither the delta nor anything a callback
    would touch.  The mouse position follows every move in both cases. *)
Theorem mouse_delta_needs_pointer_lock (ms : list (R * R * R * R)) i w :
  (Input.isPointerLocked W i = true ->
     Input.mouseDelta W (fst (mouseMoves ms (Input.update W i) w)) = movementSum ms)
  /\ (Input.isPointerLocked W i = false ->
      Input.mouseDelta W (fst (mouseMoves ms i w)) = Input.mouseDelta W i
      /\ snd (mouseMoves ms i w) = w)
  /\ (forall cx cy mx my,
        Input.mousePosition W (fst (Input.handleMouseMove W cx cy mx my i w)) = (cx, cy)).
Proof.
  split; [| split].
  - intros Hl.
    rewrite mouseMoves_locked by exact Hl; cbn.
    destruct (movementSum ms); cbn; f_equal; ring.
  - apply mouseMoves_unlocked.
  - intros cx cy mx my; unfold Input.handleMouseMove; cbn.
    destruct (Input.isPointerLocked W i); reflexivity.
Qed.

End InputFacts.

Lemma mouse_delta_needs_pointer_lock_witness :
  Input.mouseDelta Player
    (fst (mouseMoves [(10, 10, 3, 4); (12, 9, 2, -1)]
            (Input.update Player (Input.setPointerLocked Player true (Input.new Player)))
            spawned))
  = (3 + (2 + 0), 4 + (-1 + 0)).
Proof.
  destruct (mouse_delta_needs_pointer_lock Player [(10, 10, 3, 4); (12, 9, 2, -1)]
              (Input.setPointerLocked Player true (Input.new Player)) spawned) as [H _].
  rewrite H; reflexivity.
Defined.

Lemma callbacks_run_in_registration_order_witness :
  snd (Input.handleKeyDown Player "KeyQ"%string 0 (Input.new Player) spawned) = spawned.
Proof.
  destruct (callbacks_run_in_registration_order Player "KeyQ"%string (fun _ p => p) 0
              (Input.new Player) spawned) as (_ & _ & _ & _ & H).
  apply H; reflexivity.
Defined.

(** ** The player's bindings *)

Lemma bound_keyDown (i : Input.t Player) (k : Key) (now : R) (p : Player) :
  Input.keyDownCallbacks Player i
  = Input.keyDownCallbacks Player (setupInputBindings (Input.new Player)) ->
  snd (Input.handleKeyDown Player (keyCode k) now i p) = keyDown k now p.
Proof.
  intros H; rewrite handleKeyDown_world, H.
  destruct k; reflexivity.
Qed.

Lemma bound_keyUp (i : Input.t Player) (k : Key) (now : R) (p : Player) :
  Input.keyUpCallbacks Player i
  = Input.keyUpCallbacks Player (setupInputBindings (Input.new Player)) ->
  snd (Input.handleKeyUp Player (keyCode k) now i p) = keyUp k p.
Proof.
  intros H; rewrite handleKeyUp_world, H.
  destruct k; reflexivity.
Qed.

Lemma unbound_key (i : Input.t Player) (code : String.string) (now : R) (p : Player) :
  Input.keyDownCallbacks Player i
  = Input.keyDownCallbacks Player (setupInputBindings (Input.new Player)) ->
  Input.keyUpCallbacks Player i
  = Input.keyUpCallbacks Player (setupInputBindings (Input.new Player)) ->
  (forall k, code <> keyCode k) ->
  snd (Input.handleKeyDown Player code now i p) = p
  /\ snd (Input.handleKeyUp Player code now i p) = p.
Proof.
  intros Hd Hu Hne.
  rewrite handleKeyDown_world, handleKeyUp_world, Hd, Hu.
  pose proof (Hne KeyW) as HW; pose proof (Hne KeyS) as HS; pose proof (Hne KeyA) as HA.
  pose proof (Hne KeyD) as HD; pose proof (Hne Space) as HSp.
  pose proof (Hne ShiftLeft) as HSh; pose proof (Hne F3) as HF.
  apply String.eqb_neq in HW, HS, HA, HD, HSp, HSh, HF.
  cbn [keyCode] in *.
  cbn; rewrite ?HW, ?HS, ?HA, ?HD, ?HSp, ?HSh, ?HF.
  split; reflexivity.
Qed.

(** X15.  With the bindings of [Player.setupInputBindings] registered on
    a new [Input], a key-down or key-up event of a bound key changes the
    player exactly as the handler of that key does ([keyDown], [keyUp]), an
    event of any other key leaves the player alone, and a mouse move rotates
    the view by its movement when the pointer is locked and does nothing to
    the player otherwise.  Handling events, [update] and locking the
    pointer keep the bindings, so this holds in every later input state. *)
Theorem bindings_dispatch_to_handlers (i : Input.t Player) :
  sameBindings (setupInputBindings (Input.new Player)) i ->
  (forall k now p, snd (Input.handleKeyDown Player (keyCode k) now i p) = keyDown k now p)
  /\ (forall k now p, snd (Input.handleKeyUp Player (keyCode k) now i p) = keyUp k p)
  /\ (forall code now p,
         (forall k, code <> keyCode k) ->
         snd (Input.handleKeyDown Player code now i p) = p
         /\ snd (Input.handleKeyUp Player code now i p) = p)
  /\ (forall cx cy mx my p,
         snd (Input.handleMouseMove Player cx cy mx my i p)
         = if Input.isPointerLocked Player i then rotate mx my p else p)
  /\ (forall code now p cx cy mx my locked,
         sameBindings i (fst (Input.handleKeyDown Player code now i p))
         /\ sameBindings i (fst (Input.handleKeyUp Player code now i p))
         /\ sameBindings i (fst (Input.handleMouseMove Player cx cy mx my i p))
         /\ sameBindings i (Input.update Player i)
         /\ sameBindings i (Input.setPointerLocked Player locked i)).
Proof.
  intros (Hd & Hu & Hm).
  split; [| split; [| split; [| split]]].
  - intros k now p; apply bound_keyDown; exact Hd.
  - intros k now p; apply bound_keyUp; exact Hu.
  - intros code now p Hne; apply unbound_key; assumption.
  - intros cx cy mx my p; unfold Input.handleMouseMove.
    cbn [Input.isPointerLocked Input.set_mousePosition].
    destruct (Input.isPointerLocked Player i); [| reflexivity].
    cbn [snd Input.mouseCallbacks Input.set_mouseDelta Input.set_mousePosition].
    rewrite Hm; reflexivity.
  - intros code now p cx cy mx my locked; unfold sameBindings.
    unfold Input.handleKeyDown, Input.handleKeyUp, Input.handleMouseMove.
    cbn [Input.keyDownCallbacks Input.keyUpCallbacks Input.set_keys
         Input.isPointerLocked Input.set_mousePosition].
    destruct (JsMap.get code (Input.keyDownCallbacks Player i)),
      (JsMap.get code (Input.keyUpCallbacks Player i)),
      (Input.isPointerLocked Player i); repeat split.
Qed.

Lemma bindings_dispatch_to_handlers_witness :
  snd (Input.handleKeyDown Player "Space"%string 1000
         (setupInputBindings (Input.new Player)) spawned)
  = pressedInAir.
Proof.
  destruct (bindings_dispatch_to_handlers (setupInputBindings (Input.new Player)))
    as (H & _).
  - repeat split.
  - exact (H Space 1000 spawned).
Defined.

(** * Spawning *)

Section EntitySpawnerFacts.

Import EntitySpawner.

Variable P : Type.
Variable emptyProps : P.
Variable M : Type.
Variable addEntity : Entity P -> M -> Completion unit * M.

Local Abbreviation spawn := (spawnEntity P M addEntity).
Local Abbreviation spawnAll := (spawnEntities P M addEntity).
Local Abbreviation loop := (spawnLoop P M addEntity).
Local Abbreviation added := (addAll P M addEntity).

Lemma spawnEntity_built (r : Registry P) (d : EntityData P) (m : M) :
  spawn r (Data P d) m
  = match built P r d with
    | Some e =>
        (match fst (addEntity e m) with
         | Returned _ => Returned (Some e)
         | Thrown => Returned None
         end, snd (addEntity e m))
    | None => (Returned None, m)
    end.
Proof.
  unfold spawnEntity, built.
  destruct (usableType P d); [| reflexivity].
  destruct (JsMap.get _ r) as [c |]; [| reflexivity].
  destruct (c d) as [e |]; [| reflexivity].
  destruct (addEntity e m) as [[u |] m']; reflexivity.
Qed.

Lemma spawnEntity_data (r : Registry P) (d : EntityData P) (m : M) :
  exists o,
    spawn r (Data P d) m
    = (Returned o,
       match built P r d with Some e => snd (addEntity e m) | None => m end).
Proof.
  rewrite spawnEntity_built.
  destruct (built P r d) as [e |]; [| exists None; reflexivity].
  destruct (fst (addEntity e m)); [exists (Some e) | exists None]; reflexivity.
Qed.

Lemma spawnEntity_thrown (r : Registry P) (v : Value P) (m : M) :
  fst (spawn r v m) = Thrown <-> v = Nullish P.
Proof.
  destruct v as [| d].
  - split; reflexivity.
  - destruct (spawnEntity_data r d m) as [o ->]; split; discriminate.
Qed.

Lemma usableType_some (d : EntityData P) (ty : String.string) :
  usableType P d = Some ty <-> ed_type P d = Some ty /\ ty <> String.EmptyString.
Proof.
  unfold usableType; destruct (ed_type P d) as [t |].
  - destruct (String.eqb_spec t String.EmptyString) as [E | E]; split.
    + discriminate.
    + intros [H1 H2]; inversion H1; subst; contradiction.
    + intros H; inversion H; subst; split; [reflexivity | exact E].
    + intros [H1 _]; exact H1.
  - split; [discriminate | intros [H _]; discriminate].
Qed.

Lemma built_some (r : Registry P) (d : EntityData P) (e : Entity P) :
  built P r d = Some e <->
  exists ty c,
    ed_type P d = Some ty /\ ty <> String.EmptyString
    /\ JsMap.get ty r = Some c /\ c d = Some e.
Proof.
  unfold built.
  destruct (usableType P d) as [ty |] eqn:Hu.
  - apply usableType_some in Hu; destruct Hu as [Ht Hne].
    destruct (JsMap.get ty r) as [c |] eqn:Hg; split.
    + intros H; exists ty, c; auto.
    + intros (ty' & c' & Ht' & _ & Hg' & Hc').
      rewrite Ht in Ht'; inversion Ht'; subst ty'.
      rewrite Hg in Hg'; inversion Hg'; subst c'; exact Hc'.
    + discriminate.
    + intros (ty' & c' & Ht' & _ & Hg' & _).
      rewrite Ht in Ht'; inversion Ht'; subst ty'; congruence.
  - split; [discriminate |].
    intros (ty' & c' & Ht' & Hne & _).
    assert (Hs : usableType P d = Some ty') by (apply usableType_some; auto).
    congruence.
Qed.

(** X16.  [spawnEntity] throws exactly when it is given [null] or
    [undefined], the destructuring of line 70 being outside the [try], and
    then the entity manager is as it was.  Given anything else it returns:
    an entity exactly when the data has a non-empty type, a constructor is
    registered for it, the constructor does not throw and [addEntity]
    returns; the entity manager is then as [addEntity] left it.  It returns
    [null] with the entity manager untouched when nothing can be built
    (type missing or empty, unknown type, constructor failure), and [null]
    with the entity manager as the failed call left it when [addEntity]
    throws. *)
Theorem spawnEntity_outcomes (r : Registry P) (v : Value P) (m : M) :
  (fst (spawn r v m) = Thrown <-> v = Nullish P)
  /\ (fst (spawn r v m) = Thrown -> snd (spawn r v m) = m)
  /\ (forall e,
        fst (spawn r v m) = Returned (Some e) <->
        exists d ty c,
          v = Data P d
          /\ ed_type P d = Some ty /\ ty <> String.EmptyString
          /\ JsMap.get ty r = Some c /\ c d = Some e
          /\ fst (addEntity e m) = Returned tt)
  /\ (forall e,
        fst (spawn r v m) = Returned (Some e) -> snd (spawn r v m) = snd (addEntity e m))
  /\ (forall d, v = Data P d -> built P r d = None -> spawn r v m = (Returned None, m))
  /\ (forall d e,
        v = Data P d -> built P r d = Some e -> fst (addEntity e m) = Thrown ->
        spawn r v m = (Returned None, snd (addEntity e m))).
Proof.
  split; [apply spawnEntity_thrown |].
  split.
  { intros H; apply spawnEntity_thrown in H; subst v; reflexivity. }
  assert (Hret : forall e,
             fst (spawn r v m) = Returned (Some e) <->
             exists d, v = Data P d /\ built P r d = Some e
                       /\ fst (addEntity e m) = Returned tt).
  { intros e; destruct v as [| d].
    - split; [discriminate | intros (d & H & _); discriminate].
    - rewrite spawnEntity_built.
      destruct (built P r d) as [e' |] eqn:Hb; cbn [fst].
      + destruct (fst (addEntity e' m)) as [[] |] eqn:Ha; split.
        * intros H; inversion H; subst e'; exists d; auto.
        * intros (d' & Hd & Hb' & _); inversion Hd; subst d'.
          rewrite Hb in Hb'; inversion Hb'; reflexivity.
        * discriminate.
        * intros (d' & Hd & Hb' & Ha'); inversion Hd; subst d'.
          rewrite Hb in Hb'; inversion Hb'; subst e'; congruence.
      + split; [discriminate |].
        intros (d' & Hd & Hb' & _); inversion Hd; subst d'; congruence. }
  split; [| split; [| split]].
  - intros e; rewrite Hret; split.
    + intros (d & Hv & Hb & Ha).
      apply built_some in Hb; destruct Hb as (ty & c & H1 & H2 & H3 & H4).
      exists d, ty, c; auto 10.
    + intros (d & ty & c & Hv & H1 & H2 & H3 & H4 & Ha).
      exists d; split; [exact Hv | split; [| exact Ha]].
      apply built_some; exists ty, c; auto.
  - intros e H; apply Hret in H; destruct H as (d & -> & Hb & Ha).
    rewrite spawnEntity_built, Hb; reflexivity.
  - intros d -> Hb; rewrite spawnEntity_built, Hb; reflexivity.
  - intros d e -> Hb Ha; rewrite spawnEntity_built, Hb, Ha; reflexivity.
Qed.

Lemma spawnLoop_data (r : Registry P) (ds : list (EntityData P)) (rest : list (Value P))
    (m : M) :
  loop r (map (Data P) ds ++ rest) m = loop r rest (added (builtAll P r ds) m).
Proof.
  revert m; induction ds as [| d ds IH]; intros m; [reflexivity |].
  cbn [map app spawnLoop builtAll].
  destruct (spawnEntity_data r d m) as [o ->].
  rewrite IH; destruct (built P r d); reflexivity.
Qed.

Lemma spawnLoop_skip (r : Registry P) (l1 l2 : list (Value P)) (d : EntityData P) (m : M) :
  built P r d = None ->
  loop r (l1 ++ Data P d :: l2) m = loop r (l1 ++ l2) m.
Proof.
  intros Hd; revert m; induction l1 as [| v l1 IH]; intros m.
  - cbn [app spawnLoop]; rewrite spawnEntity_built, Hd; reflexivity.
  - cbn [app spawnLoop].
    destruct (spawn r v m) as [[o |] m']; [apply IH | reflexivity].
Qed.

Lemma spawnLoop_thrown (r : Registry P) (l : list (Value P)) (m : M) :
  fst (loop r l m) = Thrown <-> In (Nullish P) l.
Proof.
  revert m; induction l as [| v l IH]; intros m.
  - split; [discriminate | intros []].
  - cbn [spawnLoop In].
    destruct v as [| d].
    + split; [left; reflexivity | reflexivity].
    + destruct (spawnEntity_data r d m) as [o ->].
      rewrite IH; split; [right; assumption |].
      intros [H | H]; [discriminate | exact H].
Qed.

(** X17.  [spawnEntities] walks the array in order.  While the entries
    are data it hands each entity that can be built to [addEntity] and skips
    an entry from which nothing can be built, without effect on the entries
    before or after it.  At the first [null] or [undefined] entry the
    exception of [spawnEntity] leaves the loop: the entities built before it
    stay, the entries after it are never reached, and the call throws.  So
    [spawnEntities] throws exactly when the array holds such an entry.  An
    argument that is missing or no array changes nothing, and so does an
    empty array. *)
Theorem spawnEntities_adds_what_can_be_built (r : Registry P) (m : M) :
  (forall ds,
      spawnAll r (Some (map (Data P) ds)) m = (Returned tt, added (builtAll P r ds) m))
  /\ (forall ds rest,
         spawnAll r (Some (map (Data P) ds ++ Nullish P :: rest)) m
         = (Thrown, added (builtAll P r ds) m))
  /\ (forall l, fst (spawnAll r (Some l) m) = Thrown <-> In (Nullish P) l)
  /\ (forall l1 d l2,
         built P r d = None ->
         spawnAll r (Some (l1 ++ Data P d :: l2)) m = spawnAll r (Some (l1 ++ l2)) m)
  /\ (forall ds, (length (builtAll P r ds) <= length ds)%nat)
  /\ spawnAll r None m = (Returned tt, m)
  /\ spawnAll r (Some []) m = (Returned tt, m).
Proof.
  split; [| split; [| split; [| split; [| split; [| split]]]]]; try reflexivity.
  - intros ds; unfold spawnEntities.
    rewrite <- (app_nil_r (map (Data P) ds)), spawnLoop_data; reflexivity.
  - intros ds rest; unfold spawnEntities; rewrite spawnLoop_data; reflexivity.
  - intros l; apply spawnLoop_thrown.
  - intros l1 d l2 Hd; apply spawnLoop_skip; exact Hd.
  - induction ds as [| d ds IH]; [apply Nat.le_refl |].
    cbn; destruct (built P r d); cbn; lia.
Qed.

(** X18.  In the registry the last registration of a type wins and
    leaves every other type as it was.  The registry of a new spawner knows
    the type [target] only, whose constructor takes the position from the
    data (a missing coordinate is 0) and the properties from the data or, if
    it has none, the empty object, and fails when the data has no
    position. *)
Theorem registry_last_registration_wins
    (r : Registry P) (ty : String.string) (c c' : Constructor P) (d : EntityData P) :
  (ty <> String.EmptyString -> ed_type P d = Some ty ->
   built P (registerEntity P ty c' (registerEntity P ty c r)) d = c' d)
  /\ (forall ty', ty' <> ty -> ed_type P d = Some ty' ->
        built P (registerEntity P ty c r) d = built P r d)
  /\ (ed_type P d = Some "target"%string ->
      built P (newRegistry P emptyProps) d
      = match ed_position P d with
        | Some (x, y, z) =>
            Some (mkEntity P (Vector3.new (orZero x) (orZero y) (orZero z))
                    (match ed_properties P d with Some q => q | None => emptyProps end))
        | None => None
        end)
  /\ (ed_type P d <> Some "target"%string -> built P (newRegistry P emptyProps) d = None).
Proof.
  split; [| split; [| split]].
  - intros Hne Ht; unfold built.
    rewrite (proj2 (usableType_some d ty)) by auto.
    unfold registerEntity; rewrite JsMap_get_set_eq; reflexivity.
  - intros ty' Hne Ht; unfold built, usableType; rewrite Ht.
    destruct (String.eqb ty' String.EmptyString); [reflexivity |].
    unfold registerEntity; rewrite JsMap_get_set_ne by congruence; reflexivity.
  - intros Ht; unfold built, usableType; rewrite Ht; cbn.
    unfold targetConstructor.
    destruct (ed_position P d) as [[[x y] z] |]; reflexivity.
  - intros Ht; unfold built.
    destruct (usableType P d) as [ty0 |] eqn:Hu; [| reflexivity].
    apply usableType_some in Hu; destruct Hu as [Hty _].
    cbn.
    destruct (String.eqb_spec ty0 "target"%string) as [E | E]; [| reflexivity].
    subst ty0; contradiction.
Qed.

End EntitySpawnerFacts.

Lemma spawnEntity_outcomes_witness :
  EntitySpawner.spawnEntity unit listManager listAdd
    (EntitySpawner.newRegistry unit tt) (EntitySpawner.Data unit pickupData) []
  = (EntitySpawner.Returned None, []).
Proof.
  destruct (spawnEntity_outcomes unit listManager listAdd
              (EntitySpawner.newRegistry unit tt) (EntitySpawner.Data unit pickupData) [])
    as (_ & _ & _ & _ & H & _).
  apply (H pickupData); reflexivity.
Defined.

Lemma spawnEntities_adds_what_can_be_built_witness :
  EntitySpawner.spawnEntities unit listManager listAdd (EntitySpawner.newRegistry unit tt)
    (Some ([EntitySpawner.Data unit targetData]
           ++ EntitySpawner.Data unit untypedData
           :: [EntitySpawner.Nullish unit; EntitySpawner.Data unit flatTargetData])) []
  = (EntitySpawner.Thrown,
     [EntitySpawner.mkEntity unit (Vector3.new 1 2 3) tt]).
Proof.
  destruct (spawnEntities_adds_what_can_be_built unit listManager listAdd
              (EntitySpawner.newRegistry unit tt) []) as (_ & _ & _ & H & _).
  rewrite H by reflexivity.
  reflexivity.
Defined.

Lemma registry_last_registration_wins_witness :
  EntitySpawner.built unit (EntitySpawner.newRegistry unit tt) flatTargetData
  = Some (EntitySpawner.mkEntity unit (Vector3.new 4 0 5) tt).
Proof.
  destruct (registry_last_registration_wins unit tt (EntitySpawner.newRegistry unit tt)
              "target"%string (fun _ => None) (fun _ => None) flatTargetData)
    as (_ & _ & H & _).
  rewrite H; reflexivity.
Defined.

(** ** The player's spawn point *)

(** X19.  [MapLoader.setPlayerSpawn] puts the player and its body at the
    spawn position, a missing coordinate counting as 0, and sets the yaw to
    the rotation's [y] (0 when that is missing) only if the spawn data has a
    rotation.  It leaves the pitch, the body's velocity and ground flag and
    the jump state as they are, so the next tick still finds the player at
    the spawn position; without spawn data or without a player it does
    nothing. *)
Theorem spawn_places_player_and_body (sd : SpawnData) (p : Player) (clk : Clock) (dt : R) :
  let pos := Vector3.new (orZero (sd_x sd)) (orZero (sd_y sd)) (orZero (sd_z sd)) in
  (exists q,
      MapLoader_setPlayerSpawn (Some sd) (Some p) = Some q
      /\ position q = pos
      /\ pb_position (physicsBody q) = pos
      /\ position (Player_update clk dt q) = pos
      /\ Euler.y (viewRotation q)
         = match sd_rotation sd with
           | Some ry => orZero ry
           | None => Euler.y (viewRotation p)
           end
      /\ Euler.x (viewRotation q) = Euler.x (viewRotation p)
      /\ pb_velocity (physicsBody q) = pb_velocity (physicsBody p)
      /\ pb_onGround (physicsBody q) = pb_onGround (physicsBody p)
      /\ jumpCount q = jumpCount p
      /\ jumpRequested q = jumpRequested p
      /\ moveInput q = moveInput p)
  /\ MapLoader_setPlayerSpawn None (Some p) = Some p
  /\ MapLoader_setPlayerSpawn (Some sd) None = None.
Proof.
  cbv zeta; split; [| split; reflexivity].
  eexists; split; [reflexivity |].
  assert (Hpos : forall q, position (Player_update clk dt q) = pb_position (physicsBody q)).
  { intros q.
    assert (Hm : forall r, position (Movement_update clk dt r) = position r).
    { intros r; unfold Movement_update, applyFriction, applyAccelerationWithMomentum,
        forwardBoost, detectDirectionChange.
      repeat break_if; reflexivity. }
    assert (Hj : forall r, position (jumpPhase clk r) = position r).
    { intros r; unfold jumpPhase, processJump, applyJumpBoost.
      repeat break_if; reflexivity. }
    unfold Player_update; rewrite Hm, Hj.
    unfold trackGround; destruct q as [? ? ? ? ? ? ? ? g ? ? ? ? [bp bv bg] ? ?].
    destruct bg, g; reflexivity. }
  rewrite Hpos.
  unfold setPlayerSpawn; destruct (sd_rotation sd) as [ry |]; repeat split.
Qed.

(** * The engine loop *)

Lemma keyOfCode_some (code : String.string) (k : Key) :
  keyOfCode code = Some k -> code = keyCode k.
Proof.
  unfold keyOfCode.
  repeat match goal with
  | |- context [String.eqb code ?s] => destruct (String.eqb_spec code s)
  end; intros H; inversion H; subst; reflexivity.
Qed.

Lemma keyOfCode_none (code : String.string) :
  keyOfCode code = None -> forall k, code <> keyCode k.
Proof.
  unfold keyOfCode.
  repeat match goal with
  | |- context [String.eqb code ?s] => destruct (String.eqb_spec code s)
  end; intros H; try discriminate.
  intros k; destruct k; cbn; assumption.
Qed.

Lemma run_app (es1 es2 : list Event) (p : Player) :
  run (es1 ++ es2) p = run es2 (run es1 p).
Proof.
  revert p; induction es1 as [| e es1 IH]; intros p; [reflexivity |].
  cbn; apply IH.
Qed.

Lemma run_pitch (es : list Event) (p : Player) : pitchInRange p -> pitchInRange (run es p).
Proof.
  revert p; induction es as [| e es IH]; intros p Hp; [exact Hp |].
  cbn [run]; apply IH, step_pitch, Hp.
Qed.

Lemma run_keyboardInput (es : list Event) (p : Player) :
  keyboardInput p -> keyboardInput (run es p).
Proof.
  revert p; induction es as [| e es IH]; intros p Hp; [exact Hp |].
  cbn [run]; apply IH, step_keyboardInput, Hp.
Qed.

Lemma handlers_keep_bindings (i j : Input.t Player) :
  sameBindings i j ->
  forall code now p cx cy mx my locked,
    sameBindings i (fst (Input.handleKeyDown Player code now j p))
    /\ sameBindings i (fst (Input.handleKeyUp Player code now j p))
    /\ sameBindings i (fst (Input.handleMouseMove Player cx cy mx my j p))
    /\ sameBindings i (Input.update Player j)
    /\ sameBindings i (Input.setPointerLocked Player locked j).
Proof.
  intros (Hd & Hu & Hm) code now p cx cy mx my locked; unfold sameBindings.
  unfold Input.handleKeyDown, Input.handleKeyUp, Input.handleMouseMove.
  cbn [Input.keyDownCallbacks Input.keyUpCallbacks Input.set_keys
       Input.isPointerLocked Input.set_mousePosition].
  destruct (JsMap.get code (Input.keyDownCallbacks Player j)),
    (JsMap.get code (Input.keyUpCallbacks Player j)),
    (Input.isPointerLocked Player j); repeat split; assumption.
Qed.

Lemma engine_step_playedFrom (p0 : Player) (ev : Engine.Event) (e : Engine.t) :
  playedFrom p0 e -> playedFrom p0 (Engine.step ev e).
Proof.
  intros [[es Hp] Hb].
  assert (Hsnoc : forall e', exists es', Some (step e' (run es p0)) = Some (run es' p0)).
  { intros e'; exists (es ++ [e']); rewrite run_app; reflexivity. }
  destruct Hb as (Hd & Hu & Hm).
  pose proof (handlers_keep_bindings _ _ (conj Hd (conj Hu Hm))) as Hkeep.
  destruct ev as [code now | code now | cx cy mx my | locked | | sd | raw clk physics];
    unfold Engine.step, Engine.gameLoop, playedFrom; rewrite ?Hp;
    cbn [Engine.player Engine.input].
  - split; [| apply (Hkeep code now (run es p0) 0 0 0 0 false)].
    destruct (keyOfCode code) as [k |] eqn:Hk.
    + apply keyOfCode_some in Hk; subst code.
      rewrite bound_keyDown by exact Hd.
      destruct (Hsnoc (EKeyDown k now)) as [es' He]; exists es'; exact He.
    + destruct (unbound_key (Engine.input e) code now (run es p0) Hd Hu
                  (keyOfCode_none code Hk)) as [-> _].
      exists es; reflexivity.
  - split; [| apply (Hkeep code now (run es p0) 0 0 0 0 false)].
    destruct (keyOfCode code) as [k |] eqn:Hk.
    + apply keyOfCode_some in Hk; subst code.
      rewrite bound_keyUp by exact Hu.
      destruct (Hsnoc (EKeyUp k)) as [es' He]; exists es'; exact He.
    + destruct (unbound_key (Engine.input e) code now (run es p0) Hd Hu
                  (keyOfCode_none code Hk)) as [_ ->].
      exists es; reflexivity.
  - split; [| apply (Hkeep String.EmptyString 0 (run es p0) cx cy mx my false)].
    unfold Input.handleMouseMove.
    cbn [Input.isPointerLocked Input.set_mousePosition].
    destruct (Input.isPointerLocked Player (Engine.input e)).
    + cbn [snd Input.mouseCallbacks Input.set_mouseDelta Input.set_mousePosition].
      rewrite Hm.
      destruct (Hsnoc (EMouseMove mx my)) as [es' He]; exists es'; exact He.
    + exists es; reflexivity.
  - split; [exists es; reflexivity |].
    apply (Hkeep String.EmptyString 0 (run es p0) 0 0 0 0 locked).
  - split; [exists es; reflexivity | repeat split; assumption].
  - split; [| repeat split; assumption].
    destruct sd as [sd |]; cbn [MapLoader_setPlayerSpawn]; [| exists es; reflexivity].
    destruct (Hsnoc (ESpawn (Vector3.new (orZero (sd_x sd)) (orZero (sd_y sd))
                                         (orZero (sd_z sd)))
                            (option_map orZero (sd_rotation sd)))) as [es' He].
    exists es'; exact He.
  - split; [| apply (Hkeep String.EmptyString 0 (run es p0) 0 0 0 0 false)].
    destruct (Engine.isPaused e); cbn [negb]; [exists es; reflexivity |].
    exists (es ++ [ETick clk (Engine.frameDelta raw);
                   EPhysics (physics (Engine.frameDelta raw))]).
    rewrite run_app; reflexivity.
Qed.

Lemma engine_run_playedFrom (p0 : Player) (evs : list Engine.Event) (e : Engine.t) :
  playedFrom p0 e -> playedFrom p0 (Engine.run evs e).
Proof.
  revert e; induction evs as [| ev evs IH]; intros e He; [exact He |].
  cbn [Engine.run]; apply IH, engine_step_playedFrom, He.
Qed.

(** X20.  Whatever DOM events, map spawns and frames reach an
    initialised engine, its player is the outcome of a run of player events
    (key handlers, rotations, spawns, ticks and physics steps) from the
    newly constructed player, and the input keeps the player's bindings.
    Hence in every state of the engine the pitch is within its clamp, the
    move input is one the keys can produce, and the jump count is between 0
    and [maxJumps] when the configuration allows at least one jump. *)
Theorem engine_history_is_a_player_run
    (c : Config) (v0 : Vector3.t) (g0 : bool) (evs : list Engine.Event) :
  let e := Engine.run evs (Engine.init c v0 g0 Engine.new) in
  exists p es,
    Engine.player e = Some p
    /\ p = run es (Player_new c v0 g0)
    /\ sameBindings (setupInputBindings (Input.new Player)) (Engine.input e)
    /\ pitchInRange p
    /\ keyboardInput p
    /\ ((1 <= config_maxJumps c)%Z -> (0 <= jumpCount p <= maxJumps p)%Z).
Proof.
  cbv zeta.
  assert (H0 : playedFrom (Player_new c v0 g0) (Engine.init c v0 g0 Engine.new)).
  { split; [exists []; reflexivity | repeat split]. }
  destruct (engine_run_playedFrom _ evs _ H0) as [[es Hp] Hb].
  exists (run es (Player_new c v0 g0)), es.
  split; [exact Hp | split; [reflexivity | split; [exact Hb |]]].
  split; [| split].
  - apply run_pitch; unfold pitchInRange; cbn; pose proof PI2_1; lra.
  - apply run_keyboardInput; unfold keyboardInput, axisValue; cbn; auto.
  - intros Hc.
    apply run_jumpCount; [exact Hc | unfold jumpCountInRange; cbn; lia].
Qed.

Lemma engine_history_is_a_player_run_witness :
  exists p,
    Engine.player
      (Engine.run [Engine.KeyDown "Space"%string 1000;
                   Engine.Frame (1 / 60) (clockAt 1010) (fun _ b => b)]
         (Engine.init main_config Vector3.zero false Engine.new))
    = Some p
    /\ (0 <= jumpCount p <= maxJumps p)%Z.
Proof.
  destruct (engine_history_is_a_player_run main_config Vector3.zero false
              [Engine.KeyDown "Space"%string 1000;
               Engine.Frame (1 / 60) (clockAt 1010) (fun _ b => b)])
    as (p & es & Hp & _ & _ & _ & _ & Hj).
  exists p; split; [exact Hp | apply Hj; cbn; lia].
Defined.

Lemma engine_step_paused (ev : Engine.Event) (e : Engine.t) :
  Engine.isPaused e = true ->
  Engine.isPaused (Engine.step ev e) = true
  /\ (isFrame ev = true -> Engine.player (Engine.step ev e) = Engine.player e).
Proof.
  intros Hp.
  destruct ev as [code now | code now | cx cy mx my | locked | | sd | raw clk physics];
    unfold Engine.step, Engine.gameLoop; destruct (Engine.player e);
    cbn [Engine.isPaused Engine.player isFrame]; rewrite ?Hp;
    split; try reflexivity; try discriminate; assumption.
Qed.

(** X21.  Pausing is permanent and freezes only the ticks.  No event the
    engine handles clears [isPaused] once the page was hidden; while paused,
    frames leave the player exactly as it is, yet they still consume the
    input edges, and key events still reach the player: a jump pressed
    while paused is latched with its timestamp. *)
Theorem pause_is_permanent (evs : list Engine.Event) (e : Engine.t) :
  Engine.isPaused (Engine.step Engine.VisibilityHidden e) = true
  /\ (Engine.isPaused e = true ->
      Engine.isPaused (Engine.run evs e) = true
      /\ (forallb isFrame evs = true ->
          Engine.player (Engine.run evs e) = Engine.player e))
  /\ (forall raw clk physics c,
         Input.wasKeyPressed Player c
           (Engine.input (Engine.gameLoop raw clk physics e)) = false)
  /\ (forall p now,
         Engine.player e = Some p ->
         sameBindings (setupInputBindings (Input.new Player)) (Engine.input e) ->
         Engine.player (Engine.step (Engine.KeyDown "Space"%string now) e)
         = Some (set_jumpBufferTime (set_jumpRequested p true) now)).
Proof.
  split; [destruct (Engine.player e); reflexivity |].
  split; [| split].
  - revert e; induction evs as [| ev evs IH]; intros e Hp; [split; [exact Hp | reflexivity] |].
    destruct (engine_step_paused ev e Hp) as [Hs Hf].
    destruct (IH _ Hs) as [Hr Hk].
    cbn [Engine.run]; split; [exact Hr |].
    intros Hall; cbn in Hall; apply andb_true_iff in Hall; destruct Hall as [H1 H2].
    rewrite (Hk H2); apply Hf; exact H1.
  - intros raw clk physics c; unfold Engine.gameLoop, Input.wasKeyPressed; cbn.
    apply andb_negb_r.
  - intros p now Hp (Hd & _); unfold Engine.step; rewrite Hp; cbn [Engine.player].
    pose proof (bound_keyDown (Engine.input e) Space now p Hd) as Hk.
    cbn [keyCode] in Hk; rewrite Hk; reflexivity.
Qed.

Lemma pause_is_permanent_witness :
  Engine.player
    (Engine.run [Engine.Frame (1 / 60) (clockAt 1010) (fun _ b => b);
                 Engine.Frame (1 / 60) (clockAt 1030) (fun _ b => b)]
       (Engine.step Engine.VisibilityHidden
          (Engine.init main_config Vector3.zero false Engine.new)))
  = Some spawned.
Proof.
  destruct (pause_is_permanent
              [Engine.Frame (1 / 60) (clockAt 1010) (fun _ b => b);
               Engine.Frame (1 / 60) (clockAt 1030) (fun _ b => b)]
              (Engine.step Engine.VisibilityHidden
                 (Engine.init main_config Vector3.zero false Engine.new)))
    as (_ & H & _).
  destruct H as [_ Hk]; [reflexivity |].
  rewrite Hk; reflexivity.
Defined.

(** ** The frame's time step *)

(** X22.  The engine hands no tick a time step above 1/30, and for any
    raw step that is not negative the idle damping factor is then
    [1 - friction * dt], at least 59/60: the clamp [max(0, ...)] of
    [applyFriction] never comes into play, and a single idle frame takes at
    most one sixtieth off the horizontal speed of a body faster than
    0.01. *)
Theorem frame_step_keeps_damping_positive
    (raw : R) (clk : Clock) (p : Player) :
  0 <= raw ->
  let dt := Engine.frameDelta raw in
  0 <= dt <= 1 / 30
  /\ (raw <= 1 / 30 -> dt = raw)
  /\ (forall g s,
         idleDamping g s dt = 1 - idleFriction g s * dt
         /\ 59 / 60 <= idleDamping g s dt <= 1)
  /\ (Vector3.lengthSq (moveInput p) = 0 ->
      1 / 100 <= Vector3.hspeed (body_velocity p) ->
      59 / 60 * Vector3.hspeed (body_velocity p)
      <= Vector3.hspeed (body_velocity (Movement_update clk dt p))
      <= Vector3.hspeed (body_velocity p)).
Proof.
  intros Hraw dt.
  assert (Hdt : 0 <= dt <= 1 / 30).
  { unfold dt, Engine.frameDelta; split; [apply Rmin_glb; lra | apply Rmin_r]. }
  assert (Hdamp : forall g s,
             idleDamping g s dt = 1 - idleFriction g s * dt
             /\ 59 / 60 <= idleDamping g s dt <= 1).
  { intros g s.
    assert (Hf : 0 <= idleFriction g s <= 5 / 10).
    { unfold idleFriction; destruct g, (Num.gtb s 5); unfold_tuning; lra. }
    assert (Hpos : 59 / 60 <= 1 - idleFriction g s * dt <= 1) by nra.
    unfold idleDamping; rewrite Rmax_right by lra.
    split; [reflexivity | exact Hpos]. }
  split; [exact Hdt | split; [| split; [exact Hdamp |]]].
  - intros Hle; unfold dt, Engine.frameDelta; apply Rmin_left; exact Hle.
  - intros Hin Hs.
    rewrite Movement_update_idle by exact Hin.
    rewrite applyFriction_velocity; cbv zeta.
    set (v := body_velocity p) in *.
    rewrite (proj2 (NumFacts.ltb_false _ _) Hs).
    destruct (Hdamp (onGround p) (Vector3.hspeed v)) as [_ Hd].
    set (d := idleDamping (onGround p) (Vector3.hspeed v) dt) in *.
    rewrite (hspeed_scaled (Vector3.x v) (Vector3.z v) d
               (Vector3.new (Vector3.x v * d) (Vector3.y v) (Vector3.z v * d)));
      [| lra | reflexivity | reflexivity].
    rewrite <- hspeed_eq.
    pose proof (hspeed_nonneg v); nra.
Qed.

Lemma frame_step_keeps_damping_positive_witness :
  Engine.frameDelta (1 / 60) = 1 / 60
  /\ 59 / 60 * Vector3.hspeed (body_velocity sliding)
     <= Vector3.hspeed
          (body_velocity (Movement_update (clockAt 0) (Engine.frameDelta 1) sliding)).
Proof.
  split.
  - destruct (frame_step_keeps_damping_positive (1 / 60) (clockAt 0) sliding)
      as (_ & H & _); [lra |].
    apply H; lra.
  - destruct (frame_step_keeps_damping_positive 1 (clockAt 0) sliding)
      as (_ & _ & _ & H); [lra |].
    apply H.
    + unfold Vector3.lengthSq; cbn; ring.
    + rewrite hspeed_eq; cbn.
      replace (100 * 100 + 0 * 0) with (100 * 100) by ring.
      rewrite sqrt_square; lra.
Defined.

(** X23.  On the ground the acceleration is in effect instantaneous.  On
    a tick with move input and a time step of at least 1/150 (any frame
    rate up to 150 per second), outside the momentum regime and with no
    jump boost due, the body's horizontal velocity is set to the target
    velocity in that one tick, whatever it was before; with horizontal
    input its speed is then exactly the walk or run speed. *)
Theorem ground_tick_reaches_target_at_once (clk : Clock) (dt : R) (p : Player) :
  Vector3.lengthSq (moveInput p) <> 0 ->
  onGround p = true ->
  1 / 150 <= dt ->
  boostDue p = false ->
  hasChangedDirection (movement (Movement_update clk dt p)) = false
  \/ Vector3.hspeed (body_velocity p) <= 2 ->
  let t := targetVelocity (movement (Movement_update clk dt p)) in
  let v' := body_velocity (Movement_update clk dt p) in
  Vector3.x v' = Vector3.x t
  /\ Vector3.z v' = Vector3.z t
  /\ (steering p ->
      Vector3.hspeed v' = (if isSprinting p then runSpeed else walkSpeed)).
Proof.
  intros Hin Hg Hdt Hb Hreg t v'.
  destruct (Movement_update_movement clk dt p Hin) as (_ & Ht & _ & _ & Hfl & _).
  cbv zeta in Ht, Hfl.
  set (a := aimed clk p) in *.
  destruct (aimed_fields clk p) as (Hv & Hog & _); fold a in Hv, Hog.
  assert (Hnm : hasChangedDirection (movement a)
                && Num.gtb (Vector3.hspeed (body_velocity a)) 2 = false).
  { destruct Hreg as [Hf | Hs].
    - rewrite <- Hfl, Hf; reflexivity.
    - rewrite Hv, (proj2 (NumFacts.gtb_false _ _) Hs); apply andb_false_r. }
  pose proof (blend_accelerated dt a Hnm) as Hblend; cbv zeta in Hblend.
  rewrite Hog, Hg in Hblend; cbn [negb] in Hblend.
  assert (Hk : forall acc, 150 <= acc -> Rmin (acc * dt) 1 = 1)
    by (intros acc Ha; apply Rmin_right; nra).
  assert (Hk1 : Rmin ((if Num.ltb (Vector3.hspeed (body_velocity a)) 2
                           || hasChangedDirection (movement a)
                       then groundAcceleration * dirChangeBoostMultiplier
                       else groundAcceleration) * dt) 1 = 1).
  { apply Hk; destruct (_ || _); unfold_tuning; lra. }
  rewrite Hk1 in Hblend.
  assert (Hty : Vector3.y (targetVelocity (movement a)) = 0) by apply aimed_target_y.
  assert (Hxz : Vector3.x (blendVelocity dt a) = Vector3.x (targetVelocity (movement a))
                /\ Vector3.z (blendVelocity dt a) = Vector3.z (targetVelocity (movement a))
                /\ Vector3.y (blendVelocity dt a) = 0).
  { rewrite Hblend; unfold acceleratedBlend; cbn [Vector3.x Vector3.y Vector3.z].
    rewrite Hty; repeat split; ring. }
  destruct Hxz as (Bx & Bz & By).
  assert (Hlen : Vector3.length (blendVelocity dt a)
                 = Vector3.length (targetVelocity (movement a))).
  { unfold Vector3.length, Vector3.lengthSq; rewrite Bx, Bz, By, Hty; reflexivity. }
  pose proof (target_length clk p) as Htl; fold a in Htl.
  destruct (capped_tick clk dt p Hin Hb) as (Hx & Hz & Hh & _); fold a v' in Hx, Hz, Hh.
  rewrite limitSpeed_under in Hx, Hz, Hh by (rewrite Hlen; unfold_tuning; lra).
  unfold t; rewrite Ht.
  split; [rewrite Hx; exact Bx | split; [rewrite Hz; exact Bz |]].
  intros Hs.
  rewrite Hh, Hlen.
  destruct (target_speed_ignores_diagonal_core clk dt p Hs) as [Hl _].
  rewrite Ht in Hl; exact Hl.
Qed.

Lemma ground_tick_reaches_target_at_once_witness :
  Vector3.hspeed (body_velocity (Movement_update (clockAt 0) (1 / 120) startingForward))
  = walkSpeed.
Proof.
  destruct (ground_tick_reaches_target_at_once (clockAt 0) (1 / 120) startingForward)
    as (_ & _ & H).
  - unfold Vector3.lengthSq; cbn; lra.
  - reflexivity.
  - lra.
  - reflexivity.
  - right; rewrite hspeed_eq; cbn.
    replace (0 * 0 + 0 * 0) with 0 by ring; rewrite sqrt_0; lra.
  - apply H; right; cbn; lra.
Defined.


Lemma key_edges_last_until_update_witness :
  Input.isKeyDown Player "KeyS"%string
    (fst (Input.handleKeyDown Player "KeyW"%string 0 (Input.new Player) spawned))
  = false.
Proof.
  destruct (key_edges_last_until_update Player "KeyW"%string 0 (Input.new Player) spawned)
    as (_ & _ & _ & _ & H & _).
  destruct (H "KeyS"%string) as [H1 _]; [discriminate |].
  rewrite H1; reflexivity.
Defined.
